(** * validate-package.js: the VPkg package validator

    A shallow embedding of [src/validate-package.js] (class
    [PackageValidator]) and the properties of its validation run.

    Conventions of the model.

    - A JavaScript string is a [string]: a sequence of code units below 256.
      The character classes of the regular expressions ([\s], [\w], [\d],
      [.]) and the case conversions are the JavaScript ones restricted to
      that range.
    - A value produced by [yaml.load] is a [jsval].  Numbers are the
      integer-valued ones: [VNum z] is the Number value of the integer
      [z], the double nearest to it.  The validator only tests a number
      for truthiness and prints it.
    - Node's [fs] and [path] modules, [js-yaml] and the wall clock are not
      part of the repository: they are the fields of [node_env].
    - The validator object ([this.errors], [this.warnings], [this.info])
      and the lines written with [console.log] form the [state]; a method
      is a function from states to a result and a new state, and a thrown
      exception is the result [Throw message].

    The file has the model first ([JsString], [RegExp], [Js], [node_env],
    the methods of [PackageValidator] under their own names), then the
    vocabulary of the statements (findings, the rules one by one, the
    text of the report, a small file system for worked examples), then
    the proofs. *)

From Stdlib Require Import String Ascii List Bool Arith ZArith Lia DecimalString.
Import ListNotations.

Local Open Scope string_scope.
Local Open Scope nat_scope.
Local Open Scope list_scope.

(** String concatenation ([+] on JavaScript strings, template literals). *)
Infix "+++" := String.append (right associativity, at level 60).

(* ================================================================== *)
(** * JavaScript strings *)
(* ================================================================== *)

Module JsString.

Definition code (c : ascii) : nat := nat_of_ascii c.

Definition between (lo hi : nat) (c : ascii) : bool :=
  (lo <=? code c) && (code c <=? hi).

(** [\d] *)
Definition is_digit (c : ascii) : bool := between 48 57 c.

(** [\w]: [A-Za-z0-9_] *)
Definition is_word (c : ascii) : bool :=
  between 65 90 c || between 97 122 c || is_digit c || (code c =? 95).

(** [\s]: tab, line feed, vertical tab, form feed, carriage return, space
    and the no-break space. *)
Definition is_space (c : ascii) : bool :=
  between 9 13 c || (code c =? 32) || (code c =? 160).

(** Line terminators: line feed and carriage return. *)
Definition is_line_terminator (c : ascii) : bool :=
  (code c =? 10) || (code c =? 13).

(** [.] without the [s] flag. *)
Definition is_dot (c : ascii) : bool := negb (is_line_terminator c).

(** [[a-z0-9\-]] *)
Definition is_name_char (c : ascii) : bool :=
  between 97 122 c || is_digit c || (code c =? 45).

Definition is_char (x : ascii) (c : ascii) : bool := Ascii.eqb x c.

Definition lower_char (c : ascii) : ascii :=
  if between 65 90 c || between 192 214 c || between 216 222 c
  then ascii_of_nat (code c + 32) else c.

(** The three characters of the range whose upper case lies outside it
    (181, 223 and 255) are left as they are; the validator upper-cases
    only the first character of a function name, which is none of them. *)
Definition upper_char (c : ascii) : ascii :=
  if between 97 122 c || between 224 246 c || between 248 254 c
  then ascii_of_nat (code c - 32) else c.

Fixpoint map_chars (f : ascii -> ascii) (s : string) : string :=
  match s with
  | EmptyString => EmptyString
  | String c s' => String (f c) (map_chars f s')
  end.

(** [s.toLowerCase()] and [s.toUpperCase()] *)
Definition toLowerCase (s : string) : string := map_chars lower_char s.
Definition toUpperCase (s : string) : string := map_chars upper_char s.

(** [s.charAt(i)]: the empty string out of range. *)
Definition charAt (i : nat) (s : string) : string :=
  match String.get i s with
  | Some c => String c EmptyString
  | None => EmptyString
  end.

(** [s.startsWith(p)] *)
Definition startsWith (s p : string) : bool := String.prefix p s.

(** [s.includes(search)] *)
Fixpoint includes (s search : string) : bool :=
  startsWith s search ||
  match s with
  | EmptyString => false
  | String _ s' => includes s' search
  end.

(** [s.endsWith(suffix)] *)
Fixpoint endsWith (s suffix : string) : bool :=
  String.eqb s suffix ||
  match s with
  | EmptyString => false
  | String _ s' => endsWith s' suffix
  end.

(** [s.replace(search, replacement)] with a string [search]: the first
    occurrence only. *)
Fixpoint replace (s search replacement : string) : string :=
  if startsWith s search
  then replacement +++ String.substring (String.length search)
                                        (String.length s - String.length search) s
  else match s with
       | EmptyString => EmptyString
       | String c s' => String c (replace s' search replacement)
       end.

(** [parts.join(sep)] *)
Definition join (sep : string) (parts : list string) : string :=
  String.concat sep parts.

(** [s.repeat(n)] *)
Fixpoint repeat (s : string) (n : nat) : string :=
  match n with
  | 0 => EmptyString
  | S n' => s +++ repeat s n'
  end.

(** Decimal rendering of a count or an index. *)
Definition of_nat (n : nat) : string := NilEmpty.string_of_uint (Nat.to_uint n).

(** [String(z)] for an integer-valued number. *)
Definition of_Z (z : Z) : string :=
  match z with
  | Z0 => "0"%string
  | Zpos p => NilEmpty.string_of_uint (Pos.to_uint p)
  | Zneg p => String "-"%char (NilEmpty.string_of_uint (Pos.to_uint p))
  end.

(** The double quote character. *)
Definition dquote : string := String (ascii_of_nat 34) EmptyString.

(** The escape character of the terminal colour codes. *)
Definition esc : string := String (ascii_of_nat 27) EmptyString.

(** Line feed. *)
Definition lf : string := String (ascii_of_nat 10) EmptyString.

End JsString.

(* ================================================================== *)
(** * JavaScript numbers *)
(* ================================================================== *)

(** [String(x)] for a number [x] whose value is an integer
    (Number::toString of ECMAScript, radix 10). *)
Module JsNumber.
Import JsString.
Local Open Scope Z_scope.

(** The Number value of a positive integer [z]: the double nearest to it,
    ties going to the even significand.  The integers below [2^53] are
    doubles; [None] stands for [Infinity]. *)
Definition to_double (z : Z) : option Z :=
  let bits := Z.log2 z + 1 in
  if bits <=? 53 then Some z
  else
    let e := bits - 53 in
    let m := Z.shiftr z e in
    let r := z - Z.shiftl m e in
    let half := Z.shiftl 1 (e - 1) in
    let m' := if r <? half then m
              else if half <? r then m + 1
              else if Z.even m then m else m + 1 in
    let x := Z.shiftl m' e in
    if Z.shiftl 1 1024 <=? x then None else Some x.

(** The [k]-digit integer [s] closest to [x / 10^(n-k)] for which
    [s * 10^(n-k)] is a decimal that reads back as the double [x], if
    there is one.  [lo4] and [hi4] are four times the ends of the interval
    of the reals that round to [x], which has them when [closed]. *)
Definition candidate (x lo4 hi4 : Z) (closed : bool) (k n : Z) : option Z :=
  let p := n - k in
  if p <? 0 then None
  else
    let unit := 10 ^ p in
    let least := if closed then - ((- lo4) / (4 * unit)) else lo4 / (4 * unit) + 1 in
    let most := if closed then hi4 / (4 * unit) else - ((- hi4) / (4 * unit)) - 1 in
    let smin := Z.max least (10 ^ (k - 1)) in
    let smax := Z.min most (10 ^ k - 1) in
    if smin <=? smax then
      let q := x / unit in
      let r := x mod unit in
      let nearest := if 2 * r <? unit then q
                     else if unit <? 2 * r then q + 1
                     else if Z.even q then q else q + 1 in
      Some (Z.min (Z.max nearest smin) smax)
    else None.

(** The digits [s], their number [k] and the exponent [n] of
    Number::toString, [k] being as small as possible: the value is
    [s * 10^(n-k)]. *)
Fixpoint shortest_from (tries : nat) (x lo4 hi4 : Z) (closed : bool) (digits k : Z)
  : Z * Z * Z :=
  match tries with
  | O => (x, digits, digits)
  | S tries' =>
      match candidate x lo4 hi4 closed k (digits + 1) with
      | Some s => (s, k, digits + 1)
      | None =>
          match candidate x lo4 hi4 closed k digits with
          | Some s => (s, k, digits)
          | None => shortest_from tries' x lo4 hi4 closed digits (k + 1)
          end
      end
  end.

Definition shortest (x : Z) : Z * Z * Z :=
  let e := Z.log2 x - 52 in
  let m := Z.shiftr x e in
  let hi4 := 4 * x + Z.shiftl 1 (e + 1) in
  let lo4 := 4 * x - (if m =? Z.shiftl 1 52 then Z.shiftl 1 e else Z.shiftl 1 (e + 1)) in
  shortest_from 17 x lo4 hi4 (Z.even m) (Z.of_nat (String.length (of_Z x))) 1.

(** The text of a positive double with an integer value: all its digits
    below [2^53]; from there on the shortest digits that read back as the
    same double, followed by zeros up to 21 digits, in exponent form
    beyond. *)
Definition positive_toString (x : Z) : string :=
  if x <? Z.shiftl 1 53 then of_Z x
  else
    let '(s, k, n) := shortest x in
    if n <=? 21 then of_Z s +++ repeat "0" (Z.to_nat (n - k))
    else
      match of_Z s with
      | String first EmptyString => String first ("e+" +++ of_Z (n - 1))
      | String first rest => String first ("." +++ rest +++ "e+" +++ of_Z (n - 1))
      | EmptyString => EmptyString
      end.

Definition toString (z : Z) : string :=
  match z with
  | Z0 => "0"
  | Zpos _ =>
      match to_double z with
      | Some x => positive_toString x
      | None => "Infinity"
      end
  | Zneg p =>
      match to_double (Zpos p) with
      | Some x => "-" +++ positive_toString x
      | None => "-Infinity"
      end
  end.

End JsNumber.

(* ================================================================== *)
(** * Regular expressions *)
(* ================================================================== *)

(** The regular expressions of the validator are sequences of quantified
    character classes, anchored or not.  Matching is the backtracking,
    greedy one of JavaScript; a match is reported by its length. *)

Module RegExp.
Import JsString.

Inductive quantifier := Once | ZeroOrOne | ZeroOrMore | OneOrMore.

Record atom := Atom { accepts : ascii -> bool; quant : quantifier }.

Definition pattern := list atom.

Inductive start_anchor :=
| Anywhere      (* no [^] *)
| InputStart    (* [^] without the [m] flag *)
| LineStart.    (* [^] with the [m] flag *)

Record regexp := RegExp {
  anchor : start_anchor;
  body : pattern;
  to_end : bool   (* [$] without the [m] flag *)
}.

(** A literal run of characters. *)
Fixpoint lit (s : string) : pattern :=
  match s with
  | EmptyString => []
  | String c s' => Atom (is_char c) Once :: lit s'
  end.

(** [c*] followed by the continuation [k]: longest first. *)
Fixpoint greedy (c : ascii -> bool) (k : string -> option nat) (s : string)
  : option nat :=
  match s with
  | String a s' =>
      if c a then
        match greedy c k s' with
        | Some n => Some (S n)
        | None => k s
        end
      else k s
  | EmptyString => k s
  end.

(** The length of the match of [p] at the start of [s], if any. *)
Fixpoint match_here (p : pattern) (to_end : bool) (s : string) : option nat :=
  match p with
  | [] =>
      if to_end then
        match s with EmptyString => Some 0 | String _ _ => None end
      else Some 0
  | a :: p' =>
      let k := match_here p' to_end in
      match quant a with
      | Once =>
          match s with
          | String x s' => if accepts a x then option_map S (k s') else None
          | EmptyString => None
          end
      | ZeroOrOne =>
          match s with
          | String x s' =>
              if accepts a x then
                match k s' with
                | Some n => Some (S n)
                | None => k s
                end
              else k s
          | EmptyString => k s
          end
      | ZeroOrMore => greedy (accepts a) k s
      | OneOrMore =>
          match s with
          | String x s' =>
              if accepts a x then option_map S (greedy (accepts a) k s') else None
          | EmptyString => None
          end
      end
  end.

(** Leftmost match: its index and its length.  [line_start] tells whether
    the position is the start of the input or follows a line terminator. *)
Fixpoint search (re : regexp) (input_start line_start : bool) (s : string)
  : option (nat * nat) :=
  let allowed :=
    match anchor re with
    | Anywhere => true
    | InputStart => input_start
    | LineStart => line_start
    end in
  match (if allowed then match_here (body re) (to_end re) s else None) with
  | Some n => Some (0, n)
  | None =>
      match s with
      | EmptyString => None
      | String c s' =>
          match search re false (is_line_terminator c) s' with
          | Some (i, n) => Some (S i, n)
          | None => None
          end
      end
  end.

Definition exec (re : regexp) (s : string) : option (nat * nat) :=
  search re true true s.

(** [s.match(re) !== null] for a regular expression without the [g] flag. *)
Definition test (re : regexp) (s : string) : bool :=
  match exec re s with Some _ => true | None => false end.

(** [s.match(re)] with the [g] flag and no anchor: the matched substrings,
    left to right, each search resuming where the previous match ended
    ([skip] counts the characters of the current match still to pass). *)
Fixpoint match_all_from (p : pattern) (skip : nat) (s : string) : list string :=
  match skip with
  | S k =>
      match s with
      | EmptyString => []
      | String _ s' => match_all_from p k s'
      end
  | 0 =>
      match match_here p false s with
      | Some n =>
          String.substring 0 n s ::
          match s with
          | EmptyString => []
          | String _ s' => match_all_from p (Nat.pred n) s'
          end
      | None =>
          match s with
          | EmptyString => []
          | String _ s' => match_all_from p 0 s'
          end
      end
  end.

Definition match_all (p : pattern) (s : string) : list string :=
  match_all_from p 0 s.

End RegExp.

(* ================================================================== *)
(** * JavaScript values *)
(* ================================================================== *)

(** What a thrown exception carries as far as the validator looks at it:
    [error.message]. *)
Inductive result (A : Type) : Type :=
| Ok (a : A)
| Throw (message : string).
Arguments Ok {A} a.
Arguments Throw {A} message.

Module Js.
Import JsString.

(** The values [yaml.load] returns, and [undefined] for a property that
    is not there. *)
#[warnings="-register-all"]
Inductive jsval : Type :=
| VUndefined
| VNull
| VBool (b : bool)
| VNum (z : Z)
| VStr (s : string)
| VArr (items : list jsval)
| VObj (fields : list (string * jsval)).

(** Truthiness: what [if (x)], [!x], [x && y] and [x || y] test. *)
Definition truthy (v : jsval) : bool :=
  match v with
  | VUndefined | VNull => false
  | VBool b => b
  | VNum z => negb (z =? 0)%Z
  | VStr s => negb (String.eqb s "")
  | VArr _ | VObj _ => true
  end.

Fixpoint lookup (fields : list (string * jsval)) (key : string) : jsval :=
  match fields with
  | [] => VUndefined
  | (k, v) :: rest => if String.eqb k key then v else lookup rest key
  end.

(** [v[key]] and [v.key], for the keys the validator reads (none of them
    is a property of a string, a number, a boolean or an array). *)
Definition get (v : jsval) (key : string) : result jsval :=
  match v with
  | VUndefined =>
      Throw ("Cannot read properties of undefined (reading '" +++ key +++ "')")
  | VNull =>
      Throw ("Cannot read properties of null (reading '" +++ key +++ "')")
  | VObj fields => Ok (lookup fields key)
  | _ => Ok VUndefined
  end.

(** [Array.isArray(v)] *)
Definition isArray (v : jsval) : bool :=
  match v with VArr _ => true | _ => false end.

(** Whether a mapping has a key of its own. *)
Definition has_own (fields : list (string * jsval)) (key : string) : bool :=
  existsb (fun field => String.eqb (fst field) key) fields.

(** String conversion, as a template literal does it.  A mapping is
    converted by its [toString] method: the one of [Object.prototype]
    unless the mapping has a [toString] key of its own, whose value (no
    value of [yaml.load] is a function) cannot be called: the conversion
    then throws a [TypeError].  An array joins the conversions of its
    elements, [null] and [undefined] counting as empty, and throws when
    one of them does. *)
Fixpoint toString (v : jsval) : result string :=
  match v with
  | VUndefined => Ok "undefined"
  | VNull => Ok "null"
  | VBool true => Ok "true"
  | VBool false => Ok "false"
  | VNum z => Ok (JsNumber.toString z)
  | VStr s => Ok s
  | VArr items =>
      (fix elements (items : list jsval) (texts : list string) : result string :=
         match items with
         | [] => Ok (join "," texts)
         | x :: rest =>
             match (match x with
                    | VUndefined | VNull => Ok EmptyString
                    | _ => toString x
                    end) with
             | Ok text => elements rest (texts ++ [text])
             | Throw e => Throw e
             end
         end) items []
  | VObj fields =>
      if has_own fields "toString"
      then Throw "Cannot convert object to primitive value"
      else Ok "[object Object]"
  end.

(** [v.match(re) !== null] where [expr] is the source text of [v]: only a
    string has a [match] method. *)
Definition call_match (expr : string) (v : jsval) (re : RegExp.regexp)
  : result bool :=
  match v with
  | VStr s => Ok (RegExp.test re s)
  | VUndefined =>
      Throw "Cannot read properties of undefined (reading 'match')"
  | VNull =>
      Throw "Cannot read properties of null (reading 'match')"
  | _ => Throw (expr +++ ".match is not a function")
  end.

(** [list.includes(v)] for a list of strings: strict equality. *)
Definition includes_val (list : list string) (v : jsval) : bool :=
  match v with
  | VStr s => existsb (String.eqb s) list
  | _ => false
  end.

(** [v === s] for a string literal [s]. *)
Definition strict_eq_str (v : jsval) (s : string) : bool :=
  match v with
  | VStr x => String.eqb x s
  | _ => false
  end.

End Js.

(* ================================================================== *)
(** * The platform *)
(* ================================================================== *)

(** Node's [fs] and [path], [js-yaml], the wall clock and the depth of the
    call stack.  The file system does not change during a run. *)
Record node_env := NodeEnv {
  (** [fs.existsSync(p)]: never throws. *)
  existsSync : string -> bool;
  (** [fs.readFileSync(p, 'utf8')] *)
  readFileSync : string -> result string;
  (** [fs.readdirSync(p)] *)
  readdirSync : string -> result (list string);
  (** [fs.statSync(p).isDirectory()] *)
  isDirectory : string -> result bool;
  (** [path.join(dir, item)] *)
  path_join : string -> string -> string;
  (** [yaml.load(text)] *)
  yaml_load : string -> result Js.jsval;
  (** The time of the n-th [new Date()] of the run. *)
  now : nat -> Z;
  (** How many nested calls of [findTemplateFiles] the engine allows
      before it throws its [RangeError]. *)
  stack_depth : nat
}.

(** [fs.existsSync(v)] for any value: false when [v] is not a path. *)
Definition existsSync_val (env : node_env) (v : Js.jsval) : bool :=
  match v with
  | Js.VStr p => existsSync env p
  | _ => false
  end.

(* ================================================================== *)
(** * The validator and its methods as state transformers *)
(* ================================================================== *)

(** [errors], [warnings] and [info] are the fields of the
    [PackageValidator] instance; [console] is what [console.log] has
    written, one entry per call; [clock_reads] counts the [new Date()]. *)
Record state := State {
  errors : list string;
  warnings : list string;
  info : list string;
  console : list string;
  clock_reads : nat
}.

(** [new PackageValidator()] in a fresh process. *)
Definition new_PackageValidator : state := State [] [] [] [] 0.

Definition M (A : Type) : Type := state -> result A * state.

Definition ret {A} (a : A) : M A := fun v => (Ok a, v).

Definition bind {A B} (m : M A) (k : A -> M B) : M B :=
  fun v =>
    match m v with
    | (Ok a, v') => k a v'
    | (Throw e, v') => (Throw e, v')
    end.

(** A computation of the platform, which leaves the validator alone. *)
Definition lift {A} (r : result A) : M A := fun v => (r, v).

(** [try { m } catch (error) { handler(error.message) }] *)
Definition try_catch {A} (m : M A) (handler : string -> M A) : M A :=
  fun v =>
    match m v with
    | (Ok a, v') => (Ok a, v')
    | (Throw e, v') => handler e v'
    end.

(** The validator as the method sees it. *)
Definition this : M state := fun v => (Ok v, v).

Declare Scope js_scope.
Delimit Scope js_scope with js.
Notation "x <- m ;; k" := (bind m (fun x => k))
  (at level 61, m at next level, right associativity) : js_scope.
Notation "m ;; k" := (bind m (fun _ => k))
  (at level 61, right associativity) : js_scope.
Local Open Scope js_scope.

(** [if (b) { m }] *)
Definition when (b : bool) (m : M unit) : M unit :=
  if b then m else ret tt.

(** [for (const x of items) { body(x) }] *)
Fixpoint for_of {A} (items : list A) (body : A -> M unit) : M unit :=
  match items with
  | [] => ret tt
  | x :: rest => body x ;; for_of rest body
  end.

(** [items.forEach((x, index) => { ... })].  [acc] is the local variable
    of the enclosing method that the callback assigns ([allValid]);
    [unit] when there is none. *)
Fixpoint forEach_from {A Acc} (body : A -> nat -> Acc -> M Acc)
  (items : list A) (index : nat) (acc : Acc) : M Acc :=
  match items with
  | [] => ret acc
  | x :: rest =>
      acc' <- body x index acc ;;
      forEach_from body rest (S index) acc'
  end.

Definition forEach {A Acc} (body : A -> nat -> Acc -> M Acc)
  (items : list A) (acc : Acc) : M Acc :=
  forEach_from body items 0 acc.

Module colors.
Import JsString.
Definition reset : string := esc +++ "[0m".
Definition red : string := esc +++ "[31m".
Definition green : string := esc +++ "[32m".
Definition yellow : string := esc +++ "[33m".
Definition blue : string := esc +++ "[34m".
Definition magenta : string := esc +++ "[35m".
Definition cyan : string := esc +++ "[36m".
Definition white : string := esc +++ "[37m".
End colors.

(** [console.log(line)] *)
Definition console_log (line : string) : M unit :=
  fun v => (Ok tt, State (errors v) (warnings v) (info v)
                         (console v ++ [line]) (clock_reads v)).

(* ================================================================== *)
(** * class PackageValidator *)
(* ================================================================== *)

Section PackageValidator.
Import JsString.

Variable env : node_env.

(** [log(level, message)].  The timestamp is computed and not used. *)
Definition log (level message : string) : M unit :=
  fun v =>
    let timestamp := now env (clock_reads v) in
    let reads := S (clock_reads v) in
    if String.eqb level "error" then
      (Ok tt, State (errors v ++ [message]) (warnings v) (info v)
                    (console v ++ [colors.red +++ "[ERROR]" +++ colors.reset +++ " " +++ message])
                    reads)
    else if String.eqb level "warning" then
      (Ok tt, State (errors v) (warnings v ++ [message]) (info v)
                    (console v ++ [colors.yellow +++ "[WARNING]" +++ colors.reset +++ " " +++ message])
                    reads)
    else if String.eqb level "info" then
      (Ok tt, State (errors v) (warnings v) (info v ++ [message])
                    (console v ++ [colors.blue +++ "[INFO]" +++ colors.reset +++ " " +++ message])
                    reads)
    else if String.eqb level "success" then
      (Ok tt, State (errors v) (warnings v) (info v)
                    (console v ++ [colors.green +++ "[SUCCESS]" +++ colors.reset +++ " " +++ message])
                    reads)
    else
      (Ok tt, State (errors v) (warnings v) (info v) (console v) reads).

(** [value && !value.match(re)], where [expr] is the source text of
    [value]. *)
Definition and_not_match (expr : string) (value : Js.jsval) (re : RegExp.regexp)
  : M bool :=
  if Js.truthy value then
    matched <- lift (Js.call_match expr value re) ;;
    ret (negb matched)
  else ret false.

(** [/^\d+\.\d+$/] *)
Definition re_meta_version : RegExp.regexp :=
  RegExp.RegExp RegExp.InputStart
    [RegExp.Atom is_digit RegExp.OneOrMore;
     RegExp.Atom (is_char ".") RegExp.Once;
     RegExp.Atom is_digit RegExp.OneOrMore]
    true.

(** [/^[a-z0-9\-]+\/[a-z0-9\-]+$/] *)
Definition re_package_name : RegExp.regexp :=
  RegExp.RegExp RegExp.InputStart
    [RegExp.Atom is_name_char RegExp.OneOrMore;
     RegExp.Atom (is_char "/") RegExp.Once;
     RegExp.Atom is_name_char RegExp.OneOrMore]
    true.

(** [/^v?\d+\.\d+\.\d+/] *)
Definition re_package_version : RegExp.regexp :=
  RegExp.RegExp RegExp.InputStart
    [RegExp.Atom (is_char "v") RegExp.ZeroOrOne;
     RegExp.Atom is_digit RegExp.OneOrMore;
     RegExp.Atom (is_char ".") RegExp.Once;
     RegExp.Atom is_digit RegExp.OneOrMore;
     RegExp.Atom (is_char ".") RegExp.Once;
     RegExp.Atom is_digit RegExp.OneOrMore]
    false.

(** [/^package\s+\w+/m] *)
Definition re_package_declaration : RegExp.regexp :=
  RegExp.RegExp RegExp.LineStart
    (RegExp.lit "package" ++
     [RegExp.Atom is_space RegExp.OneOrMore;
      RegExp.Atom is_word RegExp.OneOrMore])
    false.

(** [/func\s+(\w+)/g] *)
Definition re_func : RegExp.pattern :=
  RegExp.lit "func" ++
  [RegExp.Atom is_space RegExp.OneOrMore;
   RegExp.Atom is_word RegExp.OneOrMore].

(** [new RegExp(`//.*\\n\\s*func\\s+${funcName}`, 'm')].  [funcName] is
    made of word characters and white space, which stand for themselves
    in a pattern. *)
Definition funcRegex (funcName : string) : RegExp.regexp :=
  RegExp.RegExp RegExp.Anywhere
    (RegExp.lit "//" ++
     [RegExp.Atom is_dot RegExp.ZeroOrMore] ++
     RegExp.lit lf ++
     [RegExp.Atom is_space RegExp.ZeroOrMore] ++
     RegExp.lit "func" ++
     [RegExp.Atom is_space RegExp.OneOrMore] ++
     RegExp.lit funcName)
    false.

Definition requiredPackageFields : list string :=
  ["name"; "title"; "description"; "type"; "templates"; "version"].

Definition validTypes : list string :=
  ["fx-module"; "cli-command"; "utility"; "middleware"; "service"].

(** [validatePackageDefinition(pkg, index)] *)
Definition validatePackageDefinition (pkg : Js.jsval) (index : nat) : M unit :=
  let number := of_nat (index + 1) in
  name <- lift (Js.get pkg "name") ;;
  shown <- lift (Js.toString (if Js.truthy name then name else Js.VStr "unnamed")) ;;
  log "info" ("Validating package " +++ number +++ ": " +++ shown) ;;
  for_of requiredPackageFields (fun field =>
    value <- lift (Js.get pkg field) ;;
    when (negb (Js.truthy value))
      (log "error" ("Package " +++ number +++ ": Missing required field: " +++ field))) ;;
  (* Validate package name format *)
  name <- lift (Js.get pkg "name") ;;
  bad_name <- and_not_match "pkg.name" name re_package_name ;;
  when bad_name
    (shown <- lift (Js.toString name) ;;
     log "error" ("Package " +++ number +++
                  ": Invalid name format. Should be 'org/package-name', found: " +++
                  shown)) ;;
  (* Validate package type *)
  type <- lift (Js.get pkg "type") ;;
  when (Js.truthy type && negb (Js.includes_val validTypes type))
    (shown <- lift (Js.toString type) ;;
     log "warning" ("Package " +++ number +++ ": Unknown type '" +++ shown +++
                    "'. Valid types: " +++ join ", " validTypes)) ;;
  (* Validate version format *)
  version <- lift (Js.get pkg "version") ;;
  bad_version <- and_not_match "pkg.version" version re_package_version ;;
  when bad_version
    (shown <- lift (Js.toString version) ;;
     log "warning" ("Package " +++ number +++
                    ": Version should follow semantic versioning (e.g., 'v1.0.0'), found: " +++
                    shown)) ;;
  (* Validate templates directory *)
  templates <- lift (Js.get pkg "templates") ;;
  when (Js.truthy templates && negb (existsSync_val env templates))
    (shown <- lift (Js.toString templates) ;;
     log "error" ("Package " +++ number +++ ": Templates directory not found: " +++
                  shown)) ;;
  (* Validate tags *)
  tags <- lift (Js.get pkg "tags") ;;
  when (Js.truthy tags && negb (Js.isArray tags))
    (log "error" ("Package " +++ number +++ ": tags field must be an array")) ;;
  (* Validate dependencies *)
  dependencies <- lift (Js.get pkg "dependencies") ;;
  when (Js.truthy dependencies && negb (Js.isArray dependencies))
    (log "error" ("Package " +++ number +++ ": dependencies field must be an array")).

Definition requiredFields : list string :=
  ["version"; "repository"; "author"; "license"; "packages"].

(** [validateMetaYaml()] *)
Definition validateMetaYaml : M bool :=
  log "info" "Validating meta.yaml..." ;;
  if negb (existsSync env "meta.yaml") then
    log "error" "meta.yaml file not found" ;;
    ret false
  else
    try_catch
      (metaContent <- lift (readFileSync env "meta.yaml") ;;
       meta <- lift (yaml_load env metaContent) ;;
       (* Check required fields *)
       for_of requiredFields (fun field =>
         value <- lift (Js.get meta field) ;;
         when (negb (Js.truthy value))
           (log "error" ("Missing required field in meta.yaml: " +++ field))) ;;
       (* Validate version format *)
       version <- lift (Js.get meta "version") ;;
       bad_version <- and_not_match "meta.version" version re_meta_version ;;
       when bad_version
         (shown <- lift (Js.toString version) ;;
          log "warning" ("Version format should be X.Y (e.g., " +++ dquote +++ "3.0" +++
                         dquote +++ "), found: " +++ shown)) ;;
       (* Validate packages array *)
       packages <- lift (Js.get meta "packages") ;;
       match packages with
       | Js.VArr items =>
           if length items =? 0 then
             log "error" "packages array cannot be empty" ;;
             ret false
           else
             (* Validate each package *)
             forEach (fun pkg index _ => validatePackageDefinition pkg index) items tt ;;
             log "success" "meta.yaml structure is valid" ;;
             ret true
       | _ =>
           log "error" "packages field must be an array" ;;
           ret false
       end)
      (fun message =>
         log "error" ("Failed to parse meta.yaml: " +++ message) ;;
         ret false).

(** [findTemplateFiles(dir)], with [depth] stack frames left.  It reads
    the file system and leaves the validator alone. *)
Fixpoint findTemplateFiles (depth : nat) (dir : string)
  : result (list string) :=
  match depth with
  | 0 => Throw "Maximum call stack size exceeded"
  | S depth' =>
      if negb (existsSync env dir) then Ok []
      else
        match readdirSync env dir with
        | Throw e => Throw e
        | Ok items =>
            (fix loop (items : list string) (files : list string) :=
               match items with
               | [] => Ok files
               | item :: rest =>
                   let itemPath := path_join env dir item in
                   match isDirectory env itemPath with
                   | Throw e => Throw e
                   | Ok true =>
                       match findTemplateFiles depth' itemPath with
                       | Throw e => Throw e
                       | Ok found => loop rest (files ++ found)
                       end
                   | Ok false =>
                       if endsWith item ".tmpl"
                       then loop rest (files ++ [itemPath])
                       else loop rest files
                   end
               end) items []
        end
  end.

(** [findTemplateFiles(dir)] for any value [dir]: [fs.existsSync] is
    false of a value that is not a path. *)
Definition findTemplateFiles_val (dir : Js.jsval) : result (list string) :=
  match dir with
  | Js.VStr d => findTemplateFiles (stack_depth env) d
  | _ => Ok []
  end.

(** [validateReadmeTemplate(filePath, content, pkg)] *)
Definition validateReadmeTemplate (filePath content : string) (pkg : Js.jsval)
  : M bool :=
  (* Check for basic sections *)
  let requiredSections := ["#"; "##"; "###"] in
  let hasHeadings := existsb (fun heading => includes content heading) requiredSections in
  when (negb hasHeadings)
    (log "warning" (filePath +++ ": No markdown headings found")) ;;
  (* Check for installation instructions *)
  when (negb (includes (toLowerCase content) "install"))
    (log "warning" (filePath +++ ": No installation instructions found")) ;;
  (* Check for usage examples *)
  when (negb (includes content "```"))
    (log "warning" (filePath +++ ": No code examples found")) ;;
  log "success" (filePath +++ ": README template validation passed") ;;
  ret true.

(** [validateGoTemplate(filePath, content, pkg)] *)
Definition validateGoTemplate (filePath content : string) (pkg : Js.jsval)
  : M bool :=
  (* Check for package declaration *)
  if negb (RegExp.test re_package_declaration content) then
    log "error" (filePath +++ ": Missing package declaration") ;;
    ret false
  else
    (* Check for proper imports if fx-module *)
    type <- lift (Js.get pkg "type") ;;
    when (Js.strict_eq_str type "fx-module")
      (when (negb (includes content "go.uber.org/fx"))
         (log "warning" (filePath +++ ": fx-module should import go.uber.org/fx")) ;;
       (* Check for Module export *)
       when (negb (includes content "var Module") && negb (includes content "func NewModule"))
         (log "warning" (filePath +++ ": fx-module should export Module or NewModule function"))) ;;
    (* Check for proper function naming *)
    let functionMatches := RegExp.match_all re_func content in
    forEach (fun matched _ _ =>
      let funcName := replace matched "func " "" in
      when (String.eqb (charAt 0 funcName) (toUpperCase (charAt 0 funcName)))
        (* Public function - should have comment *)
        (when (negb (RegExp.test (funcRegex funcName) content))
           (log "warning" (filePath +++ ": Public function " +++ funcName +++
                           " missing documentation comment"))))
      functionMatches tt ;;
    log "success" (filePath +++ ": Go template validation passed") ;;
    ret true.

Definition commonVars : list string :=
  ["Title"; "Package"; "Module"; "Namespace"; "Description"].

(** [validateTemplateFile(filePath, pkg)] *)
Definition validateTemplateFile (filePath : string) (pkg : Js.jsval) : M bool :=
  log "info" ("Validating template: " +++ filePath) ;;
  try_catch
    (content <- lift (readFileSync env filePath) ;;
     (* Check for template syntax *)
     let hasTemplateVars := includes content "{{" && includes content "}}" in
     when (negb hasTemplateVars)
       (log "warning" (filePath +++ ": No template variables found (might be a static file)")) ;;
     (* Check for common template variables *)
     let usedVars :=
       filter (fun varName => includes content ("{{." +++ varName +++ "}}")) commonVars in
     when (0 <? length usedVars)
       (log "success" (filePath +++ ": Uses template variables: " +++ join ", " usedVars)) ;;
     (* Validate Go files *)
     if endsWith filePath ".go.tmpl" then
       validateGoTemplate filePath content pkg
     (* Validate README files *)
     else if includes filePath "README" || includes filePath "readme" then
       validateReadmeTemplate filePath content pkg
     else ret true)
    (fun message =>
       log "error" ("Failed to read template file " +++ filePath +++ ": " +++ message) ;;
       ret false).

(** [validatePackageTemplates(pkg, index)] *)
Definition validatePackageTemplates (pkg : Js.jsval) (index : nat) : M bool :=
  name <- lift (Js.get pkg "name") ;;
  shown <- lift (Js.toString name) ;;
  log "info" ("Validating templates for package: " +++ shown) ;;
  templatesDir <- lift (Js.get pkg "templates") ;;
  templateFiles <- lift (findTemplateFiles_val templatesDir) ;;
  if length templateFiles =? 0 then
    shown <- lift (Js.toString templatesDir) ;;
    log "error" ("Package " +++ of_nat (index + 1) +++ ": No template files found in " +++
                 shown) ;;
    ret false
  else
    name <- lift (Js.get pkg "name") ;;
    shown <- lift (Js.toString name) ;;
    log "success" ("Found " +++ of_nat (length templateFiles) +++
                   " template files for " +++ shown) ;;
    forEach (fun filePath _ allValid =>
      isValid <- validateTemplateFile filePath pkg ;;
      ret (if negb isValid then false else allValid))
      templateFiles true.

(** The callback of [meta.packages.forEach] in [validateTemplates]. *)
Definition validateTemplates_each (pkg : Js.jsval) (index : nat) (allValid : bool)
  : M bool :=
  templates <- lift (Js.get pkg "templates") ;;
  if Js.truthy templates && existsSync_val env templates then
    isValid <- validatePackageTemplates pkg index ;;
    ret (if negb isValid then false else allValid)
  else ret allValid.

(** [validateTemplates()] *)
Definition validateTemplates : M bool :=
  log "info" "Validating template files..." ;;
  if negb (existsSync env "meta.yaml") then
    log "error" "meta.yaml not found, cannot validate templates" ;;
    ret false
  else
    try_catch
      (metaContent <- lift (readFileSync env "meta.yaml") ;;
       meta <- lift (yaml_load env metaContent) ;;
       packages <- lift (Js.get meta "packages") ;;
       match packages with
       | Js.VArr items => forEach validateTemplates_each items true
       | Js.VUndefined =>
           lift (Throw "Cannot read properties of undefined (reading 'forEach')")
       | Js.VNull =>
           lift (Throw "Cannot read properties of null (reading 'forEach')")
       | _ => lift (Throw "meta.packages.forEach is not a function")
       end)
      (fun message =>
         log "error" ("Failed to validate templates: " +++ message) ;;
         ret false).

(** [generateReport()] *)
Definition generateReport : M bool :=
  console_log (lf +++ colors.cyan +++ repeat "=" 60 +++ colors.reset) ;;
  console_log (colors.cyan +++ "           VPkg Package Validation Report" +++ colors.reset) ;;
  console_log (colors.cyan +++ repeat "=" 60 +++ colors.reset) ;;
  v <- this ;;
  console_log (lf +++ colors.green +++ "✓ Checks passed: " +++ of_nat (length (info v)) +++
               colors.reset) ;;
  console_log (colors.yellow +++ "⚠ Warnings: " +++ of_nat (length (warnings v)) +++
               colors.reset) ;;
  console_log (colors.red +++ "✗ Errors: " +++ of_nat (length (errors v)) +++ colors.reset) ;;
  when (0 <? length (warnings v))
    (console_log (lf +++ colors.yellow +++ "Warnings:" +++ colors.reset) ;;
     forEach (fun warning i _ =>
       console_log ("  " +++ of_nat (i + 1) +++ ". " +++ warning))
       (warnings v) tt) ;;
  when (0 <? length (errors v))
    (console_log (lf +++ colors.red +++ "Errors:" +++ colors.reset) ;;
     forEach (fun error i _ =>
       console_log ("  " +++ of_nat (i + 1) +++ ". " +++ error))
       (errors v) tt) ;;
  let isValid := length (errors v) =? 0 in
  (if isValid then
     console_log (lf +++ colors.green +++ "🎉 Package validation PASSED!" +++ colors.reset) ;;
     console_log (colors.green +++ "Your package is ready for testing and submission." +++
                  colors.reset)
   else
     console_log (lf +++ colors.red +++ "❌ Package validation FAILED!" +++ colors.reset) ;;
     console_log (colors.red +++ "Please fix the errors above before submitting." +++
                  colors.reset)) ;;
  console_log (lf +++ colors.cyan +++ repeat "=" 60 +++ colors.reset) ;;
  ret isValid.

(** [validate()] *)
Definition validate : M bool :=
  console_log (colors.blue +++ "Starting VPkg package validation..." +++ lf +++ colors.reset) ;;
  (* Validate meta.yaml *)
  metaValid <- validateMetaYaml ;;
  (* Validate templates only if meta.yaml is valid *)
  when metaValid (validateTemplates ;; ret tt) ;;
  (* Generate and return report *)
  generateReport.

(** The exit status of [main()]: [process.exit(isValid ? 0 : 1)], and 1
    when [validate()] rejects. *)
Definition main : Z :=
  match fst (validate new_PackageValidator) with
  | Ok true => 0%Z
  | _ => 1%Z
  end.

End PackageValidator.

(* ================================================================== *)
(** * Findings *)
(* ================================================================== *)

(** The three collections of a validator, and what a computation adds to
    them. *)
Record findings := Findings {
  f_errors : list string;
  f_warnings : list string;
  f_info : list string
}.

Definition collected (v : state) : findings :=
  Findings (errors v) (warnings v) (info v).

Definition merge (f g : findings) : findings :=
  Findings (f_errors f ++ f_errors g)
           (f_warnings f ++ f_warnings g)
           (f_info f ++ f_info g).

Definition nothing : findings := Findings [] [] [].

(** What [log(level, message)] adds. *)
Definition logged (level message : string) : findings :=
  if String.eqb level "error" then Findings [message] [] []
  else if String.eqb level "warning" then Findings [] [message] []
  else if String.eqb level "info" then Findings [] [] [message]
  else nothing.

(** From the state [v], [m] ends with the result [r] and has appended the
    findings [f], in order, to what [v] had collected. *)
Definition run_emits {A} (m : M A) (v : state) (r : result A) (f : findings)
  : Prop :=
  fst (m v) = r /\ collected (snd (m v)) = merge (collected v) f.

Definition emits {A} (m : M A) (r : result A) (f : findings) : Prop :=
  forall v, run_emits m v r f.

(** From any state, [m] appends the findings [f] first, and then maybe
    more. *)
Definition emits_at_least {A} (m : M A) (f : findings) : Prop :=
  forall v, exists more, collected (snd (m v)) = merge (collected v) (merge f more).

(** [m] only ever appends to the three collections. *)
Definition grows {A} (m : M A) : Prop :=
  forall v, exists f, collected (snd (m v)) = merge (collected v) f.

(** [m] returns: no exception leaves it. *)
Definition returns {A} (m : M A) : Prop :=
  forall v, exists a, fst (m v) = Ok a.

Module Js_facts.
Import Js.

Definition nullish (v : jsval) : bool :=
  match v with
  | VUndefined | VNull => true
  | _ => false
  end.

(** The value of [v[key]] when the read does not throw. *)
Definition prop (v : jsval) (key : string) : jsval :=
  match v with
  | VObj fields => lookup fields key
  | _ => VUndefined
  end.

(** A value with a [match] method. *)
Definition is_string (v : jsval) : bool :=
  match v with VStr _ => true | _ => false end.

(** A value that a template literal can convert to a string, and the
    string it gives (empty for a value that cannot be converted). *)
Definition printable (v : jsval) : bool :=
  match toString v with Ok _ => true | Throw _ => false end.

Definition text_of (v : jsval) : string :=
  match toString v with Ok shown => shown | Throw _ => EmptyString end.

End Js_facts.
Import Js_facts.

(* ================================================================== *)
(** * The rules of the per-file checker, one by one *)
(* ================================================================== *)

Section Rules.
Import JsString.

Variables (filePath content : string) (pkg : Js.jsval).

(** Variable syntax: both [{{] and [}}]. *)
Definition variable_syntax_findings : list string :=
  if negb (includes content "{{" && includes content "}}")
  then [filePath +++ ": No template variables found (might be a static file)"]
  else [].

(** Declaration header of a Go template. *)
Definition has_package_declaration : bool :=
  RegExp.test re_package_declaration content.

Definition declaration_findings : list string :=
  if negb has_package_declaration
  then [filePath +++ ": Missing package declaration"]
  else [].

(** Markers of an fx-module. *)
Definition fx_module_findings : list string :=
  if Js.strict_eq_str (prop pkg "type") "fx-module" then
    (if negb (includes content "go.uber.org/fx")
     then [filePath +++ ": fx-module should import go.uber.org/fx"] else []) ++
    (if negb (includes content "var Module") && negb (includes content "func NewModule")
     then [filePath +++ ": fx-module should export Module or NewModule function"] else [])
  else [].

(** Documentation of the exported functions. *)
Definition undocumented (matched : string) : list string :=
  let funcName := replace matched "func " "" in
  if String.eqb (charAt 0 funcName) (toUpperCase (charAt 0 funcName)) then
    if negb (RegExp.test (funcRegex funcName) content)
    then [filePath +++ ": Public function " +++ funcName +++
          " missing documentation comment"]
    else []
  else [].

Definition documentation_findings : list string :=
  flat_map undocumented (RegExp.match_all re_func content).

(** Conventions of a README. *)
Definition readme_findings : list string :=
  (if negb (existsb (fun heading => includes content heading) ["#"; "##"; "###"])
   then [filePath +++ ": No markdown headings found"] else []) ++
  (if negb (includes (toLowerCase content) "install")
   then [filePath +++ ": No installation instructions found"] else []) ++
  (if negb (includes content "```")
   then [filePath +++ ": No code examples found"] else []).

(** How the source dispatches on the path. *)
Definition is_go_template : bool := endsWith filePath ".go.tmpl".
Definition is_readme : bool :=
  includes filePath "README" || includes filePath "readme".

(** The warnings and errors of [validateTemplateFile] on a file it could
    read: the Go rules after the declaration header run only when the
    header is there. *)
Definition template_warnings : list string :=
  variable_syntax_findings ++
  (if is_go_template then
     (if has_package_declaration
      then fx_module_findings ++ documentation_findings
      else [])
   else if is_readme then readme_findings
   else []).

Definition template_errors : list string :=
  if is_go_template then declaration_findings else [].

Definition template_verdict : bool :=
  if is_go_template then has_package_declaration else true.

(** The specification's reading: every applicable rule is evaluated
    against the content whatever the other rules found. *)
Definition spec_independent_warnings : list string :=
  variable_syntax_findings ++
  (if is_go_template then fx_module_findings ++ documentation_findings
   else if is_readme then readme_findings
   else []).

End Rules.

(* ================================================================== *)
(** * The rules of the package checker *)
(* ================================================================== *)

Section PackageRules.
Import JsString.

Variables (env : node_env) (pkg : Js.jsval) (index : nat).

Definition package_label : string := "Package " +++ of_nat (index + 1).

Definition missing_field_message (field : string) : string :=
  package_label +++ ": Missing required field: " +++ field.

Definition is_missing (v : Js.jsval) (field : string) : bool :=
  negb (Js.truthy (prop v field)).

Definition missing_field_findings : list string :=
  map missing_field_message (filter (is_missing pkg) requiredPackageFields).

Definition templates_message : string :=
  package_label +++ ": Templates directory not found: " +++
  text_of (prop pkg "templates").

(** [value && !value.match(re)] on a value it does not throw on. *)
Definition bad_format (re : RegExp.regexp) (value : Js.jsval) : bool :=
  match value with
  | Js.VStr s => negb (String.eqb s "") && negb (RegExp.test re s)
  | _ => false
  end.

Definition name_findings : list string :=
  if bad_format re_package_name (prop pkg "name")
  then [package_label +++
        ": Invalid name format. Should be 'org/package-name', found: " +++
        text_of (prop pkg "name")]
  else [].

Definition tags_findings : list string :=
  if Js.truthy (prop pkg "tags") && negb (Js.isArray (prop pkg "tags"))
  then [package_label +++ ": tags field must be an array"] else [].

Definition dependencies_findings : list string :=
  if Js.truthy (prop pkg "dependencies") && negb (Js.isArray (prop pkg "dependencies"))
  then [package_label +++ ": dependencies field must be an array"] else [].

Definition type_findings : list string :=
  if Js.truthy (prop pkg "type") && negb (Js.includes_val validTypes (prop pkg "type"))
  then [package_label +++ ": Unknown type '" +++ text_of (prop pkg "type") +++
        "'. Valid types: " +++ join ", " validTypes]
  else [].

Definition version_findings : list string :=
  if bad_format re_package_version (prop pkg "version")
  then [package_label +++
        ": Version should follow semantic versioning (e.g., 'v1.0.0'), found: " +++
        text_of (prop pkg "version")]
  else [].

Definition templates_findings : list string :=
  if Js.truthy (prop pkg "templates") && negb (existsSync_val env (prop pkg "templates"))
  then [templates_message] else [].

(** A field that is absent, falsy or a string: [value && !value.match(re)]
    does not throw on it. *)
Definition matchable (v : Js.jsval) : bool :=
  negb (Js.truthy v) || is_string v.

Definition package_info : string :=
  "Validating package " +++ of_nat (index + 1) +++ ": " +++
  text_of (if Js.truthy (prop pkg "name") then prop pkg "name" else Js.VStr "unnamed").

(** The errors and warnings of [validatePackageDefinition] on a package
    it does not throw on, in the order of the source. *)
Definition package_errors : list string :=
  missing_field_findings ++ name_findings ++ templates_findings ++
  tags_findings ++ dependencies_findings.

Definition package_warnings : list string :=
  type_findings ++ version_findings.

End PackageRules.

(* ================================================================== *)
(** * The text of the report *)
(* ================================================================== *)

Section Report.
Import JsString.

(** The numbered lines under [Warnings:] and [Errors:]. *)
Fixpoint numbered_from (i : nat) (entries : list string) : list string :=
  match entries with
  | [] => []
  | entry :: rest =>
      ("  " +++ of_nat (i + 1) +++ ". " +++ entry) :: numbered_from (S i) rest
  end.

Definition rule_line : string := colors.cyan +++ repeat "=" 60 +++ colors.reset.

Definition checks_passed_line (n : nat) : string :=
  lf +++ colors.green +++ "✓ Checks passed: " +++ of_nat n +++ colors.reset.

Definition warnings_line (n : nat) : string :=
  colors.yellow +++ "⚠ Warnings: " +++ of_nat n +++ colors.reset.

Definition errors_line (n : nat) : string :=
  colors.red +++ "✗ Errors: " +++ of_nat n +++ colors.reset.

(** What [generateReport] prints for a validator [v]. *)
Definition report_lines (v : state) : list string :=
  [lf +++ rule_line;
   colors.cyan +++ "           VPkg Package Validation Report" +++ colors.reset;
   rule_line;
   checks_passed_line (length (info v));
   warnings_line (length (warnings v));
   errors_line (length (errors v))] ++
  (if 0 <? length (warnings v)
   then (lf +++ colors.yellow +++ "Warnings:" +++ colors.reset) ::
        numbered_from 0 (warnings v)
   else []) ++
  (if 0 <? length (errors v)
   then (lf +++ colors.red +++ "Errors:" +++ colors.reset) ::
        numbered_from 0 (errors v)
   else []) ++
  (if length (errors v) =? 0
   then [lf +++ colors.green +++ "🎉 Package validation PASSED!" +++ colors.reset;
         colors.green +++ "Your package is ready for testing and submission." +++
         colors.reset]
   else [lf +++ colors.red +++ "❌ Package validation FAILED!" +++ colors.reset;
         colors.red +++ "Please fix the errors above before submitting." +++
         colors.reset]) ++
  [lf +++ rule_line].

(** The validator [v] after more lines went to the console. *)
Definition printed (v : state) (lines : list string) : state :=
  State (errors v) (warnings v) (info v) (console v ++ lines) (clock_reads v).

(** From [v], [m] returns [a] and does nothing but print [lines]. *)
Definition prints {A} (m : M A) (v : state) (a : A) (lines : list string) : Prop :=
  m v = (Ok a, printed v lines).

(** What [log] puts in front of a message on the console. *)
Definition error_tag : string := colors.red +++ "[ERROR]" +++ colors.reset +++ " ".
Definition warning_tag : string := colors.yellow +++ "[WARNING]" +++ colors.reset +++ " ".
Definition info_tag : string := colors.blue +++ "[INFO]" +++ colors.reset +++ " ".

(** The console lines under a tag: the diagnostics emitted at that
    severity. *)
Definition tagged (tag : string) (v : state) : list string :=
  filter (fun line => startsWith line tag) (console v).

Definition untagged (line : string) : Prop :=
  startsWith line error_tag = false /\
  startsWith line warning_tag = false /\
  startsWith line info_tag = false.

(** The console and the three collections tell the same story. *)
Definition transcript (v : state) : Prop :=
  tagged error_tag v = map (String.append error_tag) (errors v) /\
  tagged warning_tag v = map (String.append warning_tag) (warnings v) /\
  tagged info_tag v = map (String.append info_tag) (info v).

(** [m] maintains the property [I] of the validator. *)
Definition preserves {A} (I : state -> Prop) (m : M A) : Prop :=
  forall v, I v -> I (snd (m v)).

(** [validate()] up to the report. *)
Definition validation_phase (env : node_env) : M unit :=
  (console_log (colors.blue +++ "Starting VPkg package validation..." +++ lf +++
                colors.reset) ;;
   metaValid <- validateMetaYaml env ;;
   when metaValid (validateTemplates env ;; ret tt))%js.

Definition missing_meta_message (field : string) : string :=
  "Missing required field in meta.yaml: " +++ field.

Definition meta_version_findings (doc : Js.jsval) : list string :=
  if bad_format re_meta_version (prop doc "version")
  then ["Version format should be X.Y (e.g., " +++ dquote +++ "3.0" +++ dquote +++
        "), found: " +++ text_of (prop doc "version")]
  else [].

(** What [validateMetaYaml] finds in a document whose packages field is
    not an array. *)
Definition not_array_findings (doc : Js.jsval) : findings :=
  Findings (map missing_meta_message (filter (is_missing doc) requiredFields) ++
            ["packages field must be an array"])
           (meta_version_findings doc)
           ["Validating meta.yaml..."].

End Report.

(* ================================================================== *)
(** * A finite file system for the worked examples *)
(* ================================================================== *)

Module Fixture.
Import JsString Js.

Inductive fsnode :=
| File (content : string)
| Dir (items : list string).

Definition disk := list (string * fsnode).

Fixpoint find (d : disk) (p : string) : option fsnode :=
  match d with
  | [] => None
  | (q, n) :: rest => if String.eqb q p then Some n else find rest p
  end.

(** A platform whose files are those of [d], whose [yaml.load] returns
    [doc] whatever the text, and whose clock is [clock]. *)
Definition platform (d : disk) (doc : result jsval) (clock : nat -> Z)
  : node_env :=
  NodeEnv
    (fun p => match find d p with Some _ => true | None => false end)
    (fun p => match find d p with
              | Some (File c) => Ok c
              | Some (Dir _) => Throw "EISDIR: illegal operation on a directory, read"
              | None => Throw ("ENOENT: no such file or directory, open '" +++ p +++ "'")
              end)
    (fun p => match find d p with
              | Some (Dir items) => Ok items
              | Some (File _) => Throw ("ENOTDIR: not a directory, scandir '" +++ p +++ "'")
              | None => Throw ("ENOENT: no such file or directory, scandir '" +++ p +++ "'")
              end)
    (fun p => match find d p with
              | Some (Dir _) => Ok true
              | Some (File _) => Ok false
              | None => Throw ("ENOENT: no such file or directory, stat '" +++ p +++ "'")
              end)
    (fun dir item => dir +++ "/" +++ item)
    (fun _ => doc)
    clock
    64.

Definition ticking : nat -> Z := fun n => Z.of_nat n.

Definition package (name type templates version : string) : jsval :=
  VObj [("name", VStr name); ("title", VStr "Title"); ("description", VStr "Text");
        ("type", VStr type); ("templates", VStr templates); ("version", VStr version)].

Definition catalog (packages : jsval) : jsval :=
  VObj [("version", VStr "3.0"); ("repository", VStr "https://example.org/r");
        ("author", VStr "A"); ("license", VStr "MIT"); ("packages", packages)].

(** A utility package with one configuration template that assigns a
    literal password. *)
Definition secret_content : string :=
  "password = " +++ dquote +++ "hunter2" +++ dquote +++ lf +++ "name: {{.Title}}".

Definition secret_package : jsval := package "acme/settings" "utility" "t" "v1.0.0".

Definition secret_disk : disk :=
  [("meta.yaml", File "packages: ...");
   ("t", Dir ["config.yaml.tmpl"]);
   ("t/config.yaml.tmpl", File secret_content)].

Definition secret_env : node_env :=
  platform secret_disk (Ok (catalog (VArr [secret_package]))) ticking.

(** A catalog whose first package has [version: 1.0], which YAML reads as
    a number, and whose second package has no name. *)
Definition numeric_version_package : jsval :=
  VObj [("name", VStr "acme/first"); ("title", VStr "Title"); ("description", VStr "Text");
        ("type", VStr "utility"); ("templates", VStr "t"); ("version", VNum 1)].

Definition nameless_package : jsval :=
  VObj [("title", VStr "Title"); ("description", VStr "Text");
        ("type", VStr "utility"); ("templates", VStr "t"); ("version", VStr "v1.0.0")].

Definition numeric_version_env : node_env :=
  platform secret_disk
    (Ok (catalog (VArr [numeric_version_package; nameless_package]))) ticking.

(** An fx-module whose Go template has no package declaration. *)
Definition headless_content : string :=
  "// {{.Title}}" +++ lf +++ "func Build() {}".

Definition fx_package : jsval := package "acme/cache" "fx-module" "t" "v1.0.0".

Definition headless_disk : disk :=
  [("meta.yaml", File "packages: ...");
   ("t", Dir ["cache.go.tmpl"]);
   ("t/cache.go.tmpl", File headless_content)].

Definition headless_env : node_env :=
  platform headless_disk (Ok (catalog (VArr [fx_package]))) ticking.

(** Two documentation templates without a heading, an installation
    section or a code fence, one named [README.md.tmpl] and one named
    [Readme.md.tmpl]. *)
Definition readme_disk : disk :=
  [("meta.yaml", File "packages: ...");
   ("t", Dir ["README.md.tmpl"; "Readme.md.tmpl"]);
   ("t/README.md.tmpl", File "{{.Title}}");
   ("t/Readme.md.tmpl", File "{{.Title}}")].

Definition readme_env : node_env :=
  platform readme_disk (Ok (catalog (VArr [secret_package]))) ticking.

(** A package whose templates directory is not on the disk, between two
    packages whose directory is. *)
Definition lost_package : jsval := package "acme/lost" "utility" "nowhere" "v1.0.0".

Definition lost_env : node_env :=
  platform secret_disk
    (Ok (catalog (VArr [secret_package; lost_package; secret_package]))) ticking.

(** A package whose templates directory is not on the disk and whose
    version is [1.0], which YAML reads as a number, before a package that
    is in order. *)
Definition lost_numeric_package : jsval :=
  VObj [("name", VStr "acme/lost"); ("title", VStr "Title"); ("description", VStr "Text");
        ("type", VStr "utility"); ("templates", VStr "nowhere"); ("version", VNum 1)].

Definition lost_numeric_env : node_env :=
  platform secret_disk
    (Ok (catalog (VArr [lost_numeric_package; secret_package]))) ticking.

(** A catalog whose first entry of [packages] was left empty, which YAML
    reads as [null], before a package that is in order. *)
Definition empty_entry_env : node_env :=
  platform secret_disk (Ok (catalog (VArr [VNull; secret_package]))) ticking.

(** A package with neither name nor version. *)
Definition anonymous_package : jsval :=
  VObj [("title", VStr "Title"); ("description", VStr "Text");
        ("type", VStr "utility"); ("templates", VStr "t")].

(** Catalogs whose [packages] is a string, and is absent. *)
Definition scalar_packages_env : node_env :=
  platform secret_disk (Ok (catalog (VStr "acme/settings"))) ticking.

Definition no_packages_doc : jsval :=
  VObj [("version", VStr "3.0"); ("repository", VStr "https://example.org/r");
        ("author", VStr "A"); ("license", VStr "MIT")].

Definition no_packages_env : node_env :=
  platform secret_disk (Ok no_packages_doc) ticking.

End Fixture.

(* ================================================================== *)
(** * The specification's statements that the code does not meet *)
(* ================================================================== *)

Section AsStated.
Import JsString.

Variable env : node_env.

(** Every applicable rule of the per-file checker is evaluated, whatever
    the earlier rules found. *)
Definition every_rule_evaluated (filePath : string) (pkg : Js.jsval) : Prop :=
  forall content v,
    readFileSync env filePath = Ok content ->
    warnings (snd (validateTemplateFile env filePath pkg v)) =
    warnings v ++ spec_independent_warnings filePath content pkg.

(** A catalog that parses and whose [packages] is not an array gets the
    missing-field error and the must-be-an-array error. *)
Definition both_packages_errors : Prop :=
  forall text doc,
    existsSync env "meta.yaml" = true ->
    readFileSync env "meta.yaml" = Ok text ->
    yaml_load env text = Ok doc ->
    Js.isArray (prop doc "packages") = false ->
    let final := snd (validate env new_PackageValidator) in
    In "Missing required field in meta.yaml: packages" (errors final) /\
    In "packages field must be an array" (errors final).

End AsStated.

(* ================================================================== *)
(** * What each method finds, as a function of its inputs *)
(* ================================================================== *)

Section Outcomes.
Import JsString.

Variable env : node_env.

Definition an_error (message : string) : findings := Findings [message] [] [].

(** The value of [value && !value.match(re)], or what it throws. *)
Definition not_match_result (expr : string) (value : Js.jsval) (re : RegExp.regexp)
  : result bool :=
  if Js.truthy value then
    match Js.call_match expr value re with
    | Ok matched => Ok (negb matched)
    | Throw e => Throw e
    end
  else Ok false.

(** [validatePackageDefinition(pkg, index)]: how it ends and what it has
    logged by then. *)
Definition package_outcome (pkg : Js.jsval) (index : nat) : result unit * findings :=
  match Js.get pkg "name" with
  | Throw e => (Throw e, nothing)
  | Ok name =>
      match Js.toString (if Js.truthy name then name else Js.VStr "unnamed") with
      | Throw e => (Throw e, nothing)
      | Ok _ =>
          let head :=
            Findings (missing_field_findings pkg index) [] [package_info pkg index] in
          match not_match_result "pkg.name" (prop pkg "name") re_package_name with
          | Throw e => (Throw e, head)
          | Ok _ =>
              let named := merge head (Findings (name_findings pkg index) [] []) in
              match Js.toString (prop pkg "type") with
              | Throw e => (Throw e, named)
              | Ok _ =>
                  let typed := merge named (Findings [] (type_findings pkg index) []) in
                  match not_match_result "pkg.version" (prop pkg "version")
                          re_package_version with
                  | Throw e => (Throw e, typed)
                  | Ok _ =>
                      match Js.toString (prop pkg "templates") with
                      | Throw e =>
                          (Throw e,
                           merge typed (Findings [] (version_findings pkg index) []))
                      | Ok _ =>
                          (Ok tt,
                           Findings (package_errors env pkg index)
                                    (package_warnings pkg index)
                                    [package_info pkg index])
                      end
                  end
              end
          end
      end
  end.

(** A package on which [validatePackageDefinition] does not throw: not
    [null], with a name and a version that are absent, falsy or strings,
    and a type and a templates value that can be printed. *)
Definition checkable (pkg : Js.jsval) : Prop :=
  nullish pkg = false /\
  matchable (prop pkg "name") = true /\
  printable (prop pkg "type") = true /\
  matchable (prop pkg "version") = true /\
  printable (prop pkg "templates") = true.

(** The entries of a list with their positions, counted from [index]. *)
Definition indexed {A} (items : list A) (index : nat) : list (nat * A) :=
  combine (seq index (length items)) items.

(** The loop over the packages: it stops at the first one that throws. *)
Fixpoint packages_outcome (items : list Js.jsval) (index : nat)
  : result unit * findings :=
  match items with
  | [] => (Ok tt, nothing)
  | pkg :: rest =>
      match package_outcome pkg index with
      | (Ok _, f) =>
          let (r, g) := packages_outcome rest (S index) in (r, merge f g)
      | (Throw e, f) => (Throw e, f)
      end
  end.

(** The body of the [try] of [validateMetaYaml]. *)
Definition meta_body_outcome : result bool * findings :=
  match readFileSync env "meta.yaml" with
  | Throw e => (Throw e, nothing)
  | Ok text =>
      match yaml_load env text with
      | Throw e => (Throw e, nothing)
      | Ok doc =>
          match Js.get doc "version" with
          | Throw e => (Throw e, nothing)
          | Ok _ =>
              let missing :=
                Findings (map missing_meta_message (filter (is_missing doc) requiredFields))
                         [] [] in
              match not_match_result "meta.version" (prop doc "version") re_meta_version with
              | Throw e => (Throw e, missing)
              | Ok _ =>
                  let head := merge missing (Findings [] (meta_version_findings doc) []) in
                  match prop doc "packages" with
                  | Js.VArr [] =>
                      (Ok false, merge head (an_error "packages array cannot be empty"))
                  | Js.VArr items =>
                      match packages_outcome items 0 with
                      | (Ok _, f) => (Ok true, merge head f)
                      | (Throw e, f) => (Throw e, merge head f)
                      end
                  | _ => (Ok false, merge head (an_error "packages field must be an array"))
                  end
              end
          end
      end
  end.

(** [validateMetaYaml()]: what it returns and what it logs. *)
Definition meta_outcome : bool * findings :=
  let start := Findings [] [] ["Validating meta.yaml..."] in
  if negb (existsSync env "meta.yaml") then
    (false, merge start (an_error "meta.yaml file not found"))
  else
    match meta_body_outcome with
    | (Ok valid, f) => (valid, merge start f)
    | (Throw e, f) =>
        (false, merge start (merge f (an_error ("Failed to parse meta.yaml: " +++ e))))
    end.

(** [validateTemplateFile(filePath, pkg)] for a package that is not
    [null]. *)
Definition file_outcome (pkg : Js.jsval) (filePath : string) : bool * findings :=
  match readFileSync env filePath with
  | Ok content =>
      (template_verdict filePath content,
       Findings (template_errors filePath content)
                (template_warnings filePath content pkg)
                ["Validating template: " +++ filePath])
  | Throw e =>
      (false,
       Findings ["Failed to read template file " +++ filePath +++ ": " +++ e] []
                ["Validating template: " +++ filePath])
  end.

(** The loop over the discovered files. *)
Fixpoint files_outcome (pkg : Js.jsval) (files : list string) (allValid : bool)
  : bool * findings :=
  match files with
  | [] => (allValid, nothing)
  | filePath :: rest =>
      let (isValid, f) := file_outcome pkg filePath in
      let (result, g) := files_outcome pkg rest (if negb isValid then false else allValid) in
      (result, merge f g)
  end.

(** [validatePackageTemplates(pkg, index)] for a package that is not
    [null]: after the discovery, and as a whole. *)
Definition discovered_outcome (pkg : Js.jsval) (index : nat) : result bool * findings :=
  match findTemplateFiles_val env (prop pkg "templates") with
  | Throw e => (Throw e, nothing)
  | Ok [] =>
      match Js.toString (prop pkg "templates") with
      | Throw e => (Throw e, nothing)
      | Ok dir =>
          (Ok false,
           an_error ("Package " +++ of_nat (index + 1) +++
                     ": No template files found in " +++ dir))
      end
  | Ok files =>
      (Ok (fst (files_outcome pkg files true)), snd (files_outcome pkg files true))
  end.

Definition package_templates_outcome (pkg : Js.jsval) (index : nat)
  : result bool * findings :=
  match Js.toString (prop pkg "name") with
  | Throw e => (Throw e, nothing)
  | Ok name =>
      (fst (discovered_outcome pkg index),
       merge (Findings [] [] ["Validating templates for package: " +++ name])
             (snd (discovered_outcome pkg index)))
  end.

(** The callback of the loop of [validateTemplates]. *)
Definition templates_each_outcome (pkg : Js.jsval) (index : nat) (allValid : bool)
  : result bool * findings :=
  match Js.get pkg "templates" with
  | Throw e => (Throw e, nothing)
  | Ok templates =>
      if Js.truthy templates && existsSync_val env templates then
        match package_templates_outcome pkg index with
        | (Ok isValid, f) => (Ok (if negb isValid then false else allValid), f)
        | (Throw e, f) => (Throw e, f)
        end
      else (Ok allValid, nothing)
  end.

Fixpoint templates_loop_outcome (items : list Js.jsval) (index : nat) (allValid : bool)
  : result bool * findings :=
  match items with
  | [] => (Ok allValid, nothing)
  | pkg :: rest =>
      match templates_each_outcome pkg index allValid with
      | (Ok allValid', f) =>
          let (r, g) := templates_loop_outcome rest (S index) allValid' in (r, merge f g)
      | (Throw e, f) => (Throw e, f)
      end
  end.

(** The body of the [try] of [validateTemplates]. *)
Definition templates_body_outcome : result bool * findings :=
  match readFileSync env "meta.yaml" with
  | Throw e => (Throw e, nothing)
  | Ok text =>
      match yaml_load env text with
      | Throw e => (Throw e, nothing)
      | Ok doc =>
          match Js.get doc "packages" with
          | Throw e => (Throw e, nothing)
          | Ok (Js.VArr items) => templates_loop_outcome items 0 true
          | Ok Js.VUndefined =>
              (Throw "Cannot read properties of undefined (reading 'forEach')", nothing)
          | Ok Js.VNull =>
              (Throw "Cannot read properties of null (reading 'forEach')", nothing)
          | Ok _ => (Throw "meta.packages.forEach is not a function", nothing)
          end
      end
  end.

(** [validateTemplates()]: what it returns and what it logs. *)
Definition templates_outcome : bool * findings :=
  let start := Findings [] [] ["Validating template files..."] in
  if negb (existsSync env "meta.yaml") then
    (false, merge start (an_error "meta.yaml not found, cannot validate templates"))
  else
    match templates_body_outcome with
    | (Ok valid, f) => (valid, merge start f)
    | (Throw e, f) =>
        (false, merge start (merge f (an_error ("Failed to validate templates: " +++ e))))
    end.

(** Everything a run finds before it prints the report. *)
Definition run_findings : findings :=
  let (metaValid, f) := meta_outcome in
  if metaValid then merge f (snd templates_outcome) else f.

End Outcomes.

(* ================================================================== *)
(** * The walk of the discovery *)
(* ================================================================== *)

(** The [for] loop of [findTemplateFiles(dir)] over the entries that are
    left, [files] being what it has collected; [find] is the recursive
    call. *)
Definition walk (env : node_env) (find : string -> result (list string)) (dir : string)
  : list string -> list string -> result (list string) :=
  fix loop (items : list string) (files : list string) :=
    match items with
    | [] => Ok files
    | item :: rest =>
        let itemPath := path_join env dir item in
        match isDirectory env itemPath with
        | Throw e => Throw e
        | Ok true =>
            match find itemPath with
            | Throw e => Throw e
            | Ok found => loop rest (files ++ found)
            end
        | Ok false =>
            if JsString.endsWith item ".tmpl"
            then loop rest (files ++ [itemPath])
            else loop rest files
        end
    end.

(** The name of a template. *)
Definition is_template_name (name : string) : bool := JsString.endsWith name ".tmpl".

(** A templates directory with a subdirectory. *)
Definition nested_disk : Fixture.disk :=
  [("t", Fixture.Dir ["notes.txt"; "sub"; "main.go.tmpl"]);
   ("t/notes.txt", Fixture.File "notes");
   ("t/sub", Fixture.Dir ["README.md.tmpl"]);
   ("t/sub/README.md.tmpl", Fixture.File "# Title");
   ("t/main.go.tmpl", Fixture.File "package main")].

Definition nested_env : node_env :=
  Fixture.platform nested_disk (Ok Js.VNull) Fixture.ticking.

(* ================================================================== *)
(** * The languages of the regular expressions *)
(* ================================================================== *)

Section Languages.
Import JsString RegExp.

Fixpoint all_chars (c : ascii -> bool) (s : string) : bool :=
  match s with
  | EmptyString => true
  | String a s' => c a && all_chars c s'
  end.

(** A non-empty run of characters of the class [c]. *)
Definition run_of (c : ascii -> bool) (s : string) : Prop :=
  s <> "" /\ all_chars c s = true.

(** The strings a quantified class stands for. *)
Definition in_atom (a : atom) (w : string) : Prop :=
  all_chars (accepts a) w = true /\
  match quant a with
  | Once => String.length w = 1
  | ZeroOrOne => String.length w <= 1
  | ZeroOrMore => True
  | OneOrMore => 1 <= String.length w
  end.

(** The strings a pattern stands for: one piece for each of its atoms. *)
Inductive in_lang : pattern -> string -> Prop :=
| in_lang_nil : in_lang [] ""
| in_lang_cons a p w1 w2 :
    in_atom a w1 -> in_lang p w2 -> in_lang (a :: p) (w1 +++ w2).

(** Whether the position that follows [text] starts a line, [start]
    telling whether [text] itself starts one: the text is empty, or its
    last character is a line terminator. *)
Fixpoint line_start_after (start : bool) (text : string) : bool :=
  match text with
  | EmptyString => start
  | String c text' => line_start_after (is_line_terminator c) text'
  end.

(** org/package: two non-empty runs of lower-case letters, digits and
    hyphens with one slash between them. *)
Definition org_slash_package (s : string) : Prop :=
  exists org name,
    s = org +++ "/" +++ name /\ run_of is_name_char org /\ run_of is_name_char name.

(** Major and minor: two non-empty runs of digits with one dot between
    them. *)
Definition major_dot_minor (s : string) : Prop :=
  exists major minor,
    s = major +++ "." +++ minor /\ run_of is_digit major /\ run_of is_digit minor.

(** A string that starts with three non-empty runs of digits separated
    by dots, possibly after a [v]; anything may follow. *)
Definition starts_with_semver (s : string) : Prop :=
  exists v major minor patch rest,
    s = v +++ major +++ "." +++ minor +++ "." +++ patch +++ rest /\
    (v = "" \/ v = "v") /\
    run_of is_digit major /\ run_of is_digit minor /\ run_of is_digit patch.

(** A line that starts with the word [package], white space and a word
    character. *)
Definition declares_package (content : string) : Prop :=
  exists before spaces name rest,
    content = before +++ "package" +++ spaces +++ name +++ rest /\
    line_start_after true before = true /\
    run_of is_space spaces /\ run_of is_word name.

End Languages.

(* ================================================================== *)
(** * What a passing run requires *)
(* ================================================================== *)

Section Requirements.

Variable env : node_env.

(** A package entry with nothing for the package checker to report as an
    error, and on which it does not throw. *)
Definition package_ok (pkg : Js.jsval) : Prop :=
  nullish pkg = false /\
  (forall field, In field requiredPackageFields -> Js.truthy (prop pkg field) = true) /\
  (exists name, prop pkg "name" = Js.VStr name /\
                RegExp.test re_package_name name = true) /\
  printable (prop pkg "type") = true /\
  is_string (prop pkg "version") = true /\
  existsSync_val env (prop pkg "templates") = true /\
  (Js.truthy (prop pkg "tags") = true -> Js.isArray (prop pkg "tags") = true) /\
  (Js.truthy (prop pkg "dependencies") = true ->
   Js.isArray (prop pkg "dependencies") = true).

(** A template that can be read and, if it is a Go template, declares
    its package. *)
Definition file_ok (filePath : string) : Prop :=
  exists content,
    readFileSync env filePath = Ok content /\
    (is_go_template filePath = true -> has_package_declaration content = true).

(** A package whose directory can be walked and holds at least one
    template, all of them fine. *)
Definition templates_ok (pkg : Js.jsval) : Prop :=
  exists files,
    findTemplateFiles_val env (prop pkg "templates") = Ok files /\
    files <> [] /\
    Forall file_ok files.

Definition catalog_ok : Prop :=
  existsSync env "meta.yaml" = true /\
  exists text doc items,
    readFileSync env "meta.yaml" = Ok text /\
    yaml_load env text = Ok doc /\
    nullish doc = false /\
    (forall field, In field requiredFields -> Js.truthy (prop doc field) = true) /\
    is_string (prop doc "version") = true /\
    prop doc "packages" = Js.VArr items /\
    items <> [] /\
    Forall package_ok items /\
    Forall templates_ok items.

End Requirements.

(* ================================================================== *)
(** * Reasoning about the state transformers *)
(* ================================================================== *)

Lemma merge_nothing_r f : merge f nothing = f.
Proof. destruct f; unfold merge; simpl; now rewrite !app_nil_r. Qed.

Lemma merge_nothing_l f : merge nothing f = f.
Proof. now destruct f. Qed.

Lemma merge_assoc f g h : merge (merge f g) h = merge f (merge g h).
Proof. unfold merge; simpl; now rewrite !app_assoc. Qed.

Lemma run_emits_lists {A} (m : M A) v r f :
  run_emits m v r f ->
  errors (snd (m v)) = errors v ++ f_errors f /\
  warnings (snd (m v)) = warnings v ++ f_warnings f /\
  info (snd (m v)) = info v ++ f_info f.
Proof.
  intros [_ H]. unfold collected, merge in H. now injection H.
Qed.

Lemma emits_eq {A} (m : M A) r f g : emits m r f -> f = g -> emits m r g.
Proof. now intros H <-. Qed.

Lemma emits_ret {A} (a : A) : emits (ret a) (Ok a) nothing.
Proof. intros v; split; simpl; [reflexivity | now rewrite merge_nothing_r]. Qed.

Lemma emits_lift {A} (r : result A) : emits (lift r) r nothing.
Proof. intros v; split; simpl; [reflexivity | now rewrite merge_nothing_r]. Qed.

Lemma emits_bind {A B} (m : M A) (k : A -> M B) a r f g :
  emits m (Ok a) f -> emits (k a) r g -> emits (bind m k) r (merge f g).
Proof.
  intros Hm Hk v. destruct (Hm v) as [Hr Hc]. unfold run_emits, bind.
  destruct (m v) as [r0 v0]; simpl in *; subst r0.
  destruct (Hk v0) as [Hr' Hc']. split; [exact Hr' |].
  now rewrite Hc', Hc, merge_assoc.
Qed.

Lemma emits_bind_throw {A B} (m : M A) (k : A -> M B) e f :
  emits m (Throw e) f -> emits (bind m k) (Throw e) f.
Proof.
  intros Hm v. destruct (Hm v) as [Hr Hc]. unfold run_emits, bind.
  destruct (m v) as [r0 v0]; simpl in *; subst r0. now split.
Qed.

Lemma emits_bind_lift {A B} (x : A) (k : A -> M B) r f :
  emits (k x) r f -> emits (bind (lift (Ok x)) k) r f.
Proof. intros H v. exact (H v). Qed.

Lemma emits_bind_lift_throw {A B} e (k : A -> M B) :
  emits (bind (lift (Throw e)) k) (Throw e) nothing.
Proof. apply emits_bind_throw, emits_lift. Qed.

Lemma emits_try_ok {A} (m : M A) handler a f :
  emits m (Ok a) f -> emits (try_catch m handler) (Ok a) f.
Proof.
  intros Hm v. destruct (Hm v) as [Hr Hc]. unfold run_emits, try_catch.
  destruct (m v) as [r0 v0]; simpl in *; subst r0. now split.
Qed.

Lemma emits_try_throw {A} (m : M A) handler e r f g :
  emits m (Throw e) f -> emits (handler e) r g ->
  emits (try_catch m handler) r (merge f g).
Proof.
  intros Hm Hh v. destruct (Hm v) as [Hr Hc]. unfold run_emits, try_catch.
  destruct (m v) as [r0 v0]; simpl in *; subst r0.
  destruct (Hh v0) as [Hr' Hc']. split; [exact Hr' |].
  now rewrite Hc', Hc, merge_assoc.
Qed.

Lemma emits_console_log line : emits (console_log line) (Ok tt) nothing.
Proof. intros v; split; simpl; [reflexivity | now rewrite merge_nothing_r]. Qed.

Section LogFacts.
Variable env : node_env.

Lemma emits_log level message :
  emits (log env level message) (Ok tt) (logged level message).
Proof.
  intros v. unfold run_emits, log, logged, collected, merge, nothing.
  destruct (String.eqb level "error");
    [| destruct (String.eqb level "warning");
       [| destruct (String.eqb level "info");
          [| destruct (String.eqb level "success")]]];
    simpl; rewrite ?app_nil_r; now split.
Qed.

Lemma emits_when b m f :
  emits m (Ok tt) f -> emits (when b m) (Ok tt) (if b then f else nothing).
Proof. destruct b; simpl; [easy | intros _; apply emits_ret]. Qed.

Lemma emits_when_error (b : bool) message :
  emits (when b (log env "error" message)) (Ok tt)
        (Findings (if b then [message] else []) [] []).
Proof.
  eapply emits_eq; [apply emits_when, emits_log | now destruct b].
Qed.

Lemma emits_when_warning (b : bool) message :
  emits (when b (log env "warning" message)) (Ok tt)
        (Findings [] (if b then [message] else []) []).
Proof.
  eapply emits_eq; [apply emits_when, emits_log | now destruct b].
Qed.

End LogFacts.

(** A loop that only logs errors. *)
Lemma emits_for_of_errors {A} (items : list A) (body : A -> M unit)
  (found : A -> list string) :
  (forall x, emits (body x) (Ok tt) (Findings (found x) [] [])) ->
  emits (for_of items body) (Ok tt) (Findings (flat_map found items) [] []).
Proof.
  intros Hbody. induction items as [| x rest IH]; simpl.
  - apply emits_ret.
  - eapply emits_eq; [eapply emits_bind; [apply Hbody | apply IH] | reflexivity].
Qed.

(** A [forEach] that only logs warnings. *)
Lemma emits_forEach_warnings {A} (items : list A) (body : A -> nat -> unit -> M unit)
  (found : A -> list string) index :
  (forall x i, emits (body x i tt) (Ok tt) (Findings [] (found x) [])) ->
  emits (forEach_from body items index tt) (Ok tt)
        (Findings [] (flat_map found items) []).
Proof.
  intros Hbody. revert index. induction items as [| x rest IH]; intros index; simpl.
  - apply emits_ret.
  - eapply emits_eq; [eapply emits_bind; [apply Hbody | apply IH] | reflexivity].
Qed.

(** [forEach] over a list in two parts. *)
Lemma forEach_from_app {A Acc} (body : A -> nat -> Acc -> M Acc) before after :
  forall index acc v,
    forEach_from body (before ++ after) index acc v =
    bind (forEach_from body before index acc)
         (fun acc' => forEach_from body after (index + length before) acc') v.
Proof.
  induction before as [| x rest IH]; intros index acc v; simpl.
  - unfold bind, ret. now rewrite Nat.add_0_r.
  - unfold bind. destruct (body x index acc v) as [[acc' | e] v']; [| reflexivity].
    rewrite IH, Nat.add_succ_r. reflexivity.
Qed.

Lemma get_prop v key : nullish v = false -> Js.get v key = Ok (prop v key).
Proof. now destruct v. Qed.

(** One step of a symbolic run. *)
Ltac emits_step :=
  first [ apply emits_ret
        | apply emits_when_warning
        | apply emits_when_error
        | apply emits_log
        | apply emits_console_log
        | apply emits_bind_lift
        | eapply emits_bind ].

(** Findings put in the shape of a flat list. *)
Ltac flatten_findings :=
  unfold merge, logged, nothing; simpl;
  rewrite ?app_nil_r, <- ?app_assoc; simpl.

(* ================================================================== *)
(** * The per-file checker *)
(* ================================================================== *)

Section TemplateChecker.
Import JsString.

Variable env : node_env.

Lemma emits_validateReadmeTemplate filePath content pkg :
  emits (validateReadmeTemplate env filePath content pkg) (Ok true)
        (Findings [] (readme_findings filePath content) []).
Proof.
  unfold validateReadmeTemplate, readme_findings.
  eapply emits_eq; [repeat emits_step | flatten_findings; reflexivity].
Qed.

Lemma emits_documentation_rule filePath content matched (i : nat) :
  emits
    (let funcName := replace matched "func " "" in
     when (String.eqb (charAt 0 funcName) (toUpperCase (charAt 0 funcName)))
       (when (negb (RegExp.test (funcRegex funcName) content))
          (log env "warning" (filePath +++ ": Public function " +++ funcName +++
                              " missing documentation comment"))))
    (Ok tt) (Findings [] (undocumented filePath content matched) []).
Proof.
  unfold undocumented. cbv zeta.
  destruct (String.eqb _ _); simpl; [apply emits_when_warning | apply emits_ret].
Qed.

Lemma emits_fx_module_rule filePath content pkg :
  emits
    (when (Js.strict_eq_str (prop pkg "type") "fx-module")
       (when (negb (includes content "go.uber.org/fx"))
          (log env "warning" (filePath +++ ": fx-module should import go.uber.org/fx")) ;;
        when (negb (includes content "var Module") && negb (includes content "func NewModule"))
          (log env "warning"
             (filePath +++ ": fx-module should export Module or NewModule function"))))
    (Ok tt) (Findings [] (fx_module_findings filePath content pkg) []).
Proof.
  unfold fx_module_findings.
  destruct (Js.strict_eq_str _ _); simpl; [| apply emits_ret].
  eapply emits_eq; [repeat emits_step | flatten_findings; reflexivity].
Qed.

Lemma emits_validateGoTemplate filePath content pkg :
  nullish pkg = false ->
  emits (validateGoTemplate env filePath content pkg)
        (Ok (has_package_declaration content))
        (Findings (declaration_findings filePath content)
                  (if has_package_declaration content
                   then fx_module_findings filePath content pkg ++
                        documentation_findings filePath content
                   else [])
                  []).
Proof.
  intros Hpkg. unfold validateGoTemplate, declaration_findings, has_package_declaration.
  destruct (RegExp.test re_package_declaration content); simpl.
  - rewrite (get_prop _ _ Hpkg). apply emits_bind_lift.
    eapply emits_eq.
    + eapply emits_bind; [apply emits_fx_module_rule |].
      eapply emits_bind.
      * apply emits_forEach_warnings with (found := undocumented filePath content).
        intros matched i. apply emits_documentation_rule; exact i.
      * repeat emits_step.
    + flatten_findings. reflexivity.
  - eapply emits_eq; [repeat emits_step | flatten_findings; reflexivity].
Qed.

(** What [validateTemplateFile] does with a file it can read. *)
Lemma emits_validateTemplateFile filePath pkg content :
  (is_go_template filePath = true -> nullish pkg = false) ->
  readFileSync env filePath = Ok content ->
  emits (validateTemplateFile env filePath pkg)
        (Ok (template_verdict filePath content))
        (Findings (template_errors filePath content)
                  (template_warnings filePath content pkg)
                  ["Validating template: " +++ filePath]).
Proof.
  intros Hpkg Hread.
  unfold validateTemplateFile, template_verdict, template_errors, template_warnings,
    variable_syntax_findings, is_go_template, is_readme.
  rewrite Hread.
  unfold is_go_template in Hpkg.
  destruct (endsWith filePath ".go.tmpl");
    [specialize (Hpkg eq_refl)
    | destruct (includes filePath "README" || includes filePath "readme")];
    (eapply emits_eq;
     [ eapply emits_bind; [apply emits_log |];
       apply emits_try_ok; apply emits_bind_lift;
       eapply emits_bind; [apply emits_when_warning |];
       eapply emits_bind; [apply emits_when, emits_log |];
       first [ apply emits_validateGoTemplate, Hpkg
             | apply emits_validateReadmeTemplate
             | apply emits_ret ]
     | destruct (0 <? _); flatten_findings; reflexivity ]).
Qed.

(** What it does with a file it cannot read. *)
Lemma emits_validateTemplateFile_unreadable filePath pkg message :
  readFileSync env filePath = Throw message ->
  emits (validateTemplateFile env filePath pkg) (Ok false)
        (Findings ["Failed to read template file " +++ filePath +++ ": " +++ message]
                  [] ["Validating template: " +++ filePath]).
Proof.
  intros Hread. unfold validateTemplateFile. rewrite Hread.
  eapply emits_eq.
  - eapply emits_bind; [apply emits_log |].
    eapply emits_try_throw; [apply emits_bind_lift_throw | repeat emits_step].
  - flatten_findings. reflexivity.
Qed.

End TemplateChecker.

(* ================================================================== *)
(** * The package checker *)
(* ================================================================== *)

Section PackageChecker.
Import JsString.

Variable env : node_env.

Lemma flat_map_filter {A B} (keep : A -> bool) (f : A -> B) (items : list A) :
  flat_map (fun x => if keep x then [f x] else []) items = map f (filter keep items).
Proof.
  induction items as [| x rest IH]; simpl; [reflexivity |].
  destruct (keep x); simpl; now rewrite IH.
Qed.

(** The loop over the required fields of a value that is not [null]. *)
Lemma emits_required_loop (v : Js.jsval) (fields : list string) (message : string -> string) :
  nullish v = false ->
  emits
    (for_of fields (fun field =>
       value <- lift (Js.get v field) ;;
       when (negb (Js.truthy value)) (log env "error" (message field))))
    (Ok tt)
    (Findings (map message (filter (is_missing v) fields)) [] []).
Proof.
  intros Hv. rewrite <- flat_map_filter.
  apply emits_for_of_errors with
    (found := fun field => if is_missing v field then [message field] else []).
  intros field. rewrite (get_prop _ _ Hv). apply emits_bind_lift.
  apply emits_when_error.
Qed.

Lemma emits_and_not_match expr value re :
  matchable value = true ->
  emits (and_not_match expr value re) (Ok (bad_format re value)) nothing.
Proof.
  unfold matchable, and_not_match.
  destruct value as [| | b | z | s | items | fields]; simpl; try discriminate.
  - intros _. apply emits_ret.
  - intros _. apply emits_ret.
  - destruct b; [discriminate | intros _; apply emits_ret].
  - destruct (z =? 0)%Z; [intros _; apply emits_ret | discriminate].
  - intros _. destruct (String.eqb s ""); simpl; [apply emits_ret |].
    apply emits_bind_lift. apply emits_ret.
Qed.

(** Template literals: a value that can be printed gives its text. *)
Lemma toString_text v : printable v = true -> Js.toString v = Ok (text_of v).
Proof. unfold printable, text_of. now destruct (Js.toString v). Qed.

Lemma printable_string v : is_string v = true -> printable v = true.
Proof. now destruct v. Qed.

Lemma matchable_printable v : matchable v = true -> printable v = true.
Proof.
  unfold matchable.
  destruct v as [| | [] | z | s | items | fields]; simpl; try discriminate; reflexivity.
Qed.

Lemma shown_or_unnamed v :
  printable v = true ->
  Js.toString (if Js.truthy v then v else Js.VStr "unnamed") =
  Ok (text_of (if Js.truthy v then v else Js.VStr "unnamed")).
Proof.
  intros H. destruct (Js.truthy v); [now apply toString_text | reflexivity].
Qed.

(** A value that cannot be printed is a mapping or an array: it is
    truthy, it is not a string and it is not a path. *)
Lemma unprintable_truthy v : printable v = false -> Js.truthy v = true.
Proof. destruct v as [| | [] | z | s | items | fields]; simpl; now try discriminate. Qed.

Lemma unprintable_not_string v : printable v = false -> is_string v = false.
Proof. destruct v as [| | [] | z | s | items | fields]; simpl; now try discriminate. Qed.

Lemma emits_shown_error (b : bool) v shown (message : string -> string) :
  Js.toString v = Ok shown ->
  emits (when b (bind (lift (Js.toString v)) (fun s => log env "error" (message s))))
        (Ok tt) (Findings (if b then [message shown] else []) [] []).
Proof. intros ->. exact (emits_when_error env b (message shown)). Qed.

Lemma emits_shown_warning (b : bool) v shown (message : string -> string) :
  Js.toString v = Ok shown ->
  emits (when b (bind (lift (Js.toString v)) (fun s => log env "warning" (message s))))
        (Ok tt) (Findings [] (if b then [message shown] else []) []).
Proof. intros ->. exact (emits_when_warning env b (message shown)). Qed.

(** The value a format check rejects is a string. *)
Lemma emits_bad_format_error re v (message : string -> string) :
  emits (when (bad_format re v)
           (bind (lift (Js.toString v)) (fun s => log env "error" (message s))))
        (Ok tt) (Findings (if bad_format re v then [message (text_of v)] else []) [] []).
Proof.
  destruct v as [| | b | z | s | items | fields]; try apply emits_ret.
  exact (emits_when_error env _ (message s)).
Qed.

Lemma emits_bad_format_warning re v (message : string -> string) :
  emits (when (bad_format re v)
           (bind (lift (Js.toString v)) (fun s => log env "warning" (message s))))
        (Ok tt) (Findings [] (if bad_format re v then [message (text_of v)] else []) []).
Proof.
  destruct v as [| | b | z | s | items | fields]; try apply emits_ret.
  exact (emits_when_warning env _ (message s)).
Qed.

(** [validatePackageDefinition] on a package whose name and version are
    absent, falsy or strings and whose type and templates can be
    printed. *)
Lemma emits_validatePackageDefinition pkg index :
  nullish pkg = false ->
  matchable (prop pkg "name") = true ->
  printable (prop pkg "type") = true ->
  matchable (prop pkg "version") = true ->
  printable (prop pkg "templates") = true ->
  emits (validatePackageDefinition env pkg index) (Ok tt)
        (Findings (package_errors env pkg index)
                  (package_warnings pkg index)
                  [package_info pkg index]).
Proof.
  intros Hpkg Hname Htype Hversion Htemplates.
  unfold validatePackageDefinition. cbv zeta.
  rewrite !(get_prop _ _ Hpkg).
  eapply emits_eq.
  - apply emits_bind_lift.
    rewrite (shown_or_unnamed _ (matchable_printable _ Hname)). apply emits_bind_lift.
    eapply emits_bind; [apply emits_log |].
    eapply emits_bind; [apply emits_required_loop, Hpkg |].
    apply emits_bind_lift.
    eapply emits_bind; [apply emits_and_not_match, Hname |].
    eapply emits_bind; [apply emits_bad_format_error |].
    apply emits_bind_lift.
    eapply emits_bind; [apply emits_shown_warning, toString_text, Htype |].
    apply emits_bind_lift.
    eapply emits_bind; [apply emits_and_not_match, Hversion |].
    eapply emits_bind; [apply emits_bad_format_warning |].
    apply emits_bind_lift.
    eapply emits_bind; [apply emits_shown_error, toString_text, Htemplates |].
    apply emits_bind_lift.
    eapply emits_bind; [apply emits_when_error |].
    apply emits_bind_lift.
    apply emits_when_error.
  - unfold package_errors, package_warnings, package_info, missing_field_findings,
      name_findings, templates_findings, tags_findings, dependencies_findings,
      type_findings, version_findings, missing_field_message, templates_message,
      package_label.
    flatten_findings. reflexivity.
Qed.

End PackageChecker.

(* ================================================================== *)
(** * Every method only appends, and the run never throws *)
(* ================================================================== *)

Create HintDb grows.
Create HintDb returns.

Lemma emits_grows {A} (m : M A) r f : emits m r f -> grows m.
Proof. intros H v. exists f. apply H. Qed.

Lemma grows_ret {A} (a : A) : grows (ret a).
Proof. eapply emits_grows, emits_ret. Qed.

Lemma grows_lift {A} (r : result A) : grows (lift r).
Proof. eapply emits_grows, emits_lift. Qed.

Lemma grows_this : grows this.
Proof. intros v. exists nothing. simpl. now rewrite merge_nothing_r. Qed.

Lemma grows_console_log line : grows (console_log line).
Proof. eapply emits_grows, emits_console_log. Qed.

Lemma grows_log env level message : grows (log env level message).
Proof. eapply emits_grows, emits_log. Qed.

Lemma grows_bind {A B} (m : M A) (k : A -> M B) :
  grows m -> (forall a, grows (k a)) -> grows (bind m k).
Proof.
  intros Hm Hk v. destruct (Hm v) as [f Hf]. unfold bind.
  destruct (m v) as [[a | e] v']; simpl in *.
  - destruct (Hk a v') as [g Hg]. exists (merge f g).
    now rewrite Hg, Hf, merge_assoc.
  - now exists f.
Qed.

Lemma grows_try_catch {A} (m : M A) handler :
  grows m -> (forall e, grows (handler e)) -> grows (try_catch m handler).
Proof.
  intros Hm Hh v. destruct (Hm v) as [f Hf]. unfold try_catch.
  destruct (m v) as [[a | e] v']; simpl in *.
  - now exists f.
  - destruct (Hh e v') as [g Hg]. exists (merge f g).
    now rewrite Hg, Hf, merge_assoc.
Qed.

Lemma grows_when b m : grows m -> grows (when b m).
Proof. destruct b; simpl; [easy | intros _; apply grows_ret]. Qed.

Lemma grows_for_of {A} (items : list A) body :
  (forall x, grows (body x)) -> grows (for_of items body).
Proof.
  intros Hbody. induction items; simpl; [apply grows_ret |].
  apply grows_bind; auto.
Qed.

Lemma grows_forEach_from {A Acc} (body : A -> nat -> Acc -> M Acc) items :
  (forall x i acc, grows (body x i acc)) ->
  forall index acc, grows (forEach_from body items index acc).
Proof.
  intros Hbody. induction items; intros index acc; simpl; [apply grows_ret |].
  apply grows_bind; auto.
Qed.

Lemma grows_forEach {A Acc} (body : A -> nat -> Acc -> M Acc) items acc :
  (forall x i acc', grows (body x i acc')) -> grows (forEach body items acc).
Proof. intros H. now apply grows_forEach_from. Qed.

#[local] Hint Resolve grows_ret grows_lift grows_this grows_console_log grows_log
  grows_bind grows_try_catch grows_when grows_for_of grows_forEach : grows.
#[local] Hint Extern 3 (grows (if ?b then _ else _)) => destruct b : grows.
#[local] Hint Extern 3 (grows (match ?x with _ => _ end)) => destruct x : grows.

Lemma returns_ret {A} (a : A) : returns (ret a).
Proof. intros v. now exists a. Qed.

Lemma returns_this : returns this.
Proof. intros v. now exists v. Qed.

Lemma returns_console_log line : returns (console_log line).
Proof. intros v. now exists tt. Qed.

Lemma returns_log env level message : returns (log env level message).
Proof. intros v. exists tt. apply emits_log. Qed.

Lemma returns_bind {A B} (m : M A) (k : A -> M B) :
  returns m -> (forall a, returns (k a)) -> returns (bind m k).
Proof.
  intros Hm Hk v. destruct (Hm v) as [a Ha]. unfold bind.
  destruct (m v) as [r v']; simpl in *; subst r. apply Hk.
Qed.

(** Whatever the body does, a [try] whose handler returns does. *)
Lemma returns_try_catch {A} (m : M A) handler :
  (forall e, returns (handler e)) -> returns (try_catch m handler).
Proof.
  intros Hh v. unfold try_catch. destruct (m v) as [[a | e] v']; simpl.
  - now exists a.
  - apply Hh.
Qed.

Lemma returns_when b m : returns m -> returns (when b m).
Proof. destruct b; simpl; [easy | intros _; apply returns_ret]. Qed.

Lemma returns_forEach_from {A Acc} (body : A -> nat -> Acc -> M Acc) items :
  (forall x i acc, returns (body x i acc)) ->
  forall index acc, returns (forEach_from body items index acc).
Proof.
  intros Hbody. induction items; intros index acc; simpl; [apply returns_ret |].
  apply returns_bind; auto.
Qed.

Lemma returns_forEach {A Acc} (body : A -> nat -> Acc -> M Acc) items acc :
  (forall x i acc', returns (body x i acc')) -> returns (forEach body items acc).
Proof. intros H. now apply returns_forEach_from. Qed.

#[local] Hint Resolve returns_ret returns_this returns_console_log returns_log
  returns_bind returns_try_catch returns_when returns_forEach : returns.
#[local] Hint Extern 3 (returns (if ?b then _ else _)) => destruct b : returns.

Section WholeRun.
Variable env : node_env.

Lemma grows_and_not_match expr value re : grows (and_not_match expr value re).
Proof. unfold and_not_match. auto with grows. Qed.

#[local] Hint Resolve grows_and_not_match : grows.

Lemma grows_validatePackageDefinition pkg index :
  grows (validatePackageDefinition env pkg index).
Proof. unfold validatePackageDefinition. auto 30 with grows. Qed.

Lemma grows_validateMetaYaml : grows (validateMetaYaml env).
Proof.
  pose proof grows_validatePackageDefinition.
  unfold validateMetaYaml. auto 30 with grows.
Qed.

Lemma grows_validateReadmeTemplate filePath content pkg :
  grows (validateReadmeTemplate env filePath content pkg).
Proof. unfold validateReadmeTemplate. auto 20 with grows. Qed.

Lemma grows_validateGoTemplate filePath content pkg :
  grows (validateGoTemplate env filePath content pkg).
Proof. unfold validateGoTemplate. auto 30 with grows. Qed.

Lemma grows_validateTemplateFile filePath pkg :
  grows (validateTemplateFile env filePath pkg).
Proof.
  pose proof grows_validateGoTemplate. pose proof grows_validateReadmeTemplate.
  unfold validateTemplateFile. auto 30 with grows.
Qed.

Lemma grows_validatePackageTemplates pkg index :
  grows (validatePackageTemplates env pkg index).
Proof.
  pose proof grows_validateTemplateFile.
  unfold validatePackageTemplates. auto 30 with grows.
Qed.

Lemma grows_validateTemplates : grows (validateTemplates env).
Proof.
  pose proof grows_validatePackageTemplates.
  unfold validateTemplates, validateTemplates_each. auto 30 with grows.
Qed.

Lemma grows_generateReport : grows generateReport.
Proof. unfold generateReport. auto 30 with grows. Qed.

Lemma grows_validate : grows (validate env).
Proof.
  pose proof grows_validateMetaYaml. pose proof grows_validateTemplates.
  pose proof grows_generateReport.
  unfold validate. auto 20 with grows.
Qed.

Lemma returns_validateMetaYaml : returns (validateMetaYaml env).
Proof. unfold validateMetaYaml. auto 20 with returns. Qed.

Lemma returns_validateTemplates : returns (validateTemplates env).
Proof. unfold validateTemplates. auto 20 with returns. Qed.

Lemma returns_generateReport : returns generateReport.
Proof. unfold generateReport. auto 30 with returns. Qed.

Lemma returns_validate : returns (validate env).
Proof.
  pose proof returns_validateMetaYaml. pose proof returns_validateTemplates.
  pose proof returns_generateReport.
  unfold validate. auto 20 with returns.
Qed.

End WholeRun.

(* ================================================================== *)
(** * The report *)
(* ================================================================== *)

Section ReportFacts.
Import JsString.

Lemma printed_nil v : printed v [] = v.
Proof. destruct v. unfold printed. simpl. now rewrite app_nil_r. Qed.

Lemma printed_printed v l1 l2 : printed (printed v l1) l2 = printed v (l1 ++ l2).
Proof. unfold printed. simpl. now rewrite app_assoc. Qed.

Lemma prints_ret {A} (a : A) v : prints (ret a) v a [].
Proof. unfold prints, ret. now rewrite printed_nil. Qed.

Lemma prints_this v : prints this v v [].
Proof. unfold prints, this. now rewrite printed_nil. Qed.

Lemma prints_console_log line v : prints (console_log line) v tt [line].
Proof. reflexivity. Qed.

Lemma prints_bind {A B} (m : M A) (k : A -> M B) v a b l1 l2 :
  prints m v a l1 -> prints (k a) (printed v l1) b l2 ->
  prints (bind m k) v b (l1 ++ l2).
Proof. unfold prints, bind. intros -> ->. now rewrite printed_printed. Qed.

Lemma prints_when (b : bool) m v l :
  prints m v tt l -> prints (when b m) v tt (if b then l else []).
Proof. destruct b; [easy | intros _; apply prints_ret]. Qed.

Lemma prints_if {A} (c : bool) (m1 m2 : M A) v a l1 l2 :
  prints m1 v a l1 -> prints m2 v a l2 ->
  prints (if c then m1 else m2) v a (if c then l1 else l2).
Proof. now destruct c. Qed.

Lemma prints_eq {A} (m : M A) v a l l' : prints m v a l -> l = l' -> prints m v a l'.
Proof. now intros H <-. Qed.

Lemma prints_numbered entries : forall i v,
  prints (forEach_from
            (fun entry i (_ : unit) =>
               console_log ("  " +++ of_nat (i + 1) +++ ". " +++ entry))
            entries i tt) v tt (numbered_from i entries).
Proof.
  induction entries as [| e rest IH]; intros i v; simpl.
  - apply prints_ret.
  - apply (prints_bind _ _ _ tt tt [_]); [apply prints_console_log | apply IH].
Qed.

Ltac prints_step :=
  first [ apply prints_console_log | apply prints_ret | apply prints_this
        | apply prints_numbered | apply prints_when | apply prints_if
        | eapply prints_bind ].

(** [generateReport] prints the report and returns whether there is no
    error; it changes none of the three collections. *)
Lemma generateReport_eq v :
  generateReport v = (Ok (length (errors v) =? 0), printed v (report_lines v)).
Proof.
  change (prints generateReport v (length (errors v) =? 0) (report_lines v)).
  unfold generateReport, report_lines, forEach.
  eapply prints_eq; [repeat prints_step |].
  cbn [app errors warnings info printed].
  reflexivity.
Qed.

Lemma bind_assoc {A B C} (m : M A) (k : A -> M B) (h : B -> M C) v :
  bind (bind m k) h v = bind m (fun a => bind (k a) h) v.
Proof. unfold bind. now destruct (m v) as [[a | e] v']. Qed.

Lemma returns_validation_phase env : returns (validation_phase env).
Proof.
  pose proof (returns_validateMetaYaml env). pose proof (returns_validateTemplates env).
  unfold validation_phase. auto 20 with returns.
Qed.

(** The run is the checks followed by the report on what they found. *)
Lemma validate_eq env v :
  validate env v =
  let found := snd (validation_phase env v) in
  (Ok (length (errors found) =? 0), printed found (report_lines found)).
Proof.
  destruct (returns_validation_phase env v) as [[] Hr].
  cbv zeta. rewrite <- generateReport_eq.
  unfold validate, validation_phase in *. unfold bind in *.
  destruct (console_log _ v) as [[[] | e] v1]; [| discriminate].
  destruct (validateMetaYaml env v1) as [[metaValid | e] v2]; [| discriminate].
  destruct (when metaValid _ v2) as [[[] | e] v3]; [| discriminate].
  reflexivity.
Qed.

End ReportFacts.

(* ================================================================== *)
(** * The console and the collections agree *)
(* ================================================================== *)

Create HintDb preserves.

Section Preservation.
Variable I : state -> Prop.

Lemma preserves_ret {A} (a : A) : preserves I (ret a).
Proof. now intros v. Qed.

Lemma preserves_lift {A} (r : result A) : preserves I (lift r).
Proof. now intros v. Qed.

Lemma preserves_bind {A B} (m : M A) (k : A -> M B) :
  preserves I m -> (forall a, preserves I (k a)) -> preserves I (bind m k).
Proof.
  intros Hm Hk v Hv. specialize (Hm v Hv). unfold bind.
  destruct (m v) as [[a | e] v']; simpl in *; [now apply Hk | exact Hm].
Qed.

Lemma preserves_try_catch {A} (m : M A) handler :
  preserves I m -> (forall e, preserves I (handler e)) ->
  preserves I (try_catch m handler).
Proof.
  intros Hm Hh v Hv. specialize (Hm v Hv). unfold try_catch.
  destruct (m v) as [[a | e] v']; simpl in *; [exact Hm | now apply Hh].
Qed.

Lemma preserves_when b m : preserves I m -> preserves I (when b m).
Proof. destruct b; simpl; [easy | intros _; apply preserves_ret]. Qed.

Lemma preserves_for_of {A} (items : list A) body :
  (forall x, preserves I (body x)) -> preserves I (for_of items body).
Proof.
  intros Hbody. induction items; simpl; [apply preserves_ret |].
  apply preserves_bind; auto.
Qed.

Lemma preserves_forEach_from {A Acc} (body : A -> nat -> Acc -> M Acc) items :
  (forall x i acc, preserves I (body x i acc)) ->
  forall index acc, preserves I (forEach_from body items index acc).
Proof.
  intros Hbody. induction items; intros index acc; simpl; [apply preserves_ret |].
  apply preserves_bind; auto.
Qed.

Lemma preserves_forEach {A Acc} (body : A -> nat -> Acc -> M Acc) items acc :
  (forall x i acc', preserves I (body x i acc')) -> preserves I (forEach body items acc).
Proof. intros H. now apply preserves_forEach_from. Qed.

End Preservation.

#[local] Hint Resolve preserves_ret preserves_lift preserves_bind preserves_try_catch
  preserves_when preserves_for_of preserves_forEach : preserves.
#[local] Hint Extern 3 (preserves _ (if ?b then _ else _)) => destruct b : preserves.
#[local] Hint Extern 3 (preserves _ (match ?x with _ => _ end)) => destruct x : preserves.

Section Transcript.
Import JsString.

Lemma prefix_self p m : String.prefix p (p +++ m) = true.
Proof.
  induction p as [| c p IH]; simpl; [now destruct m |].
  destruct (ascii_dec c c); [exact IH | congruence].
Qed.

Lemma tagged_snoc tag v line errors' warnings' info' reads :
  tagged tag (State errors' warnings' info' (console v ++ [line]) reads) =
  tagged tag v ++ (if startsWith line tag then [line] else []).
Proof. unfold tagged. cbn [console]. now rewrite filter_app. Qed.

Variable env : node_env.

Lemma preserves_log level message : preserves transcript (log env level message).
Proof.
  intros v (He & Hw & Hi). unfold log, transcript.
  destruct (String.eqb level "error");
    [| destruct (String.eqb level "warning");
       [| destruct (String.eqb level "info");
          [| destruct (String.eqb level "success")]]];
    cbn [snd]; rewrite ?tagged_snoc; cbn [errors warnings info];
    rewrite ?map_app; cbn [map];
    try (change (startsWith (colors.red +++ "[ERROR]" +++ colors.reset +++ " " +++ message)
                   error_tag)
           with (String.prefix error_tag (error_tag +++ message)));
    try (change (startsWith (colors.yellow +++ "[WARNING]" +++ colors.reset +++ " " +++ message)
                   warning_tag)
           with (String.prefix warning_tag (warning_tag +++ message)));
    try (change (startsWith (colors.blue +++ "[INFO]" +++ colors.reset +++ " " +++ message)
                   info_tag)
           with (String.prefix info_tag (info_tag +++ message)));
    rewrite ?prefix_self;
    repeat match goal with
           | |- context [startsWith ?line ?tag] =>
               change (startsWith line tag) with false
           end;
    rewrite ?app_nil_r; try (now rewrite He, Hw, Hi); now repeat split.
Qed.

Lemma preserves_console_log line :
  untagged line -> preserves transcript (console_log line).
Proof.
  intros (He & Hw & Hi) v (Hve & Hvw & Hvi). unfold console_log, transcript.
  cbn [snd]. rewrite !tagged_snoc, He, Hw, Hi, !app_nil_r. cbn [errors warnings info].
  now repeat split.
Qed.

#[local] Hint Resolve preserves_log : preserves.

Lemma preserves_and_not_match expr value re :
  preserves transcript (and_not_match expr value re).
Proof. unfold and_not_match. auto with preserves. Qed.

#[local] Hint Resolve preserves_and_not_match : preserves.

Lemma transcript_validatePackageDefinition pkg index :
  preserves transcript (validatePackageDefinition env pkg index).
Proof. unfold validatePackageDefinition. auto 30 with preserves. Qed.

Lemma transcript_validateMetaYaml : preserves transcript (validateMetaYaml env).
Proof.
  pose proof transcript_validatePackageDefinition.
  unfold validateMetaYaml. auto 30 with preserves.
Qed.

Lemma transcript_validateTemplateFile filePath pkg :
  preserves transcript (validateTemplateFile env filePath pkg).
Proof.
  unfold validateTemplateFile, validateGoTemplate, validateReadmeTemplate.
  auto 40 with preserves.
Qed.

Lemma transcript_validateTemplates : preserves transcript (validateTemplates env).
Proof.
  pose proof transcript_validateTemplateFile.
  unfold validateTemplates, validateTemplates_each, validatePackageTemplates.
  auto 40 with preserves.
Qed.

Lemma transcript_validation_phase : preserves transcript (validation_phase env).
Proof.
  pose proof transcript_validateMetaYaml. pose proof transcript_validateTemplates.
  assert (untagged (colors.blue +++ "Starting VPkg package validation..." +++ lf +++
                    colors.reset)) by now repeat split.
  pose proof preserves_console_log.
  unfold validation_phase. auto 20 with preserves.
Qed.

Lemma untagged_numbered entries :
  forall i, Forall untagged (numbered_from i entries).
Proof.
  induction entries as [| entry rest IH]; intros i; simpl; constructor;
    [now repeat split | apply IH].
Qed.

Lemma untagged_report v : Forall untagged (report_lines v).
Proof.
  unfold report_lines. rewrite !Forall_app.
  destruct (0 <? length (warnings v)); destruct (0 <? length (errors v));
    destruct (length (errors v) =? 0);
    repeat split; repeat constructor; apply untagged_numbered.
Qed.

Lemma tagged_printed tag v lines :
  (forall line, untagged line -> startsWith line tag = false) ->
  Forall untagged lines ->
  tagged tag (printed v lines) = tagged tag v.
Proof.
  intros Htag Hlines. unfold tagged, printed. cbn [console]. rewrite filter_app.
  replace (filter _ lines) with (@nil string); [now rewrite app_nil_r |].
  induction Hlines as [| line rest Hline _ IH]; simpl; [reflexivity |].
  now rewrite (Htag _ Hline).
Qed.

(** After a run in a fresh process the lines that [log] wrote at each
    severity are the entries of the list of that severity, in order. *)
Lemma transcript_validate : transcript (snd (validate env new_PackageValidator)).
Proof.
  rewrite validate_eq. cbv zeta. cbn [snd].
  assert (Hfound : transcript (snd (validation_phase env new_PackageValidator)))
    by (apply transcript_validation_phase; now repeat split).
  destruct Hfound as (He & Hw & Hi). unfold transcript.
  rewrite !tagged_printed; try apply untagged_report;
    try (now intros line (? & ? & ?)).
  now repeat split.
Qed.

End Transcript.


(* ================================================================== *)
(** * Properties of the validation run *)
(* ================================================================== *)

(** C4.  The verdict of a validation run is pass exactly when the run has
    accumulated no error: [validate] never throws, it returns
    [errors.length === 0] for the errors it ends with, and two validators
    with the same errors get the same verdict from [generateReport]
    whatever their warnings, info entries and console are. *)
Theorem verdict_iff_no_errors :
  (forall env v,
      exists verdict,
        fst (validate env v) = Ok verdict /\
        (verdict = true <-> length (errors (snd (validate env v))) = 0)) /\
  (forall found warnings1 info1 console1 reads1 warnings2 info2 console2 reads2,
      fst (generateReport (State found warnings1 info1 console1 reads1)) =
      fst (generateReport (State found warnings2 info2 console2 reads2))).
Proof.
  split.
  - intros env v. rewrite validate_eq. cbv zeta. simpl.
    eexists; split; [reflexivity |]. apply Nat.eqb_eq.
  - intros. now rewrite !generateReport_eq.
Qed.

(** C8.  Two runs on the same catalog document and the same file system
    give the same result and leave the same validator and the same
    console text, whatever the wall clock says during each: the verdict,
    the three lists of findings and the report are a function of the
    inputs alone. *)
Theorem validate_deterministic (env1 env2 : node_env) :
  existsSync env1 = existsSync env2 ->
  readFileSync env1 = readFileSync env2 ->
  readdirSync env1 = readdirSync env2 ->
  isDirectory env1 = isDirectory env2 ->
  path_join env1 = path_join env2 ->
  yaml_load env1 = yaml_load env2 ->
  stack_depth env1 = stack_depth env2 ->
  validate env1 new_PackageValidator = validate env2 new_PackageValidator.
Proof.
  destruct env1, env2; simpl; intros; subst; reflexivity.
Qed.

Lemma validate_deterministic_witness :
  validate (Fixture.platform Fixture.secret_disk
              (Ok (Fixture.catalog (Js.VArr [Fixture.secret_package]))) Fixture.ticking)
           new_PackageValidator =
  validate (Fixture.platform Fixture.secret_disk
              (Ok (Fixture.catalog (Js.VArr [Fixture.secret_package]))) (fun _ => 0%Z))
           new_PackageValidator.
Proof.
  apply validate_deterministic; reflexivity.
Defined.

(** C10.  The three collections are append-only: [log] at severity error,
    warning or info appends its message to the list of that severity and
    leaves the two others as they were, [console.log] leaves all three as
    they were, a whole run from any validator only appends to what the
    validator held, and the counts printed in the report are the lengths
    of the three lists at the end of the run.  After a run in a fresh
    process these are the numbers of diagnostics emitted: the console
    lines that [log] wrote under each severity tag are, in order, the
    entries of the list of that severity. *)
Theorem collections_append_only (env : node_env) :
  (forall message v,
      collected (snd (log env "error" message v)) =
        Findings (errors v ++ [message]) (warnings v) (info v) /\
      collected (snd (log env "warning" message v)) =
        Findings (errors v) (warnings v ++ [message]) (info v) /\
      collected (snd (log env "info" message v)) =
        Findings (errors v) (warnings v) (info v ++ [message]) /\
      collected (snd (log env "success" message v)) = collected v) /\
  (forall line v, collected (snd (console_log line v)) = collected v) /\
  (forall v, exists appended,
      let final := snd (validate env v) in
      errors final = errors v ++ f_errors appended /\
      warnings final = warnings v ++ f_warnings appended /\
      info final = info v ++ f_info appended) /\
  (forall v,
      let final := snd (validate env v) in
      In (checks_passed_line (length (info final))) (console final) /\
      In (warnings_line (length (warnings final))) (console final) /\
      In (errors_line (length (errors final))) (console final)) /\
  (let final := snd (validate env new_PackageValidator) in
   tagged error_tag final = map (String.append error_tag) (errors final) /\
   tagged warning_tag final = map (String.append warning_tag) (warnings final) /\
   tagged info_tag final = map (String.append info_tag) (info final) /\
   length (tagged error_tag final) = length (errors final) /\
   length (tagged warning_tag final) = length (warnings final) /\
   length (tagged info_tag final) = length (info final)).
Proof.
  split; [| split; [| split; [| split]]].
  - intros message v. repeat split.
  - reflexivity.
  - intros v. destruct (grows_validate env v) as [appended H].
    exists appended. cbv zeta. unfold collected, merge in H.
    now injection H.
  - intros v. rewrite validate_eq. cbv zeta.
    cbn [snd printed errors warnings info console].
    unfold report_lines.
    repeat split; apply in_or_app; right; apply in_or_app; left; simpl; tauto.
  - destruct (transcript_validate env) as (He & Hw & Hi). cbv zeta.
    rewrite He, Hw, Hi, !length_map. now repeat split.
Qed.

(* ================================================================== *)
(** * Properties of the package checker *)
(* ================================================================== *)

Lemma at_least_grows {A} (m : M A) : grows m -> emits_at_least m nothing.
Proof.
  intros H v. destruct (H v) as [f Hf]. exists f. now rewrite merge_nothing_l.
Qed.

Lemma at_least_bind {A B} (m : M A) (k : A -> M B) a f g :
  emits m (Ok a) f -> emits_at_least (k a) g ->
  emits_at_least (bind m k) (merge f g).
Proof.
  intros Hm Hk v. destruct (Hm v) as [Hr Hc]. unfold bind.
  destruct (m v) as [r v']; simpl in *; subst r.
  destruct (Hk v') as [more Hmore]. exists more.
  now rewrite Hmore, Hc, !merge_assoc.
Qed.

Lemma at_least_bind_lift {A B} (x : A) (k : A -> M B) f :
  emits_at_least (k x) f -> emits_at_least (bind (lift (Ok x)) k) f.
Proof. intros H v. exact (H v). Qed.

Lemma at_least_eq {A} (m : M A) f g : emits_at_least m f -> f = g -> emits_at_least m g.
Proof. now intros H <-. Qed.

Lemma append_cancel (a b c : string) : a +++ b = a +++ c -> b = c.
Proof.
  induction a as [| x a IH]; simpl; [easy |].
  intros H. injection H as H. now apply IH.
Qed.

Section PackageProperties.
Import JsString.

Variable env : node_env.

(** Whatever else a package has, the errors for its missing required
    fields all come first. *)
Lemma missing_fields_reported_first pkg index :
  nullish pkg = false ->
  printable (prop pkg "name") = true ->
  emits_at_least (validatePackageDefinition env pkg index)
    (Findings (missing_field_findings pkg index) [] [package_info pkg index]).
Proof.
  intros Hpkg Hname. unfold validatePackageDefinition. cbv zeta.
  rewrite (get_prop _ _ Hpkg). apply at_least_bind_lift.
  rewrite (shown_or_unnamed _ Hname). apply at_least_bind_lift.
  eapply at_least_eq.
  - eapply at_least_bind; [apply emits_log |].
    eapply at_least_bind; [apply emits_required_loop, Hpkg |].
    apply at_least_grows.
    pose proof grows_and_not_match. auto 30 with grows.
  - unfold missing_field_findings, missing_field_message, package_label, package_info.
    flatten_findings. reflexivity.
Qed.

End PackageProperties.

Section MissingDirectory.
Import JsString.

Variable env : node_env.
Variables (pkg : Js.jsval) (index : nat).

Hypothesis Hpkg : nullish pkg = false.
Hypothesis Hfields :
  forall field, In field requiredPackageFields -> is_missing pkg field = false.
Hypothesis Hdir : existsSync_val env (prop pkg "templates") = false.

Lemma no_field_missing : missing_field_findings pkg index = [].
Proof.
  unfold missing_field_findings, requiredPackageFields. cbn [filter].
  rewrite !Hfields by (unfold requiredPackageFields; simpl; tauto).
  reflexivity.
Qed.

Lemma templates_truthy : Js.truthy (prop pkg "templates") = true.
Proof.
  assert (H : is_missing pkg "templates" = false)
    by (apply Hfields; unfold requiredPackageFields; simpl; tauto).
  unfold is_missing in H. now destruct (Js.truthy _).
Qed.

Lemma directory_reported :
  package_errors env pkg index =
  name_findings pkg index ++ [templates_message pkg index] ++
  tags_findings pkg index ++ dependencies_findings pkg index.
Proof.
  unfold package_errors, templates_findings.
  now rewrite no_field_missing, templates_truthy, Hdir.
Qed.

Lemma directory_reported_once :
  count_occ string_dec
    (name_findings pkg index ++ [templates_message pkg index] ++
     tags_findings pkg index ++ dependencies_findings pkg index)
    (templates_message pkg index) = 1.
Proof.
  assert (Hother : forall tail,
             templates_message pkg index <> package_label index +++ tail ->
             count_occ string_dec [package_label index +++ tail]
                       (templates_message pkg index) = 0).
  { intros tail Hne. apply count_occ_not_In. simpl. intros [H | []]. now apply Hne. }
  rewrite !count_occ_app.
  replace (count_occ string_dec [templates_message pkg index] (templates_message pkg index))
    with 1 by (simpl; now destruct (string_dec _ _)).
  unfold name_findings, tags_findings, dependencies_findings.
  destruct (bad_format _ _);
    destruct (Js.truthy (prop pkg "tags") && _);
    destruct (Js.truthy (prop pkg "dependencies") && _);
    rewrite ?Hother; try reflexivity;
    unfold templates_message; intros H; apply append_cancel in H; discriminate H.
Qed.

Lemma discovery_skipped allValid v :
  validateTemplates_each env pkg index allValid v = (Ok allValid, v).
Proof.
  unfold validateTemplates_each. rewrite (get_prop _ _ Hpkg).
  unfold bind, lift. now rewrite Hdir, andb_false_r.
Qed.

End MissingDirectory.

(** For a package whose directory is on the disk the callback of the
    template phase is a call of [validatePackageTemplates]. *)
Lemma discovery_invoked env pkg index allValid v :
  nullish pkg = false ->
  Js.truthy (prop pkg "templates") = true ->
  existsSync_val env (prop pkg "templates") = true ->
  validateTemplates_each env pkg index allValid v =
  bind (validatePackageTemplates env pkg index)
       (fun isValid => ret (if negb isValid then false else allValid)) v.
Proof.
  intros Hpkg Htruthy Hdir. unfold validateTemplates_each.
  rewrite (get_prop _ _ Hpkg). unfold bind at 1. unfold lift.
  now rewrite Htruthy, Hdir.
Qed.

(** [validatePackageTemplates], when it is called on a package whose name
    can be printed, logs that it was. *)
Lemma discovery_leaves_a_trace env pkg index v :
  nullish pkg = false ->
  printable (prop pkg "name") = true ->
  exists more,
    info (snd (validatePackageTemplates env pkg index v)) =
    info v ++ ("Validating templates for package: " +++ text_of (prop pkg "name")) :: more.
Proof.
  intros Hpkg Hname.
  assert (H : emits_at_least (validatePackageTemplates env pkg index)
                (logged "info" ("Validating templates for package: " +++
                                text_of (prop pkg "name")))).
  { unfold validatePackageTemplates. rewrite !(get_prop _ _ Hpkg).
    apply at_least_bind_lift. rewrite (toString_text _ Hname). apply at_least_bind_lift.
    eapply at_least_eq.
    - eapply at_least_bind; [apply emits_log |].
      apply at_least_grows. pose proof (grows_validateTemplateFile env).
      auto 30 with grows.
    - apply merge_nothing_r. }
  destruct (H v) as [more Hmore]. unfold collected, merge in Hmore. simpl in Hmore.
  injection Hmore as _ _ Hinfo. exists (f_info more). exact Hinfo.
Qed.

(** The template phase over a catalog, as a loop over its packages. *)
Lemma validateTemplates_loop env text doc items v :
  existsSync env "meta.yaml" = true ->
  readFileSync env "meta.yaml" = Ok text ->
  yaml_load env text = Ok doc ->
  prop doc "packages" = Js.VArr items ->
  validateTemplates env v =
  bind (log env "info" "Validating template files...")
       (fun _ =>
          try_catch
            (forEach_from (validateTemplates_each env) items 0 true)
            (fun message =>
               bind (log env "error" ("Failed to validate templates: " +++ message))
                    (fun _ => ret false))) v.
Proof.
  intros Hexists Hread Hload Hpackages.
  assert (Hdoc : nullish doc = false) by (destruct doc; try discriminate; reflexivity).
  unfold validateTemplates. rewrite Hexists, Hread. cbn [negb].
  unfold bind, try_catch, lift.
  destruct (log env "info" "Validating template files..." v) as [[[] | e] v1];
    [| reflexivity].
  now rewrite Hload, (get_prop _ _ Hdoc), Hpackages.
Qed.

(** X25.  On a package entry that is not [null] and whose name can be
    printed, the package checker reports every missing required field:
    one error for each of them, in the order of the list of required
    fields, before any other error of that package, whatever happens
    afterwards.  When the name and the version are both missing, two
    separate errors, each naming its field and the 1-based index of the
    package, are among them: the one for the name first, the one for the
    version after it. *)
Theorem missing_fields_all_reported
  (env : node_env) (pkg : Js.jsval) (index : nat) (v : state) :
  nullish pkg = false ->
  printable (prop pkg "name") = true ->
  let after := validatePackageDefinition env pkg index v in
  (exists rest,
      errors (snd after) =
      errors v ++
      map (fun field => "Package " +++ JsString.of_nat (index + 1) +++
                        ": Missing required field: " +++ field)
          (filter (is_missing pkg) requiredPackageFields) ++
      rest) /\
  (is_missing pkg "name" = true ->
   is_missing pkg "version" = true ->
   exists between rest,
     errors (snd after) =
     errors v ++
     ["Package " +++ JsString.of_nat (index + 1) +++ ": Missing required field: name"] ++
     between ++
     ["Package " +++ JsString.of_nat (index + 1) +++ ": Missing required field: version"] ++
     rest).
Proof.
  intros Hpkg Hprint after.
  destruct (missing_fields_reported_first env pkg index Hpkg Hprint v) as [more Hmore].
  fold after in Hmore.
  assert (Herrors : errors (snd after) =
                    errors v ++ missing_field_findings pkg index ++ f_errors more).
  { unfold collected, merge in Hmore. simpl in Hmore. now injection Hmore. }
  split.
  - exists (f_errors more). exact Herrors.
  - intros Hname Hversion.
    exists (map (missing_field_message index)
                (filter (is_missing pkg) ["title"; "description"; "type"; "templates"])).
    exists (f_errors more).
    rewrite Herrors. unfold missing_field_findings.
    change requiredPackageFields with
      ("name" :: ["title"; "description"; "type"; "templates"] ++ ["version"]).
    cbn [filter]. rewrite Hname, filter_app. cbn [filter]. rewrite Hversion.
    cbn [map]. rewrite map_app. cbn [map app].
    rewrite <- !app_assoc. reflexivity.
Qed.

Lemma missing_fields_all_reported_witness :
  exists between rest,
    errors (snd (validatePackageDefinition Fixture.secret_env Fixture.anonymous_package 2
                   new_PackageValidator)) =
    [] ++ ["Package 3: Missing required field: name"] ++ between ++
    ["Package 3: Missing required field: version"] ++ rest.
Proof.
  destruct (missing_fields_all_reported Fixture.secret_env Fixture.anonymous_package 2
              new_PackageValidator eq_refl eq_refl) as [_ H].
  exact (H eq_refl eq_refl).
Defined.

(** X26.  A package whose required fields are all present, on which the
    package checker does not throw, and whose templates directory is not
    on disk: the package checker returns normally and reports the
    directory in exactly one of the errors it adds; the template phase is
    the loop of [validateTemplates_each] over the packages of the
    catalog, in which the callback does nothing for that package (it
    returns at once with the validator untouched) and, for any package
    whose directory is on disk, is a call of [validatePackageTemplates],
    which logs the package it walks. *)
Theorem missing_directory_one_error_no_discovery
  (env : node_env) (text : string) (doc : Js.jsval)
  (before : list Js.jsval) (pkg : Js.jsval) (after : list Js.jsval) :
  existsSync env "meta.yaml" = true ->
  readFileSync env "meta.yaml" = Ok text ->
  yaml_load env text = Ok doc ->
  prop doc "packages" = Js.VArr (before ++ pkg :: after) ->
  checkable pkg ->
  (forall field, In field requiredPackageFields -> is_missing pkg field = false) ->
  existsSync_val env (prop pkg "templates") = false ->
  let index := length before in
  let message :=
    "Package " +++ JsString.of_nat (index + 1) +++ ": Templates directory not found: " +++
    text_of (prop pkg "templates") in
  let added :=
    name_findings pkg index ++ [message] ++
    tags_findings pkg index ++ dependencies_findings pkg index in
  (forall v,
      fst (validatePackageDefinition env pkg index v) = Ok tt /\
      errors (snd (validatePackageDefinition env pkg index v)) = errors v ++ added) /\
  count_occ string_dec added message = 1 /\
  (forall v,
      validateTemplates env v =
      bind (log env "info" "Validating template files...")
           (fun _ =>
              try_catch
                (bind (forEach_from (validateTemplates_each env) before 0 true)
                      (fun allValid =>
                         forEach_from (validateTemplates_each env) after (S index) allValid))
                (fun reason =>
                   bind (log env "error" ("Failed to validate templates: " +++ reason))
                        (fun _ => ret false))) v) /\
  (forall allValid v,
      validateTemplates_each env pkg index allValid v = (Ok allValid, v)) /\
  (forall sibling position allValid v,
      nullish sibling = false ->
      Js.truthy (prop sibling "templates") = true ->
      existsSync_val env (prop sibling "templates") = true ->
      validateTemplates_each env sibling position allValid v =
      bind (validatePackageTemplates env sibling position)
           (fun isValid => ret (if negb isValid then false else allValid)) v) /\
  (forall sibling position v,
      nullish sibling = false ->
      printable (prop sibling "name") = true ->
      exists more,
        info (snd (validatePackageTemplates env sibling position v)) =
        info v ++ ("Validating templates for package: " +++ text_of (prop sibling "name")) ::
        more).
Proof.
  intros Hexists Hread Hload Hpackages (Hpkg & Hname & Htype & Hversion & Htemplates)
    Hfields Hdir index message added.
  split; [| split; [| split; [| split; [| split]]]].
  - intros v.
    destruct (emits_validatePackageDefinition env pkg index Hpkg Hname Htype Hversion
                Htemplates v) as [Hok Hfound].
    split; [exact Hok |].
    unfold collected, merge in Hfound. simpl in Hfound.
    injection Hfound as Herrors _ _. rewrite Herrors.
    now rewrite (directory_reported env pkg index Hfields Hdir).
  - apply directory_reported_once.
  - intros v.
    rewrite (validateTemplates_loop env text doc _ v Hexists Hread Hload Hpackages).
    assert (Hloop : forall w,
               forEach_from (validateTemplates_each env) (before ++ pkg :: after) 0 true w =
               bind (forEach_from (validateTemplates_each env) before 0 true)
                    (fun acc => forEach_from (validateTemplates_each env) after
                                  (S index) acc) w).
    { intros w. rewrite forEach_from_app. unfold bind.
      destruct (forEach_from _ before 0 true w) as [[acc | e] w']; [| reflexivity].
      cbn [forEach_from]. unfold bind.
      now rewrite (discovery_skipped env pkg (0 + length before) Hpkg Hdir). }
    unfold bind at 1 3. unfold try_catch.
    destruct (log env "info" "Validating template files..." v) as [[[] | e] v1];
      [| reflexivity].
    now rewrite Hloop.
  - intros allValid v. now apply discovery_skipped.
  - intros sibling position allValid v. apply discovery_invoked.
  - intros sibling position v. apply discovery_leaves_a_trace.
Qed.

Lemma missing_directory_one_error_no_discovery_witness :
  errors (snd (validatePackageDefinition Fixture.lost_env Fixture.lost_package 1
                 new_PackageValidator)) =
    ["Package 2: Templates directory not found: nowhere"] /\
  validateTemplates_each Fixture.lost_env Fixture.lost_package 1 true new_PackageValidator =
    (Ok true, new_PackageValidator).
Proof.
  assert (Hfields : forall field, In field requiredPackageFields ->
                                  is_missing Fixture.lost_package field = false).
  { intros field H. simpl in H.
    repeat (destruct H as [<- | H]; [reflexivity |]). destruct H. }
  destruct (missing_directory_one_error_no_discovery Fixture.lost_env
              "packages: ..."
              (Fixture.catalog (Js.VArr [Fixture.secret_package; Fixture.lost_package;
                                         Fixture.secret_package]))
              [Fixture.secret_package] Fixture.lost_package [Fixture.secret_package]
              eq_refl eq_refl eq_refl eq_refl
              (conj eq_refl (conj eq_refl (conj eq_refl (conj eq_refl eq_refl))))
              Hfields eq_refl) as (Hdef & _ & _ & Heach & _).
  split.
  - destruct (Hdef new_PackageValidator) as [_ Herrors]. exact Herrors.
  - apply Heach.
Defined.

(* ================================================================== *)
(** * A catalog whose packages field is not an array *)
(* ================================================================== *)

Section PackagesNotArray.
Import JsString.

Variable env : node_env.
Variables (text : string) (doc : Js.jsval).

Hypothesis Hexists : existsSync env "meta.yaml" = true.
Hypothesis Hread : readFileSync env "meta.yaml" = Ok text.
Hypothesis Hload : yaml_load env text = Ok doc.
Hypothesis Hdoc : nullish doc = false.
Hypothesis Hversion : matchable (prop doc "version") = true.
Hypothesis Harray : Js.isArray (prop doc "packages") = false.

Lemma emits_validateMetaYaml_not_array :
  emits (validateMetaYaml env) (Ok false) (not_array_findings doc).
Proof.
  unfold validateMetaYaml. rewrite Hexists, Hread. cbn [negb].
  eapply emits_eq.
  - eapply emits_bind; [apply emits_log |].
    apply emits_try_ok. apply emits_bind_lift. rewrite Hload. apply emits_bind_lift.
    eapply emits_bind; [apply emits_required_loop, Hdoc |].
    rewrite !(get_prop _ _ Hdoc). apply emits_bind_lift.
    eapply emits_bind; [apply emits_and_not_match, Hversion |].
    eapply emits_bind; [apply emits_bad_format_warning |].
    apply emits_bind_lift.
    instantiate (1 := Findings ["packages field must be an array"] [] []).
    destruct (prop doc "packages"); try discriminate Harray;
      (eapply emits_eq; [repeat emits_step | reflexivity]).
  - unfold not_array_findings, meta_version_findings, missing_meta_message.
    flatten_findings. reflexivity.
Qed.

Lemma emits_validation_phase_not_array :
  emits (validation_phase env) (Ok tt) (not_array_findings doc).
Proof.
  unfold validation_phase.
  eapply emits_eq.
  - eapply emits_bind; [apply emits_console_log |].
    eapply emits_bind; [apply emits_validateMetaYaml_not_array |].
    apply emits_ret.
  - now rewrite merge_nothing_l, merge_nothing_r.
Qed.

Lemma packages_error_iff :
  In "Missing required field in meta.yaml: packages" (f_errors (not_array_findings doc)) <->
  Js.truthy (prop doc "packages") = false.
Proof.
  unfold not_array_findings. cbn [f_errors]. rewrite in_app_iff, in_map_iff. split.
  - intros [(field & Hmsg & Hin) | [H | []]]; [| discriminate H].
    change "Missing required field in meta.yaml: packages"
      with (missing_meta_message "packages") in Hmsg.
    apply append_cancel in Hmsg. subst field.
    apply filter_In in Hin. destruct Hin as [_ Hmissing].
    unfold is_missing in Hmissing. now destruct (Js.truthy _).
  - intros Hfalsy. left. exists "packages". split; [reflexivity |].
    apply filter_In. split; [unfold requiredFields; simpl; tauto |].
    unfold is_missing. now rewrite Hfalsy.
Qed.

End PackagesNotArray.

(** C9, as the code has it.  When the catalog document parses to a value
    other than [null] whose version is absent or a string, and its
    packages field is not an array, the run reports the required fields
    that are missing and then, as its last error, that packages must be
    an array; the missing-field error for packages is among them exactly
    when the field is absent or falsy (a truthy value that is not an
    array gets the must-be-an-array error alone); no package and no
    template is checked, and the verdict is fail. *)
Theorem packages_not_array_stops_the_run (env : node_env) (text : string) (doc : Js.jsval) :
  existsSync env "meta.yaml" = true ->
  readFileSync env "meta.yaml" = Ok text ->
  yaml_load env text = Ok doc ->
  nullish doc = false ->
  matchable (prop doc "version") = true ->
  Js.isArray (prop doc "packages") = false ->
  let final := snd (validate env new_PackageValidator) in
  fst (validate env new_PackageValidator) = Ok false /\
  errors final =
    map (fun field => "Missing required field in meta.yaml: " +++ field)
        (filter (is_missing doc) requiredFields) ++
    ["packages field must be an array"] /\
  (In "Missing required field in meta.yaml: packages" (errors final) <->
   Js.truthy (prop doc "packages") = false) /\
  info final = ["Validating meta.yaml..."].
Proof.
  intros Hexists Hread Hload Hdoc Hversion Harray final.
  destruct (run_emits_lists _ _ _ _
              (emits_validation_phase_not_array env text doc Hexists Hread Hload Hdoc
                 Hversion Harray new_PackageValidator)) as (Herrors & _ & Hinfo).
  unfold final. rewrite validate_eq. cbv zeta.
  cbn [fst snd printed errors info]. rewrite Herrors, Hinfo.
  split; [| split; [| split]].
  - f_equal. apply Nat.eqb_neq. cbn [new_PackageValidator errors app].
    unfold not_array_findings. cbn [f_errors]. rewrite length_app. simpl. lia.
  - reflexivity.
  - now apply packages_error_iff.
  - reflexivity.
Qed.

Lemma packages_not_array_stops_the_run_witness :
  let final := snd (validate Fixture.no_packages_env new_PackageValidator) in
  fst (validate Fixture.no_packages_env new_PackageValidator) = Ok false /\
  errors final = ["Missing required field in meta.yaml: packages";
                  "packages field must be an array"].
Proof.
  destruct (packages_not_array_stops_the_run Fixture.no_packages_env
              "packages: ..." Fixture.no_packages_doc
              eq_refl eq_refl eq_refl eq_refl eq_refl eq_refl) as (Hverdict & Herrors & _).
  split; [exact Hverdict | exact Herrors].
Defined.

(** C9 as stated fails: a catalog whose packages field is a string gets
    the must-be-an-array error and no missing-field error. *)
Lemma packages_scalar_counterexample :
  ~ both_packages_errors Fixture.scalar_packages_env.
Proof.
  intros H.
  destruct (H "packages: ..." (Fixture.catalog (Js.VStr "acme/settings"))
              eq_refl eq_refl eq_refl eq_refl) as [Hmissing _].
  vm_compute in Hmissing.
  repeat (destruct Hmissing as [Hmissing | Hmissing]; [discriminate Hmissing |]).
  exact Hmissing.
Qed.

(* ================================================================== *)
(** * Properties of the per-file checker *)
(* ================================================================== *)

Section IncludesFacts.
Import JsString.

Lemma prefix_append (a b s : string) :
  String.prefix (a +++ b) s = true -> String.prefix a s = true.
Proof.
  revert s. induction a as [| x a IH]; intros s; simpl.
  - now destruct s.
  - destruct s as [| y s]; simpl; [easy |].
    destruct (ascii_dec x y); [apply IH | easy].
Qed.

Lemma includes_append (s a b : string) :
  includes s (a +++ b) = true -> includes s a = true.
Proof.
  induction s as [| c s IH]; cbn [includes]; unfold startsWith; intros H;
    apply orb_true_iff in H; apply orb_true_iff.
  - destruct H as [H | H]; [left; now apply prefix_append in H | easy].
  - destruct H as [H | H]; [left; now apply prefix_append in H | right; auto].
Qed.

(** One [#] is in the content as soon as a heading marker is. *)
Lemma no_heading_marker content :
  includes content "#" = false ->
  existsb (fun heading => includes content heading) ["#"; "##"; "###"] = false.
Proof.
  intros H. simpl. rewrite H. simpl.
  destruct (includes content "##") eqn:H2.
  - apply (includes_append content "#" "#") in H2. congruence.
  - destruct (includes content "###") eqn:H3; [| reflexivity].
    apply (includes_append content "#" "##") in H3. congruence.
Qed.

End IncludesFacts.

(** X27.  For a template that can be read, is not a Go template and
    whose path contains [README] or [readme], the documentation checks
    are applied to its content after the variable-syntax check: no [#] in
    the content gives a warning, no [install] in the lower-cased content
    gives a warning, no code fence gives a warning; no error is added and
    the file counts as valid. *)
Theorem readme_rules_for_two_spellings
  (env : node_env) (filePath : string) (pkg : Js.jsval) (content : string) (v : state) :
  readFileSync env filePath = Ok content ->
  JsString.endsWith filePath ".go.tmpl" = false ->
  JsString.includes filePath "README" || JsString.includes filePath "readme" = true ->
  let after := validateTemplateFile env filePath pkg v in
  fst after = Ok true /\
  errors (snd after) = errors v /\
  warnings (snd after) =
    warnings v ++ variable_syntax_findings filePath content ++
    readme_findings filePath content /\
  (JsString.includes content "#" = false ->
   In (filePath +++ ": No markdown headings found") (warnings (snd after))) /\
  (JsString.includes (JsString.toLowerCase content) "install" = false ->
   In (filePath +++ ": No installation instructions found") (warnings (snd after))) /\
  (JsString.includes content "```" = false ->
   In (filePath +++ ": No code examples found") (warnings (snd after))).
Proof.
  intros Hread Hgo Hreadme after.
  assert (Hrun : run_emits (validateTemplateFile env filePath pkg) v (Ok true)
                   (Findings [] (variable_syntax_findings filePath content ++
                                 readme_findings filePath content)
                             ["Validating template: " +++ filePath])).
  { pose proof (emits_validateTemplateFile env filePath pkg content) as H.
    unfold template_verdict, template_errors, template_warnings, is_go_template,
      is_readme in H.
    rewrite Hgo, Hreadme in H. apply H; [discriminate | exact Hread]. }
  destruct Hrun as [Hok Hfound].
  destruct (run_emits_lists _ _ _ _ (conj Hok Hfound)) as (Herrors & Hwarnings & _).
  fold after in Hok, Herrors, Hwarnings. cbn [f_errors f_warnings] in *.
  rewrite Hwarnings, Herrors, app_nil_r.
  repeat split; try assumption; intros Habsent;
    apply in_or_app; right; apply in_or_app; right; unfold readme_findings.
  - rewrite (no_heading_marker _ Habsent). simpl. tauto.
  - rewrite Habsent. apply in_or_app; right. simpl. tauto.
  - rewrite Habsent. apply in_or_app; right. apply in_or_app; right. simpl. tauto.
Qed.

Lemma readme_rules_for_two_spellings_witness :
  warnings (snd (validateTemplateFile Fixture.readme_env "t/README.md.tmpl"
                   Fixture.secret_package new_PackageValidator)) =
  ["t/README.md.tmpl: No markdown headings found";
   "t/README.md.tmpl: No installation instructions found";
   "t/README.md.tmpl: No code examples found"].
Proof.
  destruct (readme_rules_for_two_spellings Fixture.readme_env "t/README.md.tmpl"
              Fixture.secret_package "{{.Title}}" new_PackageValidator
              eq_refl eq_refl eq_refl) as (_ & _ & Hwarnings & _).
  exact Hwarnings.
Defined.

(** C7, at the failing input.  [t/Readme.md.tmpl] has the word in
    another letter casing: the dispatch tests the path for [README] and
    for [readme] only, so the file, which has no heading, no installation
    instructions and no code example, is accepted without one of the
    three documentation warnings that the same content gets under the
    name [t/README.md.tmpl]. *)
Theorem readme_mixed_case_gets_no_check :
  JsString.includes (JsString.toLowerCase "t/Readme.md.tmpl") "readme" = true /\
  readFileSync Fixture.readme_env "t/Readme.md.tmpl" =
    readFileSync Fixture.readme_env "t/README.md.tmpl" /\
  (let mixed := validateTemplateFile Fixture.readme_env "t/Readme.md.tmpl"
                  Fixture.secret_package new_PackageValidator in
   fst mixed = Ok true /\ warnings (snd mixed) = [] /\ errors (snd mixed) = []) /\
  warnings (snd (validateTemplateFile Fixture.readme_env "t/README.md.tmpl"
                   Fixture.secret_package new_PackageValidator)) =
    ["t/README.md.tmpl: No markdown headings found";
     "t/README.md.tmpl: No installation instructions found";
     "t/README.md.tmpl: No code examples found"].
Proof.
  vm_compute. repeat split.
Qed.

(** C3, as the code has it.  On a template it can read the per-file
    checker evaluates the variable-syntax check and then the rules of the
    file's kind, each against the same content and whatever the others
    found, with one exception: in a Go template the declaration header
    comes first and, when it is missing, the checker reports that error
    and returns without evaluating the fx-module markers and the
    documentation of the exported functions. *)
Theorem rules_evaluated_unless_header_missing
  (env : node_env) (filePath : string) (pkg : Js.jsval) (content : string) (v : state) :
  nullish pkg = false ->
  readFileSync env filePath = Ok content ->
  let after := validateTemplateFile env filePath pkg v in
  fst after = Ok (template_verdict filePath content) /\
  errors (snd after) = errors v ++ template_errors filePath content /\
  warnings (snd after) = warnings v ++ template_warnings filePath content pkg /\
  (is_go_template filePath = false \/ has_package_declaration content = true ->
   template_warnings filePath content pkg =
   spec_independent_warnings filePath content pkg) /\
  (is_go_template filePath = true -> has_package_declaration content = false ->
   template_errors filePath content = [filePath +++ ": Missing package declaration"] /\
   template_warnings filePath content pkg = variable_syntax_findings filePath content).
Proof.
  intros Hpkg Hread after.
  destruct (run_emits_lists _ _ _ _
              (emits_validateTemplateFile env filePath pkg content (fun _ => Hpkg) Hread v))
    as (Herrors & Hwarnings & _).
  destruct (emits_validateTemplateFile env filePath pkg content (fun _ => Hpkg) Hread v)
    as [Hok _].
  fold after in Hok, Herrors, Hwarnings. cbn [f_errors f_warnings] in *.
  split; [exact Hok | split; [exact Herrors | split; [exact Hwarnings | split]]].
  - unfold template_warnings, spec_independent_warnings.
    intros [Hgo | Hdecl]; [now rewrite Hgo | now rewrite Hdecl].
  - intros Hgo Hdecl.
    unfold template_errors, template_warnings, declaration_findings.
    rewrite Hgo, Hdecl. cbn [negb]. now rewrite app_nil_r.
Qed.

Lemma rules_evaluated_unless_header_missing_witness :
  let after := validateTemplateFile Fixture.headless_env "t/cache.go.tmpl"
                 Fixture.fx_package new_PackageValidator in
  fst after = Ok false /\
  errors (snd after) = ["t/cache.go.tmpl: Missing package declaration"] /\
  warnings (snd after) = [].
Proof.
  destruct (rules_evaluated_unless_header_missing Fixture.headless_env "t/cache.go.tmpl"
              Fixture.fx_package Fixture.headless_content new_PackageValidator
              eq_refl eq_refl) as (Hok & Herrors & Hwarnings & _).
  split; [exact Hok | split; [exact Herrors | exact Hwarnings]].
Defined.

(** C3 as stated fails: in an fx-module, a Go template with no package
    declaration and no fx import gets the declaration error only; the
    marker rules and the documentation rule, which would each have a
    finding, are not evaluated. *)
Lemma rules_halt_counterexample :
  ~ every_rule_evaluated Fixture.headless_env "t/cache.go.tmpl" Fixture.fx_package.
Proof.
  intros H.
  specialize (H Fixture.headless_content new_PackageValidator eq_refl).
  vm_compute in H. discriminate H.
Qed.

(** C1, at the failing input.  A template of a utility package whose
    content assigns a literal password passes: the run adds no error and
    the verdict is pass.  The per-file checker has no security scan. *)
Theorem hardcoded_password_passes :
  JsString.includes Fixture.secret_content
    ("password = " +++ JsString.dquote +++ "hunter2" +++ JsString.dquote) = true /\
  fst (validate Fixture.secret_env new_PackageValidator) = Ok true /\
  errors (snd (validate Fixture.secret_env new_PackageValidator)) = [] /\
  In "Validating template: t/config.yaml.tmpl"
     (info (snd (validate Fixture.secret_env new_PackageValidator))).
Proof.
  vm_compute. repeat split. tauto.
Qed.

(** C2, at the failing input.  The first package has a numeric version:
    [pkg.version.match] throws out of [validatePackageDefinition], the
    handler of [validateMetaYaml] reports a parse failure, the second
    package, which lacks its name, is never examined and the template
    phase never starts. *)
Theorem numeric_version_aborts_siblings :
  fst (validatePackageDefinition Fixture.numeric_version_env
         Fixture.numeric_version_package 0 new_PackageValidator) =
    Throw "pkg.version.match is not a function" /\
  let final := snd (validate Fixture.numeric_version_env new_PackageValidator) in
  errors final = ["Failed to parse meta.yaml: pkg.version.match is not a function"] /\
  info final = ["Validating meta.yaml..."; "Validating package 1: acme/first"] /\
  ~ In "Package 2: Missing required field: name" (errors final).
Proof.
  vm_compute. repeat split. intros [H | []]. discriminate H.
Qed.

(** C5, at the failing input.  The first package has all its fields, its
    templates directory is not on disk and its version is [1.0], which
    YAML reads as a number: [pkg.version.match] throws before the check
    of the directory, so the directory gets no error at all, the handler
    of [validateMetaYaml] reports a parse failure, and the template phase
    never starts: the second package, whose directory exists, is neither
    discovered nor checked.  With the version in quotes the same package
    gets its one error and its siblings are checked. *)
Theorem missing_directory_behind_numeric_version :
  existsSync_val Fixture.lost_numeric_env (prop Fixture.lost_numeric_package "templates") =
    false /\
  forallb (fun field => Js.truthy (prop Fixture.lost_numeric_package field))
          requiredPackageFields = true /\
  (let final := snd (validate Fixture.lost_numeric_env new_PackageValidator) in
   errors final = ["Failed to parse meta.yaml: pkg.version.match is not a function"] /\
   info final = ["Validating meta.yaml..."; "Validating package 1: acme/lost"] /\
   ~ In "Package 1: Templates directory not found: nowhere" (errors final) /\
   ~ In "Validating templates for package: acme/settings" (info final)) /\
  (let final := snd (validate Fixture.lost_env new_PackageValidator) in
   errors final = ["Package 2: Templates directory not found: nowhere"] /\
   In "Validating templates for package: acme/settings" (info final)).
Proof.
  vm_compute. repeat split; try tauto.
  - intros [H | []]. discriminate H.
  - intros [H | [H | []]]; discriminate H.
Qed.

(** C6, at the failing input.  The first entry of [packages] was left
    empty, which YAML reads as [null]: it has neither name nor version,
    but the read of [pkg.name] for the first message throws before the
    loop over the required fields, so neither missing field is reported;
    the handler of [validateMetaYaml] reports a parse failure instead. *)
Theorem null_entry_reports_no_missing_field :
  fst (validatePackageDefinition Fixture.empty_entry_env Js.VNull 0 new_PackageValidator) =
    Throw "Cannot read properties of null (reading 'name')" /\
  let final := snd (validate Fixture.empty_entry_env new_PackageValidator) in
  errors final =
    ["Failed to parse meta.yaml: Cannot read properties of null (reading 'name')"] /\
  info final = ["Validating meta.yaml..."] /\
  ~ In "Package 1: Missing required field: name" (errors final) /\
  ~ In "Package 1: Missing required field: version" (errors final).
Proof.
  vm_compute. repeat split; intros [H | []]; discriminate H.
Qed.

(* ================================================================== *)
(** * The methods and what they find *)
(* ================================================================== *)

Lemma emits_result_eq {A} (m : M A) r r' f f' :
  emits m r f -> r = r' -> f = f' -> emits m r' f'.
Proof. now intros H <- <-. Qed.

Section Refinement.
Import JsString.

Variable env : node_env.

Lemma emits_and_not_match_result expr value re :
  emits (and_not_match expr value re) (not_match_result expr value re) nothing.
Proof.
  unfold and_not_match, not_match_result.
  destruct (Js.truthy value); [| apply emits_ret].
  destruct (Js.call_match expr value re) as [matched | e].
  - apply emits_bind_lift, emits_ret.
  - apply emits_bind_lift_throw.
Qed.

Lemma not_match_result_ok expr value re matched :
  not_match_result expr value re = Ok matched ->
  matchable value = true /\ matched = bad_format re value.
Proof.
  unfold not_match_result, matchable, bad_format.
  destruct value as [| | b | z | s | items | fields]; simpl;
    try (intros [= <-]; now split); try discriminate.
  - destruct b; [discriminate | intros [= <-]; now split].
  - destruct (z =? 0)%Z; [intros [= <-]; now split | discriminate].
  - destruct (String.eqb s ""); simpl; intros [= <-]; now split.
Qed.

Lemma not_match_result_throw expr value re e :
  not_match_result expr value re = Throw e -> matchable value = false.
Proof.
  unfold not_match_result, matchable.
  destruct value as [| | b | z | s | items | fields]; simpl; try discriminate;
    try reflexivity.
  - now destruct b.
  - now destruct (z =? 0)%Z.
  - now destruct (String.eqb s "").
Qed.

(** A value that cannot be printed is truthy and is not a string. *)
Lemma toString_throw v e :
  Js.toString v = Throw e -> Js.truthy v = true /\ is_string v = false.
Proof.
  destruct v as [| | [] | z | s | items | fields]; simpl; try discriminate; now split.
Qed.

Lemma toString_ok v shown : Js.toString v = Ok shown -> Js.toString v = Ok (text_of v).
Proof. intros H. unfold text_of. now rewrite H. Qed.

Lemma includes_val_string list v : is_string v = false -> Js.includes_val list v = false.
Proof. now destruct v. Qed.

Lemma existsSync_val_string v : is_string v = false -> existsSync_val env v = false.
Proof. now destruct v. Qed.

(** A template literal whose value cannot be printed. *)
Lemma emits_shown_throw (b : bool) v e (k : string -> M unit) :
  b = true -> Js.toString v = Throw e ->
  emits (when b (bind (lift (Js.toString v)) k)) (Throw e) nothing.
Proof. intros -> ->. apply emits_bind_lift_throw. Qed.

(** The package checker up to the check of the name. *)
Ltac package_head Hpkg Hshown :=
  apply emits_bind_lift; rewrite Hshown; apply emits_bind_lift;
  (eapply emits_bind; [apply emits_log |]);
  (eapply emits_bind; [apply emits_required_loop, Hpkg |]);
  apply emits_bind_lift.

Ltac package_findings :=
  unfold package_errors, package_warnings, package_info, missing_field_findings,
    name_findings, templates_findings, tags_findings, dependencies_findings,
    type_findings, version_findings, missing_field_message, templates_message,
    package_label;
  flatten_findings; reflexivity.

Lemma emits_package_outcome pkg index :
  emits (validatePackageDefinition env pkg index)
        (fst (package_outcome env pkg index)) (snd (package_outcome env pkg index)).
Proof.
  unfold package_outcome.
  destruct (nullish pkg) eqn:Hpkg.
  { destruct pkg; try discriminate Hpkg; simpl;
      unfold validatePackageDefinition; cbv zeta; apply emits_bind_lift_throw. }
  rewrite (get_prop _ _ Hpkg).
  unfold validatePackageDefinition. cbv zeta. rewrite !(get_prop _ _ Hpkg).
  destruct (Js.toString (if Js.truthy (prop pkg "name") then _ else _))
    as [shown | e] eqn:Hshown;
    [apply toString_ok in Hshown
    | cbn [fst snd]; apply emits_bind_lift; rewrite Hshown; apply emits_bind_lift_throw].
  destruct (not_match_result "pkg.name" _ _) as [bad_name | e] eqn:Hname; cbn [fst snd].
  2:{ eapply emits_eq.
      - package_head Hpkg Hshown. apply emits_bind_throw.
        rewrite <- Hname. apply emits_and_not_match_result.
      - package_findings. }
  apply not_match_result_ok in Hname. destruct Hname as [Hname _].
  destruct (Js.toString (prop pkg "type")) as [type | e] eqn:Htype; cbn [fst snd].
  2:{ destruct (toString_throw _ _ Htype) as [Htruthy Hstring].
      eapply emits_eq.
      - package_head Hpkg Hshown.
        eapply emits_bind; [apply emits_and_not_match, Hname |].
        eapply emits_bind; [apply emits_bad_format_error |].
        apply emits_bind_lift. apply emits_bind_throw.
        apply emits_shown_throw; [| exact Htype].
        now rewrite Htruthy, (includes_val_string _ _ Hstring).
      - package_findings. }
  apply toString_ok in Htype.
  destruct (not_match_result "pkg.version" _ _) as [bad_version | e] eqn:Hversion;
    cbn [fst snd].
  2:{ eapply emits_eq.
      - package_head Hpkg Hshown.
        eapply emits_bind; [apply emits_and_not_match, Hname |].
        eapply emits_bind; [apply emits_bad_format_error |].
        apply emits_bind_lift.
        eapply emits_bind; [apply emits_shown_warning, Htype |].
        apply emits_bind_lift. apply emits_bind_throw.
        rewrite <- Hversion. apply emits_and_not_match_result.
      - package_findings. }
  apply not_match_result_ok in Hversion. destruct Hversion as [Hversion _].
  destruct (Js.toString (prop pkg "templates")) as [templates | e] eqn:Htemplates;
    cbn [fst snd].
  2:{ destruct (toString_throw _ _ Htemplates) as [Htruthy Hstring].
      eapply emits_eq.
      - package_head Hpkg Hshown.
        eapply emits_bind; [apply emits_and_not_match, Hname |].
        eapply emits_bind; [apply emits_bad_format_error |].
        apply emits_bind_lift.
        eapply emits_bind; [apply emits_shown_warning, Htype |].
        apply emits_bind_lift.
        eapply emits_bind; [apply emits_and_not_match, Hversion |].
        eapply emits_bind; [apply emits_bad_format_warning |].
        apply emits_bind_lift. apply emits_bind_throw.
        apply emits_shown_throw; [| exact Htemplates].
        now rewrite Htruthy, (existsSync_val_string _ Hstring).
      - package_findings. }
  pose proof (emits_validatePackageDefinition env pkg index Hpkg Hname) as H.
  unfold validatePackageDefinition in H. cbv zeta in H.
  rewrite !(get_prop _ _ Hpkg) in H. apply H.
  - unfold printable. now rewrite Htype.
  - exact Hversion.
  - unfold printable. now rewrite Htemplates.
Qed.

Lemma emits_packages_outcome items :
  forall index,
    emits (forEach_from (fun pkg index (_ : unit) => validatePackageDefinition env pkg index)
                        items index tt)
          (fst (packages_outcome env items index)) (snd (packages_outcome env items index)).
Proof.
  induction items as [| pkg rest IH]; intros index; cbn [forEach_from packages_outcome].
  - apply emits_ret.
  - pose proof (emits_package_outcome pkg index) as Hpkg.
    destruct (package_outcome env pkg index) as [[[] | e] f]; cbn [fst snd] in *.
    + specialize (IH (S index)).
      destruct (packages_outcome env rest (S index)) as [r g]; cbn [fst snd] in *.
      eapply emits_bind; [exact Hpkg | exact IH].
    + now apply emits_bind_throw.
Qed.

Ltac not_an_array :=
  cbn [fst snd]; unfold an_error;
  match goal with Hhead : forall rest : Js.jsval -> M bool, _ |- _ => apply Hhead end;
  (eapply emits_eq; [repeat emits_step | reflexivity]).

(** [validateMetaYaml] returns and logs what [meta_outcome] says. *)
Lemma emits_meta_outcome :
  emits (validateMetaYaml env) (Ok (fst (meta_outcome env))) (snd (meta_outcome env)).
Proof.
  unfold validateMetaYaml, meta_outcome.
  destruct (existsSync env "meta.yaml"); cbn [negb].
  - match goal with
    | |- emits (bind _ (fun _ => try_catch ?body _)) _ _ =>
        assert (Hbody : emits body (fst (meta_body_outcome env))
                              (snd (meta_body_outcome env)))
    end.
    {
      unfold meta_body_outcome.
      destruct (readFileSync env "meta.yaml") as [text | e]; [| apply emits_bind_lift_throw].
      apply emits_bind_lift.
      destruct (yaml_load env text) as [doc | e]; [| apply emits_bind_lift_throw].
      apply emits_bind_lift.
      destruct (nullish doc) eqn:Hdoc.
      { destruct doc; try discriminate Hdoc; cbn [Js.get fst snd];
          apply emits_bind_throw; cbn [for_of requiredFields];
          apply emits_bind_throw, emits_bind_lift_throw. }
      rewrite !(get_prop _ _ Hdoc).
      destruct (not_match_result "meta.version" _ _) as [bad | e] eqn:Hversion.
      - apply not_match_result_ok in Hversion. destruct Hversion as [Hversion _].
        remember (prop doc "packages") as packages eqn:Hpackages.
        assert (Hhead : forall (rest : Js.jsval -> M bool) r f,
                   emits (rest packages) r f ->
                   emits
                     (for_of requiredFields (fun field =>
                        value <- lift (Js.get doc field) ;;
                        when (negb (Js.truthy value))
                          (log env "error" ("Missing required field in meta.yaml: " +++ field))) ;;
                      version <- lift (Ok (prop doc "version")) ;;
                      bad_version <- and_not_match "meta.version" version re_meta_version ;;
                      when bad_version
                        (shown <- lift (Js.toString version) ;;
                         log env "warning"
                           ("Version format should be X.Y (e.g., " +++ dquote +++ "3.0" +++
                            dquote +++ "), found: " +++ shown)) ;;
                      packages' <- lift (Ok packages) ;;
                      rest packages')
                     r
                     (merge (merge (Findings (map missing_meta_message
                                                (filter (is_missing doc) requiredFields)) [] [])
                                   (Findings [] (meta_version_findings doc) [])) f)).
        { intros rest r f Hrest. eapply emits_eq.
          - eapply emits_bind; [apply emits_required_loop, Hdoc |].
            apply emits_bind_lift.
            eapply emits_bind; [apply emits_and_not_match, Hversion |].
            eapply emits_bind; [apply emits_bad_format_warning |].
            apply emits_bind_lift. exact Hrest.
          - unfold meta_version_findings, missing_meta_message, merge. cbn [f_errors f_warnings f_info].
            destruct (bad_format re_meta_version (prop doc "version"));
              cbn [app]; now rewrite ?app_nil_r. }
        clear Hpackages.
        destruct packages as [| | b | z | s | items | fields];
          [ not_an_array | not_an_array | not_an_array | not_an_array | not_an_array
          | | not_an_array ].
        destruct items as [| pkg rest].
        + cbn [fst snd]. apply Hhead. cbn [length Nat.eqb]. unfold an_error.
          eapply emits_eq; [repeat emits_step | reflexivity].
        + pose proof (emits_packages_outcome (pkg :: rest) 0) as Hloop.
          destruct (packages_outcome env (pkg :: rest) 0) as [[[] | e] f]; cbn [fst snd] in *.
          * apply Hhead. cbn [length Nat.eqb]. unfold forEach.
            eapply emits_eq.
            -- eapply emits_bind; [exact Hloop |]. repeat emits_step.
            -- destruct f. flatten_findings. reflexivity.
          * apply Hhead. cbn [length Nat.eqb]. unfold forEach.
            apply emits_bind_throw. exact Hloop.
      - cbn [fst snd].
        eapply emits_eq.
        + eapply emits_bind; [apply emits_required_loop, Hdoc |].
          apply emits_bind_lift. apply emits_bind_throw.
          rewrite <- Hversion. apply emits_and_not_match_result.
        + unfold missing_meta_message. flatten_findings. reflexivity.
    }
    destruct (meta_body_outcome env) as [[valid | e] f]; cbn [fst snd] in *.
    + eapply emits_bind; [apply emits_log |].
      apply emits_try_ok. exact Hbody.
    + eapply emits_bind; [apply emits_log |].
      eapply emits_try_throw; [exact Hbody |].
      eapply emits_eq; [repeat emits_step | unfold an_error; flatten_findings; reflexivity].
  - cbn [fst snd]. unfold an_error.
    eapply emits_eq; [repeat emits_step | flatten_findings; reflexivity].
Qed.

Lemma emits_file_outcome pkg filePath :
  nullish pkg = false ->
  emits (validateTemplateFile env filePath pkg)
        (Ok (fst (file_outcome env pkg filePath))) (snd (file_outcome env pkg filePath)).
Proof.
  intros Hpkg. unfold file_outcome.
  destruct (readFileSync env filePath) as [content | e] eqn:Hread; cbn [fst snd].
  - now apply emits_validateTemplateFile.
  - now apply emits_validateTemplateFile_unreadable.
Qed.

Lemma emits_files_outcome pkg files :
  nullish pkg = false ->
  forall index allValid,
    emits (forEach_from
             (fun filePath (_ : nat) allValid' =>
                isValid <- validateTemplateFile env filePath pkg ;;
                ret (if negb isValid then false else allValid'))
             files index allValid)
          (Ok (fst (files_outcome env pkg files allValid)))
          (snd (files_outcome env pkg files allValid)).
Proof.
  intros Hpkg. induction files as [| filePath rest IH]; intros index allValid;
    cbn [forEach_from files_outcome].
  - apply emits_ret.
  - pose proof (emits_file_outcome pkg filePath Hpkg) as Hfile.
    destruct (file_outcome env pkg filePath) as [isValid f]; cbn [fst snd] in *.
    specialize (IH (S index) (if negb isValid then false else allValid)).
    destruct (files_outcome env pkg rest _) as [result g]; cbn [fst snd] in *.
    eapply emits_bind; [| exact IH].
    eapply emits_eq; [eapply emits_bind; [exact Hfile | apply emits_ret] |].
    apply merge_nothing_r.
Qed.

Lemma emits_package_templates_outcome pkg index :
  nullish pkg = false ->
  emits (validatePackageTemplates env pkg index)
        (fst (package_templates_outcome env pkg index))
        (snd (package_templates_outcome env pkg index)).
Proof.
  intros Hpkg. unfold validatePackageTemplates, package_templates_outcome.
  rewrite !(get_prop _ _ Hpkg). apply emits_bind_lift.
  destruct (Js.toString (prop pkg "name")) as [name | e] eqn:Hname;
    cbn [fst snd]; [| apply emits_bind_lift_throw].
  apply emits_bind_lift.
  eapply emits_bind; [apply emits_log |].
  apply emits_bind_lift. unfold discovered_outcome.
  destruct (findTemplateFiles_val env (prop pkg "templates")) as [files | e];
    cbn [fst snd]; [| apply emits_bind_lift_throw].
  apply emits_bind_lift.
  destruct files as [| filePath rest]; cbn [fst snd length Nat.eqb].
  - destruct (Js.toString (prop pkg "templates")) as [dir | e];
      cbn [fst snd]; [| apply emits_bind_lift_throw].
    unfold an_error. eapply emits_eq; [repeat emits_step | reflexivity].
  - unfold forEach. apply emits_bind_lift. rewrite Hname. apply emits_bind_lift.
    eapply emits_eq;
      [eapply emits_bind;
       [apply emits_log | apply (emits_files_outcome pkg (filePath :: rest) Hpkg 0 true)] |].
    apply merge_nothing_l.
Qed.

Lemma emits_templates_each_outcome pkg index allValid :
  emits (validateTemplates_each env pkg index allValid)
        (fst (templates_each_outcome env pkg index allValid))
        (snd (templates_each_outcome env pkg index allValid)).
Proof.
  unfold validateTemplates_each, templates_each_outcome.
  destruct (nullish pkg) eqn:Hpkg.
  { destruct pkg; try discriminate Hpkg; cbn [Js.get fst snd];
      apply emits_bind_lift_throw. }
  rewrite !(get_prop _ _ Hpkg). apply emits_bind_lift.
  destruct (Js.truthy _ && existsSync_val env _); [| apply emits_ret].
  pose proof (emits_package_templates_outcome pkg index Hpkg) as Htemplates.
  destruct (package_templates_outcome env pkg index) as [[isValid | e] f];
    cbn [fst snd] in *.
  - eapply emits_eq; [eapply emits_bind; [exact Htemplates | apply emits_ret] |].
    apply merge_nothing_r.
  - now apply emits_bind_throw.
Qed.

Lemma emits_templates_loop_outcome items :
  forall index allValid,
    emits (forEach_from (validateTemplates_each env) items index allValid)
          (fst (templates_loop_outcome env items index allValid))
          (snd (templates_loop_outcome env items index allValid)).
Proof.
  induction items as [| pkg rest IH]; intros index allValid;
    cbn [forEach_from templates_loop_outcome].
  - apply emits_ret.
  - pose proof (emits_templates_each_outcome pkg index allValid) as Heach.
    destruct (templates_each_outcome env pkg index allValid) as [[allValid' | e] f];
      cbn [fst snd] in *.
    + specialize (IH (S index) allValid').
      destruct (templates_loop_outcome env rest (S index) allValid') as [r g];
        cbn [fst snd] in *.
      eapply emits_bind; [exact Heach | exact IH].
    + now apply emits_bind_throw.
Qed.

(** [validateTemplates] returns and logs what [templates_outcome] says. *)
Lemma emits_templates_outcome :
  emits (validateTemplates env) (Ok (fst (templates_outcome env)))
        (snd (templates_outcome env)).
Proof.
  unfold validateTemplates, templates_outcome.
  destruct (existsSync env "meta.yaml"); cbn [negb].
  - match goal with
    | |- emits (bind _ (fun _ => try_catch ?body _)) _ _ =>
        assert (Hbody : emits body (fst (templates_body_outcome env))
                              (snd (templates_body_outcome env)))
    end.
    { unfold templates_body_outcome.
      destruct (readFileSync env "meta.yaml") as [text | e]; [| apply emits_bind_lift_throw].
      apply emits_bind_lift.
      destruct (yaml_load env text) as [doc | e]; [| apply emits_bind_lift_throw].
      apply emits_bind_lift.
      destruct (Js.get doc "packages") as [packages | e]; [| apply emits_bind_lift_throw].
      apply emits_bind_lift.
      destruct packages; try apply emits_lift.
      apply emits_templates_loop_outcome. }
    destruct (templates_body_outcome env) as [[valid | e] f]; cbn [fst snd] in *.
    + eapply emits_bind; [apply emits_log |].
      apply emits_try_ok. exact Hbody.
    + eapply emits_bind; [apply emits_log |].
      eapply emits_try_throw; [exact Hbody |].
      eapply emits_eq; [repeat emits_step | unfold an_error; flatten_findings; reflexivity].
  - cbn [fst snd]. unfold an_error.
    eapply emits_eq; [repeat emits_step | flatten_findings; reflexivity].
Qed.

(** The checks of a run find what [run_findings] says. *)
Lemma emits_run_findings : emits (validation_phase env) (Ok tt) (run_findings env).
Proof.
  unfold validation_phase, run_findings.
  pose proof emits_meta_outcome as Hmeta.
  destruct (meta_outcome env) as [[] f]; cbn [fst snd] in *.
  - eapply emits_eq.
    + eapply emits_bind; [apply emits_console_log |].
      eapply emits_bind; [exact Hmeta |]. cbn [when].
      eapply emits_bind; [apply emits_templates_outcome | apply emits_ret].
    + now rewrite merge_nothing_l, merge_nothing_r.
  - eapply emits_eq.
    + eapply emits_bind; [apply emits_console_log |].
      eapply emits_bind; [exact Hmeta | apply emits_ret].
    + now rewrite merge_nothing_l, merge_nothing_r.
Qed.

End Refinement.

(** What a run from a fresh validator ends with. *)
Lemma validate_run_findings env :
  let final := snd (validate env new_PackageValidator) in
  fst (validate env new_PackageValidator) =
    Ok (length (f_errors (run_findings env)) =? 0) /\
  errors final = f_errors (run_findings env) /\
  warnings final = f_warnings (run_findings env) /\
  info final = f_info (run_findings env).
Proof.
  destruct (run_emits_lists _ _ _ _ (emits_run_findings env new_PackageValidator))
    as (Herrors & Hwarnings & Hinfo).
  cbv zeta. rewrite validate_eq. cbv zeta.
  cbn [fst snd printed errors warnings info]. rewrite Herrors, Hwarnings, Hinfo.
  now repeat split.
Qed.

(* ================================================================== *)
(** * What a passing run requires *)
(* ================================================================== *)

Lemma f_errors_merge f g : f_errors (merge f g) = f_errors f ++ f_errors g.
Proof. reflexivity. Qed.

Lemma no_missing_iff (message : string -> string) v fields :
  map message (filter (is_missing v) fields) = [] <->
  forall field, In field fields -> Js.truthy (prop v field) = true.
Proof.
  induction fields as [| field rest IH]; cbn [filter].
  - split; [intros _ ? [] | reflexivity].
  - unfold is_missing at 1. destruct (Js.truthy (prop v field)) eqn:Htruthy; cbn [negb].
    + rewrite IH. split.
      * intros H x [<- | Hx]; auto.
      * intros H x Hx. apply H. now right.
    + split; [discriminate |].
      intros H. specialize (H field (or_introl eq_refl)). congruence.
Qed.

Lemma truthy_matchable_string v :
  Js.truthy v = true -> matchable v = true -> exists s, v = Js.VStr s /\ s <> "".
Proof.
  unfold matchable. intros Htruthy. rewrite Htruthy. cbn [negb orb].
  destruct v; try discriminate. intros _. eexists; split; [reflexivity |].
  intros ->. discriminate Htruthy.
Qed.

Lemma not_match_result_string expr s re :
  s <> "" ->
  not_match_result expr (Js.VStr s) re = Ok (negb (RegExp.test re s)).
Proof.
  intros Hs. unfold not_match_result. cbn [Js.truthy Js.call_match].
  destruct (String.eqb_spec s ""); [contradiction | reflexivity].
Qed.

Section Requirements_facts.

Variable env : node_env.

Lemma package_clean_iff pkg index :
  (fst (package_outcome env pkg index) = Ok tt /\
   f_errors (snd (package_outcome env pkg index)) = []) <->
  package_ok env pkg.
Proof.
  unfold package_outcome, package_ok. split.
  - intros [Hok Hclean].
    destruct (nullish pkg) eqn:Hpkg.
    { destruct pkg; discriminate. }
    rewrite (get_prop _ _ Hpkg) in *.
    destruct (Js.toString (if Js.truthy (prop pkg "name") then _ else _)) as [shown | e];
      [| discriminate Hok].
    destruct (not_match_result "pkg.name" _ _) as [bad_name | e] eqn:Hname;
      [| discriminate Hok].
    destruct (Js.toString (prop pkg "type")) as [type | e] eqn:Htype;
      [| discriminate Hok].
    destruct (not_match_result "pkg.version" _ _) as [bad_version | e] eqn:Hversion;
      [| discriminate Hok].
    destruct (Js.toString (prop pkg "templates")) as [templates | e];
      [| discriminate Hok].
    apply not_match_result_ok in Hname, Hversion.
    destruct Hname as [Hname _]. destruct Hversion as [Hversion _].
    cbn [snd f_errors] in Hclean. unfold package_errors in Hclean.
    apply app_eq_nil in Hclean. destruct Hclean as [Hmissing Hclean].
    apply app_eq_nil in Hclean. destruct Hclean as [Hformat Hclean].
    apply app_eq_nil in Hclean. destruct Hclean as [Hdir Hclean].
    apply app_eq_nil in Hclean. destruct Hclean as [Htags Hdeps].
    unfold missing_field_findings in Hmissing.
    pose proof (proj1 (no_missing_iff _ _ _) Hmissing) as Htruthy.
    split; [reflexivity | split; [exact Htruthy |]].
    destruct (truthy_matchable_string _ (Htruthy "name" ltac:(simpl; tauto)) Hname)
      as (name & Hn & Hne).
    destruct (truthy_matchable_string _ (Htruthy "version" ltac:(simpl; tauto)) Hversion)
      as (version & Hv & _).
    repeat split.
    + exists name. split; [exact Hn |].
      unfold name_findings in Hformat. rewrite Hn in Hformat. cbn [bad_format] in Hformat.
      destruct (String.eqb_spec name ""); [contradiction |].
      destruct (RegExp.test re_package_name name); [reflexivity | discriminate].
    + unfold printable. now rewrite Htype.
    + now rewrite Hv.
    + unfold templates_findings in Hdir.
      rewrite (Htruthy "templates" ltac:(simpl; tauto)) in Hdir.
      now destruct (existsSync_val env (prop pkg "templates")).
    + intros Ht. unfold tags_findings in Htags. rewrite Ht in Htags.
      now destruct (Js.isArray (prop pkg "tags")).
    + intros Ht. unfold dependencies_findings in Hdeps. rewrite Ht in Hdeps.
      now destruct (Js.isArray (prop pkg "dependencies")).
  - intros (Hpkg & Htruthy & (name & Hn & Hformat) & Htype & Hversion & Hdir & Htags &
            Hdeps).
    rewrite (get_prop _ _ Hpkg).
    assert (Hne : name <> "").
    { intros ->. pose proof (Htruthy "name" ltac:(simpl; tauto)) as H.
      rewrite Hn in H. discriminate H. }
    assert (Htemplates : printable (prop pkg "templates") = true).
    { destruct (prop pkg "templates"); try discriminate Hdir. reflexivity. }
    rewrite (toString_text _ Htype), (toString_text _ Htemplates).
    rewrite Hn, (shown_or_unnamed (Js.VStr name) eq_refl),
      (not_match_result_string _ _ _ Hne).
    destruct (prop pkg "version") as [| | | | version | |] eqn:Hv; try discriminate Hversion.
    assert (Hve : version <> "").
    { intros ->. pose proof (Htruthy "version" ltac:(simpl; tauto)) as H.
      rewrite Hv in H. discriminate H. }
    rewrite (not_match_result_string _ _ _ Hve). cbn [fst snd f_errors].
    split; [reflexivity |].
    unfold package_errors, missing_field_findings, name_findings, templates_findings,
      tags_findings, dependencies_findings.
    rewrite (proj2 (no_missing_iff _ _ _) Htruthy), Hn. cbn [bad_format].
    rewrite Hformat, Hdir. cbn [negb]. rewrite !andb_false_r. cbn [app].
    destruct (Js.truthy (prop pkg "tags")) eqn:Ht;
      [rewrite (Htags eq_refl) |];
      (destruct (Js.truthy (prop pkg "dependencies")) eqn:Hd;
       [rewrite (Hdeps eq_refl) |]); reflexivity.
Qed.

Lemma packages_clean_iff items :
  forall index,
    (fst (packages_outcome env items index) = Ok tt /\
     f_errors (snd (packages_outcome env items index)) = []) <->
    Forall (package_ok env) items.
Proof.
  induction items as [| pkg rest IH]; intros index; cbn [packages_outcome].
  - split; [constructor | now split].
  - pose proof (package_clean_iff pkg index) as Hpkg.
    specialize (IH (S index)).
    destruct (package_outcome env pkg index) as [[[] | e] f]; cbn [fst snd] in *.
    + destruct (packages_outcome env rest (S index)) as [r g]; cbn [fst snd] in *.
      rewrite f_errors_merge. split.
      * intros [Hok Hclean]. apply app_eq_nil in Hclean. destruct Hclean as [Hf Hg].
        constructor; [now apply Hpkg | now apply IH].
      * intros H. inversion H as [| ? ? Hhead Htail]; subst.
        apply Hpkg in Hhead. apply IH in Htail.
        destruct Hhead as [_ ->]. destruct Htail as [-> ->]. now split.
    + split; [intros [H _]; discriminate H |].
      intros H. inversion H as [| ? ? Hhead Htail]; subst.
      apply Hpkg in Hhead. destruct Hhead as [Hhead _]. discriminate Hhead.
Qed.

Lemma ends_with_error f message : f_errors (merge f (an_error message)) <> [].
Proof.
  rewrite f_errors_merge. cbn [an_error f_errors]. now destruct (f_errors f).
Qed.

Lemma meta_clean :
  f_errors (snd (meta_outcome env)) = [] ->
  fst (meta_outcome env) = true /\
  existsSync env "meta.yaml" = true /\
  exists text doc items,
    readFileSync env "meta.yaml" = Ok text /\
    yaml_load env text = Ok doc /\
    nullish doc = false /\
    (forall field, In field requiredFields -> Js.truthy (prop doc field) = true) /\
    is_string (prop doc "version") = true /\
    prop doc "packages" = Js.VArr items /\
    items <> [] /\
    Forall (package_ok env) items.
Proof.
  unfold meta_outcome, meta_body_outcome.
  destruct (existsSync env "meta.yaml"); cbn [negb];
    [| intros H; now apply ends_with_error in H].
  destruct (readFileSync env "meta.yaml") as [text | e];
    [| intros H; cbn [snd] in H; rewrite f_errors_merge in H;
       now apply ends_with_error in H].
  destruct (yaml_load env text) as [doc | e] eqn:Hload;
    [| intros H; cbn [snd] in H; rewrite f_errors_merge in H;
       now apply ends_with_error in H].
  destruct (nullish doc) eqn:Hdoc.
  { destruct doc; try discriminate Hdoc; cbn [Js.get snd];
      intros H; rewrite f_errors_merge in H; now apply ends_with_error in H. }
  rewrite (get_prop _ _ Hdoc).
  destruct (not_match_result "meta.version" _ _) as [bad | e] eqn:Hversion;
    [| intros H; cbn [snd] in H; rewrite f_errors_merge in H;
       now apply ends_with_error in H].
  apply not_match_result_ok in Hversion. destruct Hversion as [Hversion _].
  destruct (prop doc "packages") as [| | b | z | s | items | fields] eqn:Hpackages;
    try (intros H; cbn [snd] in H; rewrite f_errors_merge in H;
         now apply ends_with_error in H).
  destruct items as [| pkg rest];
    [intros H; cbn [snd] in H; rewrite f_errors_merge in H;
     now apply ends_with_error in H |].
  pose proof (packages_clean_iff (pkg :: rest) 0) as Hloop.
  destruct (packages_outcome env (pkg :: rest) 0) as [[[] | e] f]; cbn [fst snd] in *;
    [| intros H; rewrite f_errors_merge in H; now apply ends_with_error in H].
  rewrite !f_errors_merge. cbn [f_errors]. rewrite app_nil_r, app_nil_l.
  intros H. apply app_eq_nil in H. destruct H as [Hmissing Hclean].
  pose proof (proj1 (no_missing_iff _ _ _) Hmissing) as Htruthy.
  split; [reflexivity | split; [reflexivity |]].
  exists text, doc, (pkg :: rest). repeat split; try assumption; try discriminate.
  - destruct (truthy_matchable_string _ (Htruthy "version" ltac:(simpl; tauto)) Hversion)
      as (version & -> & _).
    reflexivity.
  - now apply Hloop.
Qed.

Lemma meta_clean_converse text doc items :
  existsSync env "meta.yaml" = true ->
  readFileSync env "meta.yaml" = Ok text ->
  yaml_load env text = Ok doc ->
  nullish doc = false ->
  (forall field, In field requiredFields -> Js.truthy (prop doc field) = true) ->
  is_string (prop doc "version") = true ->
  prop doc "packages" = Js.VArr items ->
  items <> [] ->
  Forall (package_ok env) items ->
  fst (meta_outcome env) = true /\ f_errors (snd (meta_outcome env)) = [].
Proof.
  intros Hexists Hread Hload Hdoc Htruthy Hversion Hpackages Hitems Hok.
  unfold meta_outcome, meta_body_outcome.
  rewrite Hexists, Hread, Hload, (get_prop _ _ Hdoc), Hpackages. cbn [negb].
  destruct (prop doc "version") as [| | | | version | |] eqn:Hv; try discriminate Hversion.
  assert (Hve : version <> "").
  { intros ->. pose proof (Htruthy "version" ltac:(simpl; tauto)) as H.
    rewrite Hv in H. discriminate H. }
  rewrite (not_match_result_string _ _ _ Hve).
  destruct items as [| pkg rest]; [contradiction |].
  apply (packages_clean_iff (pkg :: rest) 0) in Hok.
  destruct (packages_outcome env (pkg :: rest) 0) as [[[] | e] f]; cbn [fst snd] in *;
    [| destruct Hok as [Hok _]; discriminate Hok].
  destruct Hok as [_ Hclean].
  split; [reflexivity |].
  rewrite !f_errors_merge, Hclean. cbn [f_errors].
  now rewrite (proj2 (no_missing_iff _ _ _) Htruthy).
Qed.

Lemma file_clean_iff pkg filePath :
  f_errors (snd (file_outcome env pkg filePath)) = [] <-> file_ok env filePath.
Proof.
  unfold file_outcome, file_ok.
  destruct (readFileSync env filePath) as [content | e]; cbn [snd f_errors].
  - unfold template_errors, declaration_findings. split.
    + intros H. exists content. split; [reflexivity |]. intros Hgo. rewrite Hgo in H.
      now destruct (has_package_declaration content).
    + intros (content' & [= <-] & H).
      destruct (is_go_template filePath); [| reflexivity].
      now rewrite (H eq_refl).
  - split; [discriminate | intros (content & H & _); discriminate H].
Qed.

Lemma files_clean_iff pkg files :
  forall allValid,
    f_errors (snd (files_outcome env pkg files allValid)) = [] <->
    Forall (file_ok env) files.
Proof.
  induction files as [| filePath rest IH]; intros allValid; cbn [files_outcome].
  - split; [constructor | reflexivity].
  - pose proof (file_clean_iff pkg filePath) as Hfile.
    destruct (file_outcome env pkg filePath) as [isValid f]; cbn [snd] in Hfile.
    specialize (IH (if negb isValid then false else allValid)).
    destruct (files_outcome env pkg rest _) as [result g]; cbn [snd] in *.
    rewrite f_errors_merge. split.
    + intros H. apply app_eq_nil in H. destruct H as [Hf Hg].
      constructor; [now apply Hfile | now apply IH].
    + intros H. inversion H as [| ? ? Hhead Htail]; subst.
      apply Hfile in Hhead. apply IH in Htail. now rewrite Hhead, Htail.
Qed.

Lemma package_templates_clean_iff pkg index :
  printable (prop pkg "name") = true ->
  ((exists valid, fst (package_templates_outcome env pkg index) = Ok valid) /\
   f_errors (snd (package_templates_outcome env pkg index)) = []) <->
  templates_ok env pkg.
Proof.
  intros Hname.
  unfold package_templates_outcome, discovered_outcome, templates_ok.
  rewrite (toString_text _ Hname).
  destruct (findTemplateFiles_val env (prop pkg "templates")) as [files | e];
    cbn [fst snd].
  - destruct files as [| filePath rest]; cbn [fst snd].
    + split.
      * intros [[valid Hvalid] H].
        destruct (Js.toString (prop pkg "templates")); [discriminate H | discriminate Hvalid].
      * intros (files & [= <-] & Hne & _). contradiction.
    + rewrite f_errors_merge. cbn [f_errors app].
      rewrite (files_clean_iff pkg (filePath :: rest) true). split.
      * intros [_ H]. exists (filePath :: rest). now repeat split.
      * intros (files & [= <-] & _ & H). split; [eexists; reflexivity | exact H].
  - split.
    + intros [[valid H] _]. discriminate H.
    + intros (files & H & _). discriminate H.
Qed.

Lemma templates_loop_clean_iff items :
  Forall (package_ok env) items ->
  forall index allValid,
    ((exists valid, fst (templates_loop_outcome env items index allValid) = Ok valid) /\
     f_errors (snd (templates_loop_outcome env items index allValid)) = []) <->
    Forall (templates_ok env) items.
Proof.
  induction 1 as [| pkg rest Hpkg Hrest IH]; intros index allValid;
    cbn [templates_loop_outcome].
  - split; [constructor | split; [eexists |]; reflexivity].
  - destruct Hpkg as (Hnull & Htruthy & (name & Hname & _) & _ & _ & Hdir & _).
    unfold templates_each_outcome.
    rewrite (get_prop _ _ Hnull), (Htruthy "templates" ltac:(simpl; tauto)), Hdir.
    cbn [andb].
    assert (Hprint : printable (prop pkg "name") = true) by now rewrite Hname.
    pose proof (package_templates_clean_iff pkg index Hprint) as Hone.
    destruct (package_templates_outcome env pkg index) as [[isValid | e] f];
      cbn [fst snd] in *.
    + specialize (IH (S index) (if negb isValid then false else allValid)).
      destruct (templates_loop_outcome env rest (S index) _) as [r g]; cbn [fst snd] in *.
      rewrite f_errors_merge. split.
      * intros [Hret H]. apply app_eq_nil in H. destruct H as [Hf Hg].
        constructor; [apply Hone; split; [eexists; reflexivity | exact Hf] |].
        apply IH. now split.
      * intros H. inversion H as [| ? ? Hhead Htail]; subst.
        apply Hone in Hhead. apply IH in Htail.
        destruct Hhead as [_ ->]. destruct Htail as [Hret ->]. now split.
    + split.
      * intros [[valid H] _]. discriminate H.
      * intros H. inversion H as [| ? ? Hhead Htail]; subst.
        apply Hone in Hhead. destruct Hhead as [[valid Hhead] _]. discriminate Hhead.
Qed.

Lemma templates_clean_iff text doc items :
  existsSync env "meta.yaml" = true ->
  readFileSync env "meta.yaml" = Ok text ->
  yaml_load env text = Ok doc ->
  nullish doc = false ->
  prop doc "packages" = Js.VArr items ->
  Forall (package_ok env) items ->
  f_errors (snd (templates_outcome env)) = [] <-> Forall (templates_ok env) items.
Proof.
  intros Hexists Hread Hload Hdoc Hpackages Hok.
  unfold templates_outcome, templates_body_outcome.
  rewrite Hexists, Hread, Hload, (get_prop _ _ Hdoc), Hpackages. cbn [negb].
  pose proof (templates_loop_clean_iff items Hok 0 true) as Hloop.
  destruct (templates_loop_outcome env items 0 true) as [[valid | e] f];
    cbn [fst snd] in *.
  - rewrite f_errors_merge. cbn [f_errors app]. rewrite <- Hloop. split.
    + intros H. split; [eexists; reflexivity | exact H].
    + now intros [_ H].
  - split.
    + intros H. rewrite f_errors_merge in H. now apply ends_with_error in H.
    + intros H. apply Hloop in H. destruct H as [[valid H] _]. discriminate H.
Qed.

Lemma run_clean_iff : f_errors (run_findings env) = [] <-> catalog_ok env.
Proof.
  unfold run_findings, catalog_ok. split.
  - intros H.
    destruct (meta_outcome env) as [metaValid f] eqn:Hmeta.
    assert (Hf : f_errors (snd (meta_outcome env)) = []).
    { rewrite Hmeta. cbn [snd]. destruct metaValid; [| exact H].
      rewrite f_errors_merge in H. now apply app_eq_nil in H. }
    destruct (meta_clean Hf) as
      (Hvalid & Hexists & text & doc & items & Hread & Hload & Hdoc & Htruthy &
       Hversion & Hpackages & Hitems & Hok).
    rewrite Hmeta in Hvalid. cbn [fst] in Hvalid. subst metaValid.
    rewrite f_errors_merge in H. apply app_eq_nil in H. destruct H as [_ Htemplates].
    split; [exact Hexists |]. exists text, doc, items.
    repeat split; try assumption.
    now apply (templates_clean_iff text doc items).
  - intros (Hexists & text & doc & items & Hread & Hload & Hdoc & Htruthy & Hversion &
            Hpackages & Hitems & Hok & Htemplates).
    destruct (meta_clean_converse text doc items) as [Hvalid Hclean]; try assumption.
    destruct (meta_outcome env) as [metaValid f]. cbn [fst snd] in *. subst metaValid.
    rewrite f_errors_merge, Hclean. cbn [app].
    now apply (templates_clean_iff text doc items).
Qed.

End Requirements_facts.

(** X1.  The run passes exactly when: [meta.yaml] exists, can be read and
    parses to a value other than [null] whose five required fields are
    all truthy, with a string for version and a non-empty array for
    packages; every package is not [null], has its six required fields
    truthy, a name that is a string of the form org/package, a type that
    can be printed (any value but a mapping with a [toString] key of its
    own, or an array that holds one), a version that is a string, a
    templates directory that exists, and tags and dependencies that are
    arrays when present; and the discovery in every
    package's directory succeeds and finds at least one template, each of
    which can be read and, when it is a Go template, declares its
    package.  Warnings play no part. *)
Theorem pass_iff_catalog_ok (env : node_env) :
  fst (validate env new_PackageValidator) = Ok true <-> catalog_ok env.
Proof.
  destruct (validate_run_findings env) as [-> _].
  rewrite <- run_clean_iff. split.
  - intros [= H]. apply Nat.eqb_eq in H. now apply length_zero_iff_nil.
  - intros ->. reflexivity.
Qed.

(* ================================================================== *)
(** * Runs that stop at the catalog *)
(* ================================================================== *)

(** X2.  When there is no [meta.yaml] the run reports exactly that, once,
    checks nothing else and fails. *)
Theorem missing_catalog_fails (env : node_env) :
  existsSync env "meta.yaml" = false ->
  let final := snd (validate env new_PackageValidator) in
  fst (validate env new_PackageValidator) = Ok false /\
  errors final = ["meta.yaml file not found"] /\
  warnings final = [] /\
  info final = ["Validating meta.yaml..."].
Proof.
  intros Hexists.
  destruct (validate_run_findings env) as (Hverdict & Herrors & Hwarnings & Hinfo).
  cbv zeta. rewrite Hverdict, Herrors, Hwarnings, Hinfo.
  unfold run_findings, meta_outcome. rewrite Hexists. cbn. now repeat split.
Qed.

Lemma missing_catalog_fails_witness :
  errors (snd (validate (Fixture.platform [] (Throw "unused") Fixture.ticking)
                 new_PackageValidator)) =
  ["meta.yaml file not found"].
Proof.
  destruct (missing_catalog_fails (Fixture.platform [] (Throw "unused") Fixture.ticking)
              eq_refl) as (_ & Herrors & _).
  exact Herrors.
Defined.

(** X3.  When [meta.yaml] exists and reading it or parsing it throws, the
    run reports the message of the exception as a parse failure, once,
    checks nothing else and fails. *)
Theorem unparsable_catalog_fails (env : node_env) (message : string) :
  existsSync env "meta.yaml" = true ->
  readFileSync env "meta.yaml" = Throw message \/
  (exists text, readFileSync env "meta.yaml" = Ok text /\
                yaml_load env text = Throw message) ->
  let final := snd (validate env new_PackageValidator) in
  fst (validate env new_PackageValidator) = Ok false /\
  errors final = ["Failed to parse meta.yaml: " +++ message] /\
  warnings final = [] /\
  info final = ["Validating meta.yaml..."].
Proof.
  intros Hexists Hfails.
  destruct (validate_run_findings env) as (Hverdict & Herrors & Hwarnings & Hinfo).
  cbv zeta. rewrite Hverdict, Herrors, Hwarnings, Hinfo.
  unfold run_findings, meta_outcome, meta_body_outcome. rewrite Hexists.
  destruct Hfails as [Hread | (text & Hread & Hload)]; rewrite Hread; [| rewrite Hload];
    cbn [negb fst snd merge an_error nothing f_errors f_warnings f_info app length Nat.eqb];
    now repeat split.
Qed.

Lemma unparsable_catalog_fails_witness :
  errors (snd (validate (Fixture.platform Fixture.secret_disk
                           (Throw "bad indentation of a mapping entry") Fixture.ticking)
                 new_PackageValidator)) =
  ["Failed to parse meta.yaml: bad indentation of a mapping entry"].
Proof.
  destruct (unparsable_catalog_fails
              (Fixture.platform Fixture.secret_disk
                 (Throw "bad indentation of a mapping entry") Fixture.ticking)
              "bad indentation of a mapping entry" eq_refl
              (or_intror (ex_intro _ "packages: ..." (conj eq_refl eq_refl))))
    as (_ & Herrors & _).
  exact Herrors.
Defined.

Section CatalogHead.
Import JsString.

Variable env : node_env.
Variables (text : string) (doc : Js.jsval).

Hypothesis Hexists : existsSync env "meta.yaml" = true.
Hypothesis Hread : readFileSync env "meta.yaml" = Ok text.
Hypothesis Hload : yaml_load env text = Ok doc.

(** What the run finds when the body of [validateMetaYaml] ends with
    [r] having found [f]. *)
Lemma run_findings_of_body r f :
  meta_body_outcome env = (r, f) ->
  (forall valid, r = Ok valid -> valid = false) ->
  run_findings env =
  merge (Findings [] [] ["Validating meta.yaml..."])
        (match r with
         | Ok _ => f
         | Throw e => merge f (an_error ("Failed to parse meta.yaml: " +++ e))
         end).
Proof.
  intros Hbody Hinvalid. unfold run_findings, meta_outcome.
  rewrite Hexists, Hbody. cbn [negb].
  destruct r as [valid | e]; [| reflexivity].
  now rewrite (Hinvalid valid eq_refl).
Qed.

End CatalogHead.

(** X4.  An empty document ([yaml.load] returns [undefined] or [null])
    is reported as one parse failure: the first read of a field throws,
    nothing else is checked and the run fails. *)
Theorem empty_document_fails (env : node_env) (text : string) (doc : Js.jsval) :
  existsSync env "meta.yaml" = true ->
  readFileSync env "meta.yaml" = Ok text ->
  yaml_load env text = Ok doc ->
  nullish doc = true ->
  let final := snd (validate env new_PackageValidator) in
  fst (validate env new_PackageValidator) = Ok false /\
  (exists reason, errors final = ["Failed to parse meta.yaml: " +++ reason]) /\
  warnings final = [] /\
  info final = ["Validating meta.yaml..."].
Proof.
  intros Hexists Hread Hload Hdoc.
  destruct (validate_run_findings env) as (Hverdict & Herrors & Hwarnings & Hinfo).
  cbv zeta. rewrite Hverdict, Herrors, Hwarnings, Hinfo.
  unfold run_findings, meta_outcome, meta_body_outcome.
  rewrite Hexists, Hread, Hload.
  destruct doc; try discriminate Hdoc;
    cbn [Js.get negb fst snd merge an_error nothing f_errors f_warnings f_info app length
         Nat.eqb];
    (split; [reflexivity | split; [eexists; reflexivity | split; reflexivity]]).
Qed.

Lemma empty_document_fails_witness :
  errors (snd (validate (Fixture.platform Fixture.secret_disk (Ok Js.VUndefined)
                           Fixture.ticking)
                 new_PackageValidator)) =
  ["Failed to parse meta.yaml: Cannot read properties of undefined (reading 'version')"].
Proof.
  destruct (empty_document_fails
              (Fixture.platform Fixture.secret_disk (Ok Js.VUndefined) Fixture.ticking)
              "packages: ..." Js.VUndefined eq_refl eq_refl eq_refl eq_refl)
    as (_ & _ & _ & _).
  reflexivity.
Defined.

(** X5.  When the packages field is an empty array (in a document that
    is not [null] and whose version is absent or a string), the run
    reports the missing top-level fields and then, as its last error,
    that the array cannot be empty; no package and no template is
    checked, and the run fails. *)
Theorem empty_packages_fails (env : node_env) (text : string) (doc : Js.jsval) :
  existsSync env "meta.yaml" = true ->
  readFileSync env "meta.yaml" = Ok text ->
  yaml_load env text = Ok doc ->
  nullish doc = false ->
  matchable (prop doc "version") = true ->
  prop doc "packages" = Js.VArr [] ->
  let final := snd (validate env new_PackageValidator) in
  fst (validate env new_PackageValidator) = Ok false /\
  errors final =
    map (fun field => "Missing required field in meta.yaml: " +++ field)
        (filter (is_missing doc) ["version"; "repository"; "author"; "license"]) ++
    ["packages array cannot be empty"] /\
  warnings final = meta_version_findings doc /\
  info final = ["Validating meta.yaml..."].
Proof.
  intros Hexists Hread Hload Hdoc Hversion Hpackages.
  destruct (validate_run_findings env) as (Hverdict & Herrors & Hwarnings & Hinfo).
  cbv zeta. rewrite Hverdict, Herrors, Hwarnings, Hinfo.
  assert (Hbody : meta_body_outcome env =
                  (Ok false,
                   merge (merge (Findings (map missing_meta_message
                                             (filter (is_missing doc) requiredFields)) [] [])
                                (Findings [] (meta_version_findings doc) []))
                         (an_error "packages array cannot be empty"))).
  { unfold meta_body_outcome. rewrite Hread, Hload, (get_prop _ _ Hdoc), Hpackages.
    destruct (not_match_result "meta.version" _ _) as [bad | e] eqn:Hmatch;
      [reflexivity |].
    apply not_match_result_throw in Hmatch. congruence. }
  rewrite (run_findings_of_body env Hexists _ _ Hbody) by (now intros valid [= <-]).
  assert (Hfields : filter (is_missing doc) requiredFields =
                    filter (is_missing doc) ["version"; "repository"; "author"; "license"]).
  { change requiredFields with
      (["version"; "repository"; "author"; "license"] ++ ["packages"]).
    rewrite filter_app.
    assert (Hpresent : is_missing doc "packages" = false)
      by (unfold is_missing; now rewrite Hpackages).
    cbn [filter]. rewrite Hpresent. apply app_nil_r. }
  cbn [merge an_error f_errors f_warnings f_info app]. rewrite Hfields, !app_nil_r.
  repeat split.
  f_equal. apply Nat.eqb_neq. rewrite length_app. simpl. lia.
Qed.

Lemma empty_packages_fails_witness :
  errors (snd (validate (Fixture.platform Fixture.secret_disk
                           (Ok (Fixture.catalog (Js.VArr []))) Fixture.ticking)
                 new_PackageValidator)) =
  ["packages array cannot be empty"].
Proof.
  destruct (empty_packages_fails
              (Fixture.platform Fixture.secret_disk
                 (Ok (Fixture.catalog (Js.VArr []))) Fixture.ticking)
              "packages: ..." (Fixture.catalog (Js.VArr []))
              eq_refl eq_refl eq_refl eq_refl eq_refl eq_refl) as (_ & Herrors & _).
  exact Herrors.
Defined.

(** X6.  A top-level version that is truthy and not a string (such as
    [version: 3.0] without quotes, which YAML reads as a number) makes
    the version check throw: the run reports the required fields that
    are missing and then one parse failure, examines no package even when
    the packages are in order, and fails. *)
Theorem unquoted_version_fails (env : node_env) (text : string) (doc : Js.jsval) :
  existsSync env "meta.yaml" = true ->
  readFileSync env "meta.yaml" = Ok text ->
  yaml_load env text = Ok doc ->
  nullish doc = false ->
  matchable (prop doc "version") = false ->
  let final := snd (validate env new_PackageValidator) in
  fst (validate env new_PackageValidator) = Ok false /\
  (exists reason,
      errors final =
      map (fun field => "Missing required field in meta.yaml: " +++ field)
          (filter (is_missing doc) requiredFields) ++
      ["Failed to parse meta.yaml: " +++ reason]) /\
  warnings final = [] /\
  info final = ["Validating meta.yaml..."].
Proof.
  intros Hexists Hread Hload Hdoc Hversion.
  destruct (validate_run_findings env) as (Hverdict & Herrors & Hwarnings & Hinfo).
  cbv zeta. rewrite Hverdict, Herrors, Hwarnings, Hinfo.
  assert (Hbody : exists reason,
             meta_body_outcome env =
             (Throw reason,
              Findings (map missing_meta_message (filter (is_missing doc) requiredFields))
                       [] [])).
  { unfold meta_body_outcome. rewrite Hread, Hload, (get_prop _ _ Hdoc).
    destruct (not_match_result "meta.version" _ _) as [bad | e] eqn:Hmatch.
    - apply not_match_result_ok in Hmatch. destruct Hmatch as [Hmatch _]. congruence.
    - now exists e. }
  destruct Hbody as [reason Hbody].
  rewrite (run_findings_of_body env Hexists _ _ Hbody) by discriminate.
  cbn [merge an_error f_errors f_warnings f_info app].
  repeat split.
  - f_equal. apply Nat.eqb_neq. rewrite length_app. simpl. lia.
  - now exists reason.
Qed.

Lemma unquoted_version_fails_witness :
  errors (snd (validate
                 (Fixture.platform Fixture.secret_disk
                    (Ok (Js.VObj [("version", Js.VNum 3); ("repository", Js.VStr "r");
                                  ("author", Js.VStr "A"); ("license", Js.VStr "MIT");
                                  ("packages", Js.VArr [Fixture.secret_package])]))
                    Fixture.ticking)
                 new_PackageValidator)) =
  ["Failed to parse meta.yaml: meta.version.match is not a function"].
Proof.
  destruct (unquoted_version_fails
              (Fixture.platform Fixture.secret_disk
                 (Ok (Js.VObj [("version", Js.VNum 3); ("repository", Js.VStr "r");
                               ("author", Js.VStr "A"); ("license", Js.VStr "MIT");
                               ("packages", Js.VArr [Fixture.secret_package])]))
                 Fixture.ticking)
              "packages: ..." _ eq_refl eq_refl eq_refl eq_refl eq_refl) as (_ & _ & _ & _).
  reflexivity.
Defined.

(* ================================================================== *)
(** * The metadata phase, package by package *)
(* ================================================================== *)

Section MetadataPhase.
Import JsString.

Variable env : node_env.

Lemma package_outcome_checkable pkg index :
  checkable pkg ->
  package_outcome env pkg index =
  (Ok tt, Findings (package_errors env pkg index) (package_warnings pkg index)
                   [package_info pkg index]).
Proof.
  intros (Hpkg & Hname & Htype & Hversion & Htemplates). unfold package_outcome.
  rewrite (get_prop _ _ Hpkg), (shown_or_unnamed _ (matchable_printable _ Hname)),
    (toString_text _ Htype), (toString_text _ Htemplates).
  destruct (not_match_result "pkg.name" _ _) eqn:H1;
    [| apply not_match_result_throw in H1; congruence].
  destruct (not_match_result "pkg.version" _ _) eqn:H2;
    [| apply not_match_result_throw in H2; congruence].
  reflexivity.
Qed.

Lemma package_outcome_uncheckable pkg index :
  ~ checkable pkg -> exists e f, package_outcome env pkg index = (Throw e, f).
Proof.
  intros Hbad. unfold package_outcome.
  destruct (nullish pkg) eqn:Hpkg.
  { destruct pkg; try discriminate Hpkg; cbn [Js.get]; eauto. }
  rewrite (get_prop _ _ Hpkg).
  destruct (Js.toString (if Js.truthy (prop pkg "name") then _ else _)); [| eauto].
  destruct (not_match_result "pkg.name" _ _) eqn:H1; [| eauto].
  destruct (Js.toString (prop pkg "type")) eqn:Htype; [| eauto].
  destruct (not_match_result "pkg.version" _ _) eqn:H2; [| eauto].
  destruct (Js.toString (prop pkg "templates")) eqn:Htemplates; [| eauto].
  apply not_match_result_ok in H1, H2. exfalso. apply Hbad. unfold checkable, printable.
  rewrite Htype, Htemplates. tauto.
Qed.

Lemma packages_outcome_checkable items :
  Forall checkable items ->
  forall index,
    fst (packages_outcome env items index) = Ok tt /\
    f_errors (snd (packages_outcome env items index)) =
      flat_map (fun entry => package_errors env (snd entry) (fst entry))
               (indexed items index) /\
    f_warnings (snd (packages_outcome env items index)) =
      flat_map (fun entry => package_warnings (snd entry) (fst entry))
               (indexed items index) /\
    f_info (snd (packages_outcome env items index)) =
      map (fun entry => package_info (snd entry) (fst entry)) (indexed items index).
Proof.
  induction 1 as [| pkg rest Hpkg _ IH]; intros index.
  - now repeat split.
  - cbn [packages_outcome]. rewrite (package_outcome_checkable _ _ Hpkg).
    destruct (IH (S index)) as (Hok & Herrors & Hwarnings & Hinfo).
    destruct (packages_outcome env rest (S index)) as [r f]. cbn [fst snd] in *.
    unfold indexed in *. cbn [length seq combine flat_map map fst snd merge f_errors
                              f_warnings f_info app].
    now rewrite Herrors, Hwarnings, Hinfo.
Qed.

(** A package that throws ends the loop: what comes after it in the
    catalog plays no part. *)
Lemma packages_outcome_stops before bad after :
  Forall checkable before ->
  ~ checkable bad ->
  forall index,
    packages_outcome env (before ++ bad :: after) index =
    packages_outcome env (before ++ [bad]) index /\
    exists e, fst (packages_outcome env (before ++ bad :: after) index) = Throw e.
Proof.
  intros Hbefore Hbad. induction Hbefore as [| pkg rest Hpkg _ IH]; intros index.
  - cbn [app packages_outcome].
    destruct (package_outcome_uncheckable bad index Hbad) as (e & f & ->).
    split; [reflexivity | now exists e].
  - cbn [app packages_outcome]. rewrite (package_outcome_checkable _ _ Hpkg).
    destruct (IH (S index)) as [-> [e He]].
    destruct (packages_outcome env (rest ++ [bad]) (S index)) as [r f].
    split; [reflexivity | now exists e].
Qed.

End MetadataPhase.

(** X7.  In a catalog whose document is in order (not [null], version
    absent or a string, packages a non-empty array) and whose packages
    are all checkable, [validateMetaYaml] returns true and what it finds
    is, after the findings about the top-level fields, what each package
    yields, package after package in the order of the catalog: one info
    entry per package labelled with its 1-based position, its errors
    and its warnings. *)
Theorem metadata_phase_package_by_package
  (env : node_env) (text : string) (doc : Js.jsval) (items : list Js.jsval) (v : state) :
  existsSync env "meta.yaml" = true ->
  readFileSync env "meta.yaml" = Ok text ->
  yaml_load env text = Ok doc ->
  nullish doc = false ->
  matchable (prop doc "version") = true ->
  prop doc "packages" = Js.VArr items ->
  items <> [] ->
  Forall checkable items ->
  let after := validateMetaYaml env v in
  fst after = Ok true /\
  errors (snd after) =
    errors v ++
    map (fun field => "Missing required field in meta.yaml: " +++ field)
        (filter (is_missing doc) requiredFields) ++
    flat_map (fun entry => package_errors env (snd entry) (fst entry)) (indexed items 0) /\
  warnings (snd after) =
    warnings v ++ meta_version_findings doc ++
    flat_map (fun entry => package_warnings (snd entry) (fst entry)) (indexed items 0) /\
  info (snd after) =
    info v ++ "Validating meta.yaml..." ::
    map (fun entry =>
           "Validating package " +++ JsString.of_nat (fst entry + 1) +++ ": " +++
           text_of (if Js.truthy (prop (snd entry) "name")
                    then prop (snd entry) "name" else Js.VStr "unnamed"))
        (indexed items 0).
Proof.
  intros Hexists Hread Hload Hdoc Hversion Hpackages Hitems Hok after.
  destruct (emits_meta_outcome env v) as [Hreturn Hfound].
  destruct (run_emits_lists _ _ _ _ (conj Hreturn Hfound))
    as (Herrors & Hwarnings & Hinfo).
  fold after in Hreturn, Herrors, Hwarnings, Hinfo.
  rewrite Hreturn, Herrors, Hwarnings, Hinfo. clear Hreturn Hfound Herrors Hwarnings Hinfo.
  unfold meta_outcome, meta_body_outcome.
  rewrite Hexists, Hread, Hload, (get_prop _ _ Hdoc), Hpackages. cbn [negb].
  destruct (not_match_result "meta.version" _ _) eqn:Hmatch;
    [| apply not_match_result_throw in Hmatch; congruence].
  destruct items as [| pkg rest]; [contradiction |].
  destruct (packages_outcome_checkable env (pkg :: rest) Hok 0)
    as (Hloop & Herrors & Hwarnings & Hinfo).
  destruct (packages_outcome env (pkg :: rest) 0) as [[[] | e] f]; cbn [fst snd] in *;
    [| discriminate Hloop].
  cbn [merge f_errors f_warnings f_info app]. rewrite Herrors, Hwarnings, Hinfo.
  rewrite !app_nil_r. now repeat split.
Qed.

Lemma metadata_phase_package_by_package_witness :
  info (snd (validateMetaYaml Fixture.lost_env new_PackageValidator)) =
  ["Validating meta.yaml..."; "Validating package 1: acme/settings";
   "Validating package 2: acme/lost"; "Validating package 3: acme/settings"].
Proof.
  assert (Hchecked : Forall checkable
                       [Fixture.secret_package; Fixture.lost_package; Fixture.secret_package])
    by (repeat constructor).
  destruct (metadata_phase_package_by_package Fixture.lost_env "packages: ..."
              (Fixture.catalog (Js.VArr [Fixture.secret_package; Fixture.lost_package;
                                         Fixture.secret_package]))
              _ new_PackageValidator eq_refl eq_refl eq_refl eq_refl eq_refl eq_refl
              ltac:(discriminate) Hchecked) as (_ & _ & _ & Hinfo).
  exact Hinfo.
Defined.

(** X8.  A package on which the checker throws ends the metadata phase:
    when the packages before it are checkable and it is not, the run
    examines no package after it, skips the template phase, adds one
    parse-failure error as its last error and fails; its findings are
    those of the same catalog cut after that package. *)
Theorem uncheckable_package_ends_the_checks
  (env : node_env) (text : string) (doc : Js.jsval)
  (before : list Js.jsval) (bad : Js.jsval) (after : list Js.jsval) :
  existsSync env "meta.yaml" = true ->
  readFileSync env "meta.yaml" = Ok text ->
  yaml_load env text = Ok doc ->
  nullish doc = false ->
  matchable (prop doc "version") = true ->
  prop doc "packages" = Js.VArr (before ++ bad :: after) ->
  Forall checkable before ->
  ~ checkable bad ->
  let final := snd (validate env new_PackageValidator) in
  fst (validate env new_PackageValidator) = Ok false /\
  (exists reason,
      errors final =
      map (fun field => "Missing required field in meta.yaml: " +++ field)
          (filter (is_missing doc) requiredFields) ++
      f_errors (snd (packages_outcome env (before ++ [bad]) 0)) ++
      ["Failed to parse meta.yaml: " +++ reason]) /\
  info final =
    "Validating meta.yaml..." :: f_info (snd (packages_outcome env (before ++ [bad]) 0)) /\
  length (info final) <= 2 + length before.
Proof.
  intros Hexists Hread Hload Hdoc Hversion Hpackages Hbefore Hbad.
  destruct (validate_run_findings env) as (Hverdict & Herrors & Hwarnings & Hinfo).
  cbv zeta. rewrite Hverdict, Herrors, Hinfo.
  destruct (packages_outcome_stops env before bad after Hbefore Hbad 0) as [Hcut [reason Hthrow]].
  assert (Hbody : meta_body_outcome env =
                  (Throw reason,
                   merge (merge (Findings (map missing_meta_message
                                             (filter (is_missing doc) requiredFields)) [] [])
                                (Findings [] (meta_version_findings doc) []))
                         (snd (packages_outcome env (before ++ [bad]) 0)))).
  { unfold meta_body_outcome. rewrite Hread, Hload, (get_prop _ _ Hdoc), Hpackages.
    destruct (not_match_result "meta.version" _ _) eqn:Hmatch;
      [| apply not_match_result_throw in Hmatch; congruence].
    rewrite <- Hcut.
    destruct (before ++ bad :: after) as [| pkg rest] eqn:Hlist;
      [now destruct before |].
    destruct (packages_outcome env (pkg :: rest) 0) as [[[] | e] f]; cbn [fst snd] in *;
      [discriminate Hthrow |].
    now injection Hthrow as ->. }
  rewrite (run_findings_of_body env Hexists _ _ Hbody) by discriminate.
  cbn [merge an_error f_errors f_warnings f_info app]. rewrite !app_nil_r.
  split; [| split; [| split]].
  - f_equal. apply Nat.eqb_neq. rewrite !length_app. simpl. lia.
  - exists reason. now rewrite <- app_assoc.
  - reflexivity.
  - cbn [length].
    assert (Hcount : forall items index,
               length (f_info (snd (packages_outcome env items index))) <= length items).
    { induction items as [| pkg rest IH]; intros index; cbn [packages_outcome];
        [apply Nat.le_refl |].
      unfold package_outcome.
      destruct (Js.get pkg "name"); [| cbn; lia].
      destruct (Js.toString (if Js.truthy _ then _ else _)); [| cbn; lia].
      destruct (not_match_result "pkg.name" _ _); [| cbn; lia].
      destruct (Js.toString (prop pkg "type")); [| cbn; lia].
      destruct (not_match_result "pkg.version" _ _); [| cbn; lia].
      destruct (Js.toString (prop pkg "templates")); [| cbn; lia].
      specialize (IH (S index)).
      destruct (packages_outcome env rest (S index)) as [r g]. cbn in *. lia. }
    specialize (Hcount (before ++ [bad]) 0). rewrite length_app in Hcount. simpl in Hcount.
    lia.
Qed.

Lemma uncheckable_package_ends_the_checks_witness :
  info (snd (validate Fixture.numeric_version_env new_PackageValidator)) =
  ["Validating meta.yaml..."; "Validating package 1: acme/first"].
Proof.
  assert (Hbad : ~ checkable Fixture.numeric_version_package)
    by (intros (_ & _ & _ & H & _); discriminate H).
  destruct (uncheckable_package_ends_the_checks Fixture.numeric_version_env
              "packages: ..."
              (Fixture.catalog (Js.VArr [Fixture.numeric_version_package;
                                         Fixture.nameless_package]))
              [] Fixture.numeric_version_package [Fixture.nameless_package]
              eq_refl eq_refl eq_refl eq_refl eq_refl eq_refl
              (Forall_nil _) Hbad) as (_ & _ & Hinfo & _).
  exact Hinfo.
Defined.

(* ================================================================== *)
(** * The template phase of one package *)
(* ================================================================== *)

Section TemplatePhase.
Import JsString.

Variable env : node_env.

Lemma file_outcome_info pkg filePath :
  f_info (snd (file_outcome env pkg filePath)) = ["Validating template: " +++ filePath].
Proof. unfold file_outcome. now destruct (readFileSync env filePath). Qed.

Lemma files_outcome_eq pkg files :
  forall allValid,
    fst (files_outcome env pkg files allValid) =
      allValid && forallb (fun filePath => fst (file_outcome env pkg filePath)) files /\
    f_errors (snd (files_outcome env pkg files allValid)) =
      flat_map (fun filePath => f_errors (snd (file_outcome env pkg filePath))) files /\
    f_warnings (snd (files_outcome env pkg files allValid)) =
      flat_map (fun filePath => f_warnings (snd (file_outcome env pkg filePath))) files /\
    f_info (snd (files_outcome env pkg files allValid)) =
      map (fun filePath => "Validating template: " +++ filePath) files.
Proof.
  induction files as [| filePath rest IH]; intros allValid;
    cbn [files_outcome forallb flat_map map].
  - cbn. now rewrite andb_true_r.
  - pose proof (file_outcome_info pkg filePath) as Hinfo.
    destruct (file_outcome env pkg filePath) as [isValid f]. cbn [fst snd] in *.
    destruct (IH (if negb isValid then false else allValid)) as (Hv & He & Hw & Hi).
    destruct (files_outcome env pkg rest _) as [result g]. cbn [fst snd] in *.
    cbn [merge f_errors f_warnings f_info].
    rewrite Hv, He, Hw, Hi, Hinfo. repeat split.
    destruct isValid, allValid; reflexivity.
Qed.

End TemplatePhase.

(** X9.  A package whose templates directory is walked without finding a
    single template gets one error saying so, under its 1-based position,
    and counts as invalid; no file is checked.  The name and the
    directory appear in the messages as a template literal prints them;
    for a value that cannot be printed the conversion throws instead,
    before anything is logged when it is the name, after the info entry
    when it is the directory. *)
Theorem no_template_is_an_error
  (env : node_env) (pkg : Js.jsval) (index : nat) (v : state) :
  nullish pkg = false ->
  findTemplateFiles_val env (prop pkg "templates") = Ok [] ->
  let after := validatePackageTemplates env pkg index v in
  match Js.toString (prop pkg "name"), Js.toString (prop pkg "templates") with
  | Ok name, Ok dir =>
      fst after = Ok false /\
      errors (snd after) =
        errors v ++ ["Package " +++ JsString.of_nat (index + 1) +++
                     ": No template files found in " +++ dir] /\
      warnings (snd after) = warnings v /\
      info (snd after) = info v ++ ["Validating templates for package: " +++ name]
  | Ok name, Throw reason =>
      fst after = Throw reason /\
      errors (snd after) = errors v /\
      warnings (snd after) = warnings v /\
      info (snd after) = info v ++ ["Validating templates for package: " +++ name]
  | Throw reason, _ =>
      fst after = Throw reason /\ collected (snd after) = collected v
  end.
Proof.
  intros Hpkg Hfound after.
  destruct (emits_package_templates_outcome env pkg index Hpkg v) as [Hreturn Hfindings].
  destruct (run_emits_lists _ _ _ _ (conj Hreturn Hfindings))
    as (Herrors & Hwarnings & Hinfo).
  fold after in Hreturn, Hfindings, Herrors, Hwarnings, Hinfo.
  rewrite Hreturn, Herrors, Hwarnings, Hinfo, Hfindings.
  unfold package_templates_outcome, discovered_outcome. rewrite Hfound.
  destruct (Js.toString (prop pkg "name")) as [name | reason];
    [destruct (Js.toString (prop pkg "templates")) as [dir | reason] |];
    cbn [fst snd merge an_error nothing f_errors f_warnings f_info app];
    rewrite ?app_nil_r; repeat split.
  apply merge_nothing_r.
Qed.

Lemma no_template_is_an_error_witness :
  errors (snd (validatePackageTemplates
                 (Fixture.platform [("t", Fixture.Dir ["notes.txt"]);
                                    ("t/notes.txt", Fixture.File "")]
                    (Throw "unused") Fixture.ticking)
                 Fixture.secret_package 0 new_PackageValidator)) =
  ["Package 1: No template files found in t"].
Proof.
  exact (proj1 (proj2 (no_template_is_an_error
                         (Fixture.platform [("t", Fixture.Dir ["notes.txt"]);
                                            ("t/notes.txt", Fixture.File "")]
                            (Throw "unused") Fixture.ticking)
                         Fixture.secret_package 0 new_PackageValidator eq_refl eq_refl))).
Defined.

(** X10.  When the discovery finds templates, [validatePackageTemplates]
    checks every one of them in the order of the discovery, an unreadable
    or invalid one not stopping the others: there is one info entry per
    file, the errors and the warnings are those of the files one after
    the other, and the package is valid exactly when every file is.  The
    name of the package appears in the first info entry as a template
    literal prints it; for a name that cannot be printed the conversion
    throws before anything is logged. *)
Theorem templates_checked_file_by_file
  (env : node_env) (pkg : Js.jsval) (index : nat) (files : list string) (v : state) :
  nullish pkg = false ->
  findTemplateFiles_val env (prop pkg "templates") = Ok files ->
  files <> [] ->
  let after := validatePackageTemplates env pkg index v in
  match Js.toString (prop pkg "name") with
  | Ok name =>
      fst after =
        Ok (forallb (fun filePath => fst (file_outcome env pkg filePath)) files) /\
      errors (snd after) =
        errors v ++
        flat_map (fun filePath => f_errors (snd (file_outcome env pkg filePath))) files /\
      warnings (snd after) =
        warnings v ++
        flat_map (fun filePath => f_warnings (snd (file_outcome env pkg filePath))) files /\
      info (snd after) =
        info v ++
        ("Validating templates for package: " +++ name) ::
        map (fun filePath => "Validating template: " +++ filePath) files
  | Throw reason =>
      fst after = Throw reason /\ collected (snd after) = collected v
  end.
Proof.
  intros Hpkg Hfound Hfiles after.
  destruct (emits_package_templates_outcome env pkg index Hpkg v) as [Hreturn Hfindings].
  destruct (run_emits_lists _ _ _ _ (conj Hreturn Hfindings))
    as (Herrors & Hwarnings & Hinfo).
  fold after in Hreturn, Hfindings, Herrors, Hwarnings, Hinfo.
  rewrite Hreturn, Herrors, Hwarnings, Hinfo, Hfindings.
  unfold package_templates_outcome, discovered_outcome. rewrite Hfound.
  destruct files as [| filePath rest]; [contradiction |].
  destruct (files_outcome_eq env pkg (filePath :: rest) true) as (Hv & He & Hw & Hi).
  destruct (Js.toString (prop pkg "name")) as [name | reason];
    cbn [fst snd merge nothing f_errors f_warnings f_info app].
  - now rewrite Hv, He, Hw, Hi.
  - split; [reflexivity |].
    apply merge_nothing_r.
Qed.

Lemma templates_checked_file_by_file_witness :
  info (snd (validatePackageTemplates Fixture.readme_env Fixture.secret_package 0
               new_PackageValidator)) =
  ["Validating templates for package: acme/settings";
   "Validating template: t/README.md.tmpl";
   "Validating template: t/Readme.md.tmpl"].
Proof.
  exact (proj2 (proj2 (proj2 (templates_checked_file_by_file Fixture.readme_env
                                Fixture.secret_package 0
                                ["t/README.md.tmpl"; "t/Readme.md.tmpl"]
                                new_PackageValidator eq_refl eq_refl
                                ltac:(discriminate))))).
Defined.

(** X11.  When the discovery throws in a package's directory (an entry
    that cannot be listed or examined), the exception leaves the loop of
    [validateTemplates] at that package: nothing but the info entry of
    that package has been logged for it, and the packages after it are
    not looked at, whatever they are.  (For a name that cannot be
    printed, the conversion throws before the info entry and before the
    discovery, and leaves the loop in the same way.) *)
Theorem discovery_failure_leaves_the_loop
  (env : node_env) (pkg : Js.jsval) (rest : list Js.jsval)
  (index : nat) (allValid : bool) (message : string) (v : state) :
  nullish pkg = false ->
  Js.truthy (prop pkg "templates") = true ->
  existsSync_val env (prop pkg "templates") = true ->
  findTemplateFiles_val env (prop pkg "templates") = Throw message ->
  let after := forEach_from (validateTemplates_each env) (pkg :: rest) index allValid v in
  match Js.toString (prop pkg "name") with
  | Ok name =>
      fst after = Throw message /\
      errors (snd after) = errors v /\
      warnings (snd after) = warnings v /\
      info (snd after) = info v ++ ["Validating templates for package: " +++ name]
  | Throw reason =>
      fst after = Throw reason /\ collected (snd after) = collected v
  end.
Proof.
  intros Hpkg Htruthy Hdir Hfound after.
  destruct (emits_templates_loop_outcome env (pkg :: rest) index allValid v)
    as [Hreturn Hfindings].
  destruct (run_emits_lists _ _ _ _ (conj Hreturn Hfindings))
    as (Herrors & Hwarnings & Hinfo).
  fold after in Hreturn, Hfindings, Herrors, Hwarnings, Hinfo.
  rewrite Hreturn, Herrors, Hwarnings, Hinfo, Hfindings.
  cbn [templates_loop_outcome]. unfold templates_each_outcome.
  rewrite (get_prop _ _ Hpkg), Htruthy, Hdir. cbn [andb].
  unfold package_templates_outcome, discovered_outcome. rewrite Hfound.
  destruct (Js.toString (prop pkg "name")) as [name | reason];
    cbn [fst snd merge nothing f_errors f_warnings f_info app];
    rewrite ?app_nil_r; repeat split.
  apply merge_nothing_r.
Qed.

Lemma discovery_failure_leaves_the_loop_witness :
  fst (forEach_from
         (validateTemplates_each
            (Fixture.platform [("t", Fixture.File "not a directory")]
               (Throw "unused") Fixture.ticking))
         [Fixture.secret_package; Fixture.secret_package] 0 true new_PackageValidator) =
  Throw "ENOTDIR: not a directory, scandir 't'".
Proof.
  exact (proj1 (discovery_failure_leaves_the_loop
                  (Fixture.platform [("t", Fixture.File "not a directory")]
                     (Throw "unused") Fixture.ticking)
                  Fixture.secret_package [Fixture.secret_package] 0 true
                  "ENOTDIR: not a directory, scandir 't'" new_PackageValidator
                  eq_refl eq_refl eq_refl eq_refl)).
Defined.

(** X12.  A template that cannot be read is reported by one error that
    carries the message of the exception; it gets no warning, no other
    check is made on it, and it counts as invalid without stopping the
    run. *)
Theorem unreadable_template_is_an_error
  (env : node_env) (filePath : string) (pkg : Js.jsval) (message : string) (v : state) :
  readFileSync env filePath = Throw message ->
  let after := validateTemplateFile env filePath pkg v in
  fst after = Ok false /\
  errors (snd after) =
    errors v ++ ["Failed to read template file " +++ filePath +++ ": " +++ message] /\
  warnings (snd after) = warnings v /\
  info (snd after) = info v ++ ["Validating template: " +++ filePath].
Proof.
  intros Hread after.
  destruct (emits_validateTemplateFile_unreadable env filePath pkg message Hread v)
    as [Hreturn Hfindings].
  destruct (run_emits_lists _ _ _ _ (conj Hreturn Hfindings))
    as (Herrors & Hwarnings & Hinfo).
  fold after in Hreturn, Herrors, Hwarnings, Hinfo.
  rewrite Hreturn, Herrors, Hwarnings, Hinfo. cbn [f_errors f_warnings f_info].
  now rewrite app_nil_r.
Qed.

Lemma unreadable_template_is_an_error_witness :
  errors (snd (validateTemplateFile Fixture.secret_env "t/gone.tmpl" Fixture.secret_package
                 new_PackageValidator)) =
  ["Failed to read template file t/gone.tmpl: ENOENT: no such file or directory, open 't/gone.tmpl'"].
Proof.
  destruct (unreadable_template_is_an_error Fixture.secret_env "t/gone.tmpl"
              Fixture.secret_package
              "ENOENT: no such file or directory, open 't/gone.tmpl'"
              new_PackageValidator eq_refl) as (_ & Herrors & _).
  exact Herrors.
Defined.

(* ================================================================== *)
(** * The discovery *)
(* ================================================================== *)

Section Discovery.
Import JsString.

Variable env : node_env.

Lemma findTemplateFiles_step depth dir :
  findTemplateFiles env (S depth) dir =
  if negb (existsSync env dir) then Ok []
  else match readdirSync env dir with
       | Throw e => Throw e
       | Ok items => walk env (findTemplateFiles env depth) dir items []
       end.
Proof. reflexivity. Qed.

Lemma walk_flat find dir items :
  (forall item, In item items -> isDirectory env (path_join env dir item) = Ok false) ->
  forall files,
    walk env find dir items files =
    Ok (files ++ map (path_join env dir) (filter is_template_name items)).
Proof.
  induction items as [| item rest IH]; intros Hflat files; cbn [walk filter map].
  - now rewrite app_nil_r.
  - rewrite (Hflat item (or_introl eq_refl)). unfold is_template_name at 1.
    destruct (endsWith item ".tmpl"); cbn [map].
    + rewrite IH by (intros; apply Hflat; now right). now rewrite <- app_assoc.
    + apply IH. intros; apply Hflat; now right.
Qed.

Lemma walk_templates (find : string -> result (list string)) dir items :
  (forall d item, is_template_name item = true ->
                  is_template_name (path_join env d item) = true) ->
  (forall d found, find d = Ok found -> Forall (fun f => is_template_name f = true) found) ->
  forall files result,
    Forall (fun f => is_template_name f = true) files ->
    walk env find dir items files = Ok result ->
    Forall (fun f => is_template_name f = true) result.
Proof.
  intros Hjoin Hfind.
  induction items as [| item rest IH]; intros files result Hfiles; cbn [walk].
  - now intros [= <-].
  - destruct (isDirectory env (path_join env dir item)) as [[] | e]; [| | discriminate].
    + destruct (find (path_join env dir item)) as [found | e] eqn:Hfound; [| discriminate].
      apply IH. apply Forall_app. split; [exact Hfiles | now apply (Hfind _ _ Hfound)].
    + destruct (endsWith item ".tmpl") eqn:Hname.
      * apply IH. apply Forall_app. split; [exact Hfiles |].
        constructor; [now apply Hjoin | constructor].
      * now apply IH.
Qed.

Lemma walk_monotone (find1 find2 : string -> result (list string)) dir items :
  (forall d found, find1 d = Ok found -> find2 d = Ok found) ->
  forall files result,
    walk env find1 dir items files = Ok result ->
    walk env find2 dir items files = Ok result.
Proof.
  intros Hfind. induction items as [| item rest IH]; intros files result; cbn [walk];
    [easy |].
  destruct (isDirectory env (path_join env dir item)) as [[] | e]; [| | easy].
  - destruct (find1 (path_join env dir item)) as [found | e] eqn:Hfound; [| discriminate].
    rewrite (Hfind _ _ Hfound). apply IH.
  - destruct (endsWith item ".tmpl"); apply IH.
Qed.

End Discovery.

Lemma endsWith_append_l (prefix name suffix : string) :
  JsString.endsWith name suffix = true ->
  JsString.endsWith (prefix +++ name) suffix = true.
Proof.
  intros H. induction prefix as [| c prefix IH]; [exact H |].
  cbn [String.append JsString.endsWith]. rewrite IH. apply orb_true_r.
Qed.

(** X13.  In a directory that exists and holds no subdirectory, the
    discovery returns the entries whose name ends in [.tmpl], joined to
    the directory, in the order in which the directory lists them; the
    other entries are left out. *)
Theorem discovery_in_a_flat_directory
  (env : node_env) (depth : nat) (dir : string) (items : list string) :
  existsSync env dir = true ->
  readdirSync env dir = Ok items ->
  (forall item, In item items -> isDirectory env (path_join env dir item) = Ok false) ->
  findTemplateFiles env (S depth) dir =
  Ok (map (path_join env dir)
          (filter (fun item => JsString.endsWith item ".tmpl") items)).
Proof.
  intros Hexists Hlist Hflat.
  rewrite findTemplateFiles_step, Hexists, Hlist. cbn [negb].
  now rewrite (walk_flat env _ dir items Hflat).
Qed.

Lemma discovery_in_a_flat_directory_witness :
  findTemplateFiles Fixture.readme_env 1 "t" =
  Ok ["t/README.md.tmpl"; "t/Readme.md.tmpl"].
Proof.
  apply (discovery_in_a_flat_directory Fixture.readme_env 0 "t"
           ["README.md.tmpl"; "Readme.md.tmpl"] eq_refl eq_refl).
  intros item [<- | [<- | []]]; reflexivity.
Defined.

(** X14.  Whatever the shape of the tree, every path the discovery
    returns ends in [.tmpl], provided that joining a directory and a name
    keeps the end of the name: directories are walked, never returned,
    and no other file gets through. *)
Theorem discovery_returns_templates_only
  (env : node_env) (depth : nat) (dir : string) (files : list string) :
  (forall d item, JsString.endsWith item ".tmpl" = true ->
                  JsString.endsWith (path_join env d item) ".tmpl" = true) ->
  findTemplateFiles env depth dir = Ok files ->
  Forall (fun filePath => JsString.endsWith filePath ".tmpl" = true) files.
Proof.
  intros Hjoin. revert dir files.
  induction depth as [| depth IH]; intros dir files; [discriminate |].
  rewrite findTemplateFiles_step.
  destruct (existsSync env dir); cbn [negb]; [| intros [= <-]; constructor].
  destruct (readdirSync env dir) as [items | e]; [| discriminate].
  apply (walk_templates env _ dir items Hjoin IH). constructor.
Qed.

Lemma discovery_returns_templates_only_witness :
  Forall (fun filePath => JsString.endsWith filePath ".tmpl" = true)
         ["t/config.yaml.tmpl"].
Proof.
  apply (discovery_returns_templates_only Fixture.secret_env 64 "t").
  - intros d item H. cbn [Fixture.secret_env Fixture.platform path_join].
    apply endsWith_append_l. now apply (endsWith_append_l "/").
  - reflexivity.
Defined.

(** X15.  A result of the discovery does not depend on how much stack
    there was: what it returns with some depth left it returns with any
    greater depth. *)
Theorem discovery_needs_only_enough_stack
  (env : node_env) (depth more : nat) (dir : string) (files : list string) :
  findTemplateFiles env depth dir = Ok files ->
  findTemplateFiles env (depth + more) dir = Ok files.
Proof.
  assert (Hstep : forall depth dir files,
             findTemplateFiles env depth dir = Ok files ->
             findTemplateFiles env (S depth) dir = Ok files).
  { clear. induction depth as [| depth IH]; intros dir files; [discriminate |].
    rewrite (findTemplateFiles_step env (S depth)), (findTemplateFiles_step env depth).
    destruct (existsSync env dir); cbn [negb]; [| easy].
    destruct (readdirSync env dir) as [items | e]; [| easy].
    apply walk_monotone. exact IH. }
  intros H. induction more as [| more IH].
  - now rewrite Nat.add_0_r.
  - rewrite Nat.add_succ_r. now apply Hstep.
Qed.

Lemma discovery_needs_only_enough_stack_witness :
  findTemplateFiles Fixture.secret_env (1 + 63) "t" = Ok ["t/config.yaml.tmpl"].
Proof.
  apply (discovery_needs_only_enough_stack Fixture.secret_env 1 63 "t"). reflexivity.
Defined.

Lemma walk_collects (env : node_env) (find : string -> result (list string)) dir items :
  forall so_far files,
    walk env find dir items so_far = Ok files ->
    incl so_far files /\
    forall item, In item items ->
      match isDirectory env (path_join env dir item) with
      | Ok true => exists found, find (path_join env dir item) = Ok found /\ incl found files
      | Ok false =>
          JsString.endsWith item ".tmpl" = true -> In (path_join env dir item) files
      | Throw _ => False
      end.
Proof.
  induction items as [| first rest IH]; intros so_far files; cbn [walk].
  - intros [= <-]. split; [apply incl_refl | intros item []].
  - destruct (isDirectory env (path_join env dir first)) as [[] | e] eqn:Hdir;
      [| | discriminate].
    + destruct (find (path_join env dir first)) as [found | e] eqn:Hfound;
        [| discriminate].
      intros H. apply IH in H as [Hincl Hrest].
      split; [intros x Hx; apply Hincl, in_or_app; now left |].
      intros item [<- | Hitem]; [| now apply Hrest].
      rewrite Hdir. exists found. split; [exact Hfound |].
      intros x Hx. apply Hincl, in_or_app. now right.
    + destruct (JsString.endsWith first ".tmpl") eqn:Hname; intros H;
        apply IH in H as [Hincl Hrest].
      * split; [intros x Hx; apply Hincl, in_or_app; now left |].
        intros item [<- | Hitem]; [| now apply Hrest].
        rewrite Hdir. intros _. apply Hincl, in_or_app. right. now left.
      * split; [exact Hincl |].
        intros item [<- | Hitem]; [| now apply Hrest].
        rewrite Hdir, Hname. discriminate.
Qed.

(** X16.  A discovery that returns has missed nothing in its directory:
    every entry was examined without an exception, every entry that is a
    file with a name ending in [.tmpl] is in the result, and every entry
    that is a directory was itself walked, all that was found under it
    being in the result. *)
Theorem discovery_misses_nothing
  (env : node_env) (depth : nat) (dir : string) (items files : list string)
  (item : string) :
  existsSync env dir = true ->
  readdirSync env dir = Ok items ->
  findTemplateFiles env (S depth) dir = Ok files ->
  In item items ->
  match isDirectory env (path_join env dir item) with
  | Ok true =>
      exists found,
        findTemplateFiles env depth (path_join env dir item) = Ok found /\
        incl found files
  | Ok false =>
      JsString.endsWith item ".tmpl" = true -> In (path_join env dir item) files
  | Throw _ => False
  end.
Proof.
  intros Hexists Hlist Hfound Hitem.
  rewrite findTemplateFiles_step, Hexists, Hlist in Hfound. cbn [negb] in Hfound.
  now apply (walk_collects env _ dir items [] files Hfound).
Qed.

Lemma discovery_misses_nothing_witness :
  exists found,
    findTemplateFiles nested_env 1 "t/sub" = Ok found /\
    incl found ["t/sub/README.md.tmpl"; "t/main.go.tmpl"].
Proof.
  apply (discovery_misses_nothing nested_env 1 "t" ["notes.txt"; "sub"; "main.go.tmpl"]
           ["t/sub/README.md.tmpl"; "t/main.go.tmpl"] "sub" eq_refl eq_refl eq_refl).
  right. now left.
Defined.

(* ================================================================== *)
(** * The matcher and the languages *)
(* ================================================================== *)

Section Matcher.
Import JsString RegExp.

Lemma append_assoc (a b c : string) : (a +++ b) +++ c = a +++ b +++ c.
Proof. induction a as [| x a IH]; cbn; [reflexivity | now rewrite IH]. Qed.

Lemma append_empty_r (a : string) : a +++ "" = a.
Proof. induction a as [| x a IH]; cbn; [reflexivity | now rewrite IH]. Qed.

Lemma greedy_continues c k s m : k s = Some m -> exists n, greedy c k s = Some n.
Proof.
  intros Hk. destruct s as [| a s']; cbn [greedy]; [eauto |].
  destruct (c a); [| eauto]. destruct (greedy c k s'); eauto.
Qed.

Lemma greedy_complete c k w rest m :
  all_chars c w = true -> k rest = Some m -> exists n, greedy c k (w +++ rest) = Some n.
Proof.
  intros Hw Hk. induction w as [| a w IH]; cbn [String.append].
  - now apply greedy_continues with m.
  - cbn [all_chars] in Hw. apply andb_prop in Hw as [Ha Hw].
    cbn [greedy]. rewrite Ha. destruct (IH Hw) as [n ->]. eauto.
Qed.

Lemma greedy_sound c k s n :
  greedy c k s = Some n ->
  exists w rest m,
    s = w +++ rest /\ all_chars c w = true /\ k rest = Some m /\ n = String.length w + m.
Proof.
  revert n. induction s as [| a s IH]; intros n; cbn [greedy].
  - intros Hk. exists "", "", n. now repeat split.
  - assert (Hstop : k (String a s) = Some n ->
                    exists w rest m,
                      String a s = w +++ rest /\ all_chars c w = true /\
                      k rest = Some m /\ n = String.length w + m).
    { intros Hk. exists "", (String a s), n. now repeat split. }
    destruct (c a) eqn:Ha; [| exact Hstop].
    destruct (greedy c k s) as [n' |] eqn:Hgreedy; [| exact Hstop].
    intros [= <-]. destruct (IH n' eq_refl) as (w & rest & m & -> & Hw & Hk & ->).
    exists (String a w), rest, m. cbn [String.append all_chars String.length].
    rewrite Ha, Hw. now repeat split.
Qed.

Lemma all_chars_one c w :
  all_chars c w = true -> String.length w = 1 -> exists x, w = String x "" /\ c x = true.
Proof.
  destruct w as [| x [| y w]]; cbn; try discriminate.
  rewrite andb_true_r. eauto.
Qed.

Lemma match_here_complete p e w rest :
  in_lang p w -> (e = true -> rest = "") ->
  exists n, match_here p e (w +++ rest) = Some n.
Proof.
  intros Hw He. induction Hw as [| a p w1 w2 [Hall Hquant] Hw2 IH].
  - cbn. destruct e; [rewrite (He eq_refl) |]; eauto.
  - destruct IH as [m IH]. rewrite append_assoc. cbn [match_here].
    destruct (quant a).
    + destruct (all_chars_one _ _ Hall Hquant) as (x & -> & Hx).
      cbn [String.append]. rewrite Hx, IH. cbn. eauto.
    + destruct w1 as [| x [| y w1]]; cbn in Hquant; [| | lia].
      * cbn [String.append]. destruct (w2 +++ rest) as [| x s'] eqn:Hs; [eauto |].
        destruct (accepts a x); [| eauto].
        destruct (match_here p e s'); eauto.
      * cbn in Hall. rewrite andb_true_r in Hall.
        cbn [String.append]. rewrite Hall, IH. eauto.
    + now apply greedy_complete with m.
    + destruct w1 as [| x w1]; cbn in Hquant; [lia |].
      cbn [all_chars] in Hall. apply andb_prop in Hall as [Hx Hall].
      cbn [String.append]. rewrite Hx.
      destruct (greedy_complete (accepts a) (match_here p e) w1 (w2 +++ rest) m Hall IH)
        as [n ->].
      cbn. eauto.
Qed.

Lemma match_here_sound p e s n :
  match_here p e s = Some n ->
  exists w rest, s = w +++ rest /\ in_lang p w /\ (e = true -> rest = "").
Proof.
  revert s n. induction p as [| a p IH]; intros s n; cbn [match_here].
  - intros H. exists "", s. repeat split; [constructor |].
    intros ->. now destruct s.
  - assert (Hskip : forall m, match_here p e s = Some m ->
                      in_atom a "" ->
                      exists w rest, s = w +++ rest /\ in_lang (a :: p) w /\
                                     (e = true -> rest = "")).
    { intros m Hm Hatom. destruct (IH _ _ Hm) as (w & rest & -> & Hw & He).
      exists w, rest. repeat split; [| exact He].
      now apply (in_lang_cons a p "" w). }
    assert (Htake : forall x s' m, s = String x s' -> accepts a x = true ->
                      match_here p e s' = Some m ->
                      in_atom a (String x "") ->
                      exists w rest, s = w +++ rest /\ in_lang (a :: p) w /\
                                     (e = true -> rest = "")).
    { intros x s' m -> Hx Hm Hatom. destruct (IH _ _ Hm) as (w & rest & -> & Hw & He).
      exists (String x w), rest. repeat split; [| exact He].
      now apply (in_lang_cons a p (String x "") w). }
    assert (Hrun : forall w0 s0 m, s = w0 +++ s0 -> all_chars (accepts a) w0 = true ->
                      match_here p e s0 = Some m -> in_atom a w0 ->
                      exists w rest, s = w +++ rest /\ in_lang (a :: p) w /\
                                     (e = true -> rest = "")).
    { intros w0 s0 m -> Hall Hm Hatom. destruct (IH _ _ Hm) as (w & rest & -> & Hw & He).
      exists (w0 +++ w), rest. rewrite append_assoc. repeat split; [| exact He].
      now constructor. }
    destruct (quant a) eqn:Hquant.
    + destruct s as [| x s']; [discriminate |].
      destruct (accepts a x) eqn:Hx; [| discriminate].
      destruct (match_here p e s') as [m |] eqn:Hm; [| discriminate]. intros _.
      apply (Htake x s' m eq_refl Hx Hm). split; [cbn; now rewrite Hx | now rewrite Hquant].
    + assert (Hnone : in_atom a "") by (split; [reflexivity | rewrite Hquant; cbn; lia]).
      destruct s as [| x s']; [intros H; now apply (Hskip n) |].
      destruct (accepts a x) eqn:Hx; [| intros H; now apply (Hskip n)].
      destruct (match_here p e s') as [m |] eqn:Hm; [| intros H; now apply (Hskip n)].
      intros _. apply (Htake x s' m eq_refl Hx Hm).
      split; [cbn; now rewrite Hx | rewrite Hquant; cbn; lia].
    + intros Hgreedy. apply greedy_sound in Hgreedy as (w0 & s0 & m & -> & Hall & Hm & _).
      apply (Hrun w0 s0 m eq_refl Hall Hm). split; [exact Hall | now rewrite Hquant].
    + destruct s as [| x s']; [discriminate |].
      destruct (accepts a x) eqn:Hx; [| discriminate].
      destruct (greedy (accepts a) (match_here p e) s') as [g |] eqn:Hgreedy;
        [| discriminate]. intros _.
      apply greedy_sound in Hgreedy as (w0 & s0 & m & -> & Hall & Hm & _).
      apply (Hrun (String x w0) s0 m eq_refl); [cbn; now rewrite Hx, Hall | exact Hm |].
      split; [cbn; now rewrite Hx, Hall | rewrite Hquant; cbn; lia].
Qed.

(** A pattern matches at the start of a string exactly when the string
    starts with a word of its language (and is such a word, under [$]). *)
Lemma match_here_iff p e s :
  (exists n, match_here p e s = Some n) <->
  exists w rest, s = w +++ rest /\ in_lang p w /\ (e = true -> rest = "").
Proof.
  split.
  - intros [n H]. now apply match_here_sound with n.
  - intros (w & rest & -> & Hw & He). now apply match_here_complete.
Qed.

Lemma search_input_start re line_start s :
  anchor re = InputStart -> search re false line_start s = None.
Proof.
  intros Hanchor. revert line_start.
  induction s as [| c s IH]; intros line_start; cbn [search]; rewrite Hanchor;
    [reflexivity |].
  now rewrite IH.
Qed.

Lemma test_input_start re s :
  anchor re = InputStart ->
  test re s = true <-> exists n, match_here (body re) (to_end re) s = Some n.
Proof.
  intros Hanchor. unfold test, exec.
  destruct s as [| c s]; cbn [search]; rewrite Hanchor.
  - destruct (match_here (body re) (to_end re) ""); split; eauto; try easy.
    now intros [n [=]].
  - destruct (match_here (body re) (to_end re) (String c s)); [split; eauto |].
    rewrite search_input_start by exact Hanchor. split; [easy | now intros [n [=]]].
Qed.

Lemma search_line_start re :
  anchor re = LineStart ->
  forall s input_start line_start,
    (exists found, search re input_start line_start s = Some found) <->
    exists before after n,
      s = before +++ after /\
      line_start_after line_start before = true /\
      match_here (body re) (to_end re) after = Some n.
Proof.
  intros Hanchor. induction s as [| c s IH]; intros input_start line_start.
  - cbn [search]. rewrite Hanchor. split.
    + intros [found H]. destruct line_start; [| discriminate].
      destruct (match_here (body re) (to_end re) "") as [n |] eqn:Hm; [| discriminate].
      now exists "", "", n.
    + intros (before & after & n & Hs & Hline & Hm).
      destruct before; [| discriminate]. cbn in Hs, Hline. subst after line_start.
      rewrite Hm. eauto.
  - cbn [search]. rewrite Hanchor. split.
    + intros [found H].
      destruct (if line_start then match_here (body re) (to_end re) (String c s) else None)
        as [n |] eqn:Hm.
      * destruct line_start; [| discriminate]. now exists "", (String c s), n.
      * destruct (search re false (is_line_terminator c) s) as [[i n] |] eqn:Hsearch;
          [| discriminate].
        destruct (proj1 (IH false (is_line_terminator c)) (ex_intro _ _ Hsearch))
          as (before & after & m & -> & Hline & Hafter).
        now exists (String c before), after, m.
    + intros (before & after & n & Hs & Hline & Hm).
      destruct before as [| c' before].
      * cbn in Hs, Hline. subst after line_start. rewrite Hm. eauto.
      * cbn in Hs, Hline. injection Hs as <- ->.
        destruct (if line_start
                  then match_here (body re) (to_end re) (String c (before +++ after))
                  else None); [eauto |].
        destruct (proj2 (IH false (is_line_terminator c)))
          as [[i m] ->]; [| eauto].
        now exists before, after, n.
Qed.

Lemma test_line_start re s :
  anchor re = LineStart -> to_end re = false ->
  test re s = true <->
  exists before w rest,
    s = before +++ w +++ rest /\ line_start_after true before = true /\
    in_lang (body re) w.
Proof.
  intros Hanchor Hend. unfold test, exec.
  pose proof (search_line_start re Hanchor s true true) as Hsearch.
  destruct (search re true true s) as [found |].
  - split; [intros _ | reflexivity].
    destruct (proj1 Hsearch (ex_intro _ _ eq_refl)) as (before & after & n & -> & Hline & Hm).
    apply match_here_sound in Hm as (w & rest & -> & Hw & _).
    now exists before, w, rest.
  - split; [discriminate |]. intros (before & w & rest & -> & Hline & Hw).
    destruct (proj2 Hsearch) as [found [=]].
    destruct (match_here_complete (body re) (to_end re) w rest Hw) as [n Hn];
      [now rewrite Hend |].
    now exists before, (w +++ rest), n.
Qed.

(** The pieces of the patterns. *)
Lemma in_lang_nil_iff w : in_lang [] w <-> w = "".
Proof. split; [now inversion 1 | intros ->; constructor]. Qed.

Lemma in_lang_cons_iff a p w :
  in_lang (a :: p) w <-> exists w1 w2, w = w1 +++ w2 /\ in_atom a w1 /\ in_lang p w2.
Proof.
  split.
  - inversion 1; subst. eauto.
  - intros (w1 & w2 & -> & H1 & H2). now constructor.
Qed.

Lemma in_atom_once x w : in_atom (Atom (is_char x) Once) w <-> w = String x "".
Proof.
  unfold in_atom. cbn [accepts quant]. split.
  - intros [Hall Hlen]. destruct (all_chars_one _ _ Hall Hlen) as (y & -> & Hy).
    unfold is_char in Hy. apply Ascii.eqb_eq in Hy. now subst.
  - intros ->. cbn. unfold is_char. now rewrite Ascii.eqb_refl.
Qed.

Lemma in_atom_one_or_more c w : in_atom (Atom c OneOrMore) w <-> run_of c w.
Proof.
  unfold in_atom, run_of. cbn [accepts quant]. split; intros [H1 H2]; split; try assumption.
  - intros ->. cbn in H2. lia.
  - destruct w; [easy | cbn; lia].
Qed.

Lemma in_atom_zero_or_one x w :
  in_atom (Atom (is_char x) ZeroOrOne) w <-> w = "" \/ w = String x "".
Proof.
  unfold in_atom. cbn [accepts quant]. split.
  - intros [Hall Hlen]. destruct w as [| y [| z w]]; cbn in Hlen; [now left | | lia].
    right. cbn in Hall. rewrite andb_true_r in Hall. unfold is_char in Hall.
    apply Ascii.eqb_eq in Hall. now subst.
  - intros [-> | ->]; cbn; [split; [reflexivity | lia] |].
    unfold is_char. rewrite Ascii.eqb_refl. split; [reflexivity | lia].
Qed.

Lemma in_lang_lit s p w :
  in_lang (lit s ++ p) w <-> exists w', w = s +++ w' /\ in_lang p w'.
Proof.
  revert w. induction s as [| x s IH]; intros w; cbn [lit app String.append].
  - split; [eauto | now intros (w' & -> & H)].
  - rewrite in_lang_cons_iff. split.
    + intros (w1 & w2 & -> & H1 & H2). apply in_atom_once in H1 as ->.
      apply IH in H2 as (w' & -> & Hw'). cbn. eauto.
    + intros (w' & -> & Hw'). exists (String x ""), (s +++ w'). repeat split.
      * now apply in_atom_once.
      * apply IH. eauto.
Qed.

End Matcher.

Section Formats.
Import JsString RegExp.

Lemma package_name_language s :
  test re_package_name s = true <-> org_slash_package s.
Proof.
  rewrite test_input_start by reflexivity. rewrite match_here_iff.
  cbn [re_package_name body to_end]. unfold org_slash_package. split.
  - intros (w & rest & -> & Hw & He). rewrite (He eq_refl), append_empty_r.
    apply in_lang_cons_iff in Hw as (org & w1 & -> & Horg & Hw).
    apply in_lang_cons_iff in Hw as (slash & w2 & -> & Hslash & Hw).
    apply in_lang_cons_iff in Hw as (name & w3 & -> & Hname & Hw).
    apply in_lang_nil_iff in Hw as ->. apply in_atom_once in Hslash as ->.
    apply in_atom_one_or_more in Horg, Hname. rewrite append_empty_r.
    now exists org, name.
  - intros (org & name & -> & Horg & Hname).
    exists (org +++ "/" +++ name +++ ""), "". rewrite !append_empty_r.
    repeat split. apply in_atom_one_or_more in Horg, Hname.
    constructor; [exact Horg |]. constructor; [now apply in_atom_once |].
    rewrite <- (append_empty_r name). constructor; [exact Hname | constructor].
Qed.

Lemma meta_version_language s :
  test re_meta_version s = true <-> major_dot_minor s.
Proof.
  rewrite test_input_start by reflexivity. rewrite match_here_iff.
  cbn [re_meta_version body to_end]. unfold major_dot_minor. split.
  - intros (w & rest & -> & Hw & He). rewrite (He eq_refl), append_empty_r.
    apply in_lang_cons_iff in Hw as (major & w1 & -> & Hmajor & Hw).
    apply in_lang_cons_iff in Hw as (dot & w2 & -> & Hdot & Hw).
    apply in_lang_cons_iff in Hw as (minor & w3 & -> & Hminor & Hw).
    apply in_lang_nil_iff in Hw as ->. apply in_atom_once in Hdot as ->.
    apply in_atom_one_or_more in Hmajor, Hminor. rewrite append_empty_r.
    now exists major, minor.
  - intros (major & minor & -> & Hmajor & Hminor).
    exists (major +++ "." +++ minor +++ ""), "". rewrite !append_empty_r.
    repeat split. apply in_atom_one_or_more in Hmajor, Hminor.
    constructor; [exact Hmajor |]. constructor; [now apply in_atom_once |].
    rewrite <- (append_empty_r minor). constructor; [exact Hminor | constructor].
Qed.

Lemma package_version_language s :
  test re_package_version s = true <-> starts_with_semver s.
Proof.
  rewrite test_input_start by reflexivity. rewrite match_here_iff.
  cbn [re_package_version body to_end]. unfold starts_with_semver. split.
  - intros (w & rest & -> & Hw & _).
    apply in_lang_cons_iff in Hw as (v & w1 & -> & Hv & Hw).
    apply in_lang_cons_iff in Hw as (major & w2 & -> & Hmajor & Hw).
    apply in_lang_cons_iff in Hw as (dot1 & w3 & -> & Hdot1 & Hw).
    apply in_lang_cons_iff in Hw as (minor & w4 & -> & Hminor & Hw).
    apply in_lang_cons_iff in Hw as (dot2 & w5 & -> & Hdot2 & Hw).
    apply in_lang_cons_iff in Hw as (patch & w6 & -> & Hpatch & Hw).
    apply in_lang_nil_iff in Hw as ->.
    apply in_atom_once in Hdot1 as ->. apply in_atom_once in Hdot2 as ->.
    apply in_atom_one_or_more in Hmajor, Hminor, Hpatch.
    apply in_atom_zero_or_one in Hv.
    exists v, major, minor, patch, rest. rewrite append_empty_r, !append_assoc.
    repeat (split; [first [reflexivity | assumption] |]). assumption.
  - intros (v & major & minor & patch & rest & -> & Hv & Hmajor & Hminor & Hpatch).
    exists (v +++ major +++ "." +++ minor +++ "." +++ patch +++ ""), rest.
    rewrite append_empty_r, !append_assoc. repeat split; [| discriminate].
    apply in_atom_one_or_more in Hmajor, Hminor, Hpatch.
    apply in_atom_zero_or_one in Hv.
    constructor; [exact Hv |]. constructor; [exact Hmajor |].
    constructor; [now apply in_atom_once |]. constructor; [exact Hminor |].
    constructor; [now apply in_atom_once |].
    rewrite <- (append_empty_r patch). constructor; [exact Hpatch | constructor].
Qed.

Lemma package_declaration_language content :
  test re_package_declaration content = true <-> declares_package content.
Proof.
  rewrite test_line_start by reflexivity.
  cbn [re_package_declaration body]. unfold declares_package. split.
  - intros (before & w & rest & -> & Hline & Hw).
    apply in_lang_lit in Hw as (w' & -> & Hw).
    apply in_lang_cons_iff in Hw as (spaces & w1 & -> & Hspaces & Hw).
    apply in_lang_cons_iff in Hw as (name & w2 & -> & Hname & Hw).
    apply in_lang_nil_iff in Hw as ->.
    apply in_atom_one_or_more in Hspaces, Hname.
    exists before, spaces, name, rest. rewrite append_empty_r, !append_assoc.
    repeat (split; [first [reflexivity | assumption] |]). assumption.
  - intros (before & spaces & name & rest & -> & Hline & Hspaces & Hname).
    exists before, ("package" +++ spaces +++ name +++ ""), rest.
    rewrite append_empty_r, !append_assoc. repeat split; [exact Hline |].
    apply in_atom_one_or_more in Hspaces, Hname.
    apply in_lang_lit. exists (spaces +++ name +++ ""). rewrite append_empty_r.
    split; [reflexivity |]. constructor; [exact Hspaces |].
    rewrite <- (append_empty_r name). constructor; [exact Hname | constructor].
Qed.

End Formats.

Section FormatChecks.
Import JsString.

Variable env : node_env.

Lemma in_if_singleton (b : bool) (x : string) : In x (if b then [x] else []) <-> b = true.
Proof. destruct b; simpl; intuition discriminate. Qed.

Lemma not_in_if_singleton (b : bool) (x y : string) :
  x <> y -> ~ In x (if b then [y] else []).
Proof. destruct b; simpl; intuition congruence. Qed.

Lemma in_after (x : string) (before found : list string) :
  ~ In x before -> (In x (before ++ found) <-> In x found).
Proof. rewrite in_app_iff. tauto. Qed.

Lemma bad_format_string re s :
  bad_format re (Js.VStr s) = true <-> s <> "" /\ RegExp.test re s = false.
Proof.
  cbn [bad_format]. destruct (String.eqb_spec s ""); cbn [negb andb].
  - split; [discriminate | now intros [H _]].
  - destruct (RegExp.test re s); cbn [negb]; split; try discriminate; try tauto.
    now intros [_ H].
Qed.

Variables (pkg : Js.jsval) (index : nat).

(** The error about the format of the name is none of the other errors
    of the package checker. *)
Lemma name_message_apart (s : string) :
  let message :=
    package_label index +++
    ": Invalid name format. Should be 'org/package-name', found: " +++ s in
  ~ In message (missing_field_findings pkg index) /\
  ~ In message (templates_findings env pkg index) /\
  ~ In message (tags_findings pkg index) /\
  ~ In message (dependencies_findings pkg index).
Proof.
  cbv zeta. repeat split.
  - unfold missing_field_findings, missing_field_message. rewrite in_map_iff.
    intros (field & H & _). apply append_cancel in H. discriminate H.
  - unfold templates_findings, templates_message. apply not_in_if_singleton.
    intros H. apply append_cancel in H. discriminate H.
  - unfold tags_findings. apply not_in_if_singleton.
    intros H. apply append_cancel in H. discriminate H.
  - unfold dependencies_findings. apply not_in_if_singleton.
    intros H. apply append_cancel in H. discriminate H.
Qed.

Lemma name_error_logged (s : string) :
  prop pkg "name" = Js.VStr s ->
  In (package_label index +++
      ": Invalid name format. Should be 'org/package-name', found: " +++ s)
     (f_errors (snd (package_outcome env pkg index))) <->
  bad_format re_package_name (Js.VStr s) = true.
Proof.
  intros Hname.
  assert (Hpkg : nullish pkg = false) by (destruct pkg; try discriminate; reflexivity).
  destruct (name_message_apart s) as (Hmissing & Htemplates & Htags & Hdeps).
  assert (Hfound : In (package_label index +++
                       ": Invalid name format. Should be 'org/package-name', found: " +++ s)
                      (name_findings pkg index) <->
                   bad_format re_package_name (Js.VStr s) = true).
  { unfold name_findings. rewrite Hname. apply in_if_singleton. }
  unfold package_outcome. rewrite (get_prop _ _ Hpkg), Hname.
  rewrite (shown_or_unnamed (Js.VStr s) eq_refl).
  assert (Hmatch : exists bad, not_match_result "pkg.name" (Js.VStr s) re_package_name = Ok bad).
  { unfold not_match_result. cbn [Js.call_match].
    destruct (Js.truthy (Js.VStr s)); eauto. }
  destruct Hmatch as [bad ->].
  destruct (Js.toString (prop pkg "type"));
    [destruct (not_match_result "pkg.version" _ _);
     [destruct (Js.toString (prop pkg "templates")) |] |];
    cbn [fst snd merge f_errors app]; unfold package_errors;
    rewrite ?app_nil_r, ?in_app_iff; tauto.
Qed.

(** The warning about the version is not the warning about the type. *)
Lemma version_warning_logged (s : string) :
  prop pkg "version" = Js.VStr s ->
  In (package_label index +++
      ": Version should follow semantic versioning (e.g., 'v1.0.0'), found: " +++ s)
     (f_warnings (snd (package_outcome env pkg index))) <->
  matchable (prop pkg "name") = true /\
  printable (prop pkg "type") = true /\
  bad_format re_package_version (Js.VStr s) = true.
Proof.
  intros Hversion.
  assert (Hpkg : nullish pkg = false) by (destruct pkg; try discriminate; reflexivity).
  assert (Htype : ~ In (package_label index +++
                        ": Version should follow semantic versioning (e.g., 'v1.0.0'), found: "
                        +++ s) (type_findings pkg index)).
  { unfold type_findings. apply not_in_if_singleton.
    intros H. apply append_cancel in H. discriminate H. }
  assert (Hfound : In (package_label index +++
                       ": Version should follow semantic versioning (e.g., 'v1.0.0'), found: "
                       +++ s) (version_findings pkg index) <->
                   bad_format re_package_version (Js.VStr s) = true).
  { unfold version_findings. rewrite Hversion. apply in_if_singleton. }
  unfold package_outcome. rewrite (get_prop _ _ Hpkg).
  destruct (Js.toString (if Js.truthy (prop pkg "name") then _ else _)) as [shown | e]
    eqn:Hshown.
  2:{ cbn [snd nothing f_warnings]. split; [intros [] |].
      intros (Hname & _). rewrite (shown_or_unnamed _ (matchable_printable _ Hname)) in Hshown.
      discriminate Hshown. }
  destruct (not_match_result "pkg.name" _ _) as [bad_name | e] eqn:Hname.
  2:{ cbn [snd f_warnings]. split; [intros [] |].
      intros (H & _). apply not_match_result_throw in Hname. congruence. }
  apply not_match_result_ok in Hname. destruct Hname as [Hname _].
  unfold printable.
  destruct (Js.toString (prop pkg "type")) as [type | e].
  2:{ cbn [snd merge f_warnings app]. split; [intros [] |]. now intros (_ & H & _). }
  assert (Hmatch : exists bad,
             not_match_result "pkg.version" (prop pkg "version") re_package_version = Ok bad).
  { rewrite Hversion. unfold not_match_result. cbn [Js.call_match].
    destruct (Js.truthy (Js.VStr s)); eauto. }
  destruct Hmatch as [bad ->].
  destruct (Js.toString (prop pkg "templates"));
    cbn [fst snd merge f_warnings app]; unfold package_warnings;
    rewrite ?app_nil_r, ?in_app_iff; tauto.
Qed.

(** Every warning of the package checker starts with the word Package. *)
Lemma package_warnings_labelled warning :
  In warning (f_warnings (snd (package_outcome env pkg index))) ->
  exists tail, warning = "Package " +++ tail.
Proof.
  assert (Hkinds : In warning (type_findings pkg index ++ version_findings pkg index) ->
                   exists tail, warning = "Package " +++ tail).
  { unfold type_findings, version_findings, package_label. rewrite in_app_iff.
    intros [H | H];
      [destruct (Js.truthy (prop pkg "type") && _) | destruct (bad_format _ _)];
      try contradiction; destruct H as [<- | []]; rewrite append_assoc; eauto. }
  unfold package_outcome.
  destruct (Js.get pkg "name"); [| now cbn].
  destruct (Js.toString (if Js.truthy _ then _ else _)); [| now cbn].
  destruct (not_match_result "pkg.name" _ _); [| now cbn].
  destruct (Js.toString (prop pkg "type")); [| now cbn].
  destruct (not_match_result "pkg.version" _ _);
    [destruct (Js.toString (prop pkg "templates")) |];
    cbn [fst snd merge f_warnings app]; unfold package_warnings;
    rewrite ?app_nil_r; intros H; apply Hkinds; rewrite in_app_iff in *; tauto.
Qed.

End FormatChecks.

Lemma packages_warnings_labelled env items :
  forall index warning,
    In warning (f_warnings (snd (packages_outcome env items index))) ->
    exists tail, warning = "Package " +++ tail.
Proof.
  induction items as [| pkg rest IH]; intros index warning; cbn [packages_outcome];
    [intros [] |].
  pose proof (package_warnings_labelled env pkg index warning) as Hpkg.
  destruct (package_outcome env pkg index) as [[[] | e] f]; cbn [fst snd] in *;
    [| exact Hpkg].
  specialize (IH (S index) warning).
  destruct (packages_outcome env rest (S index)) as [r g]; cbn [fst snd] in *.
  cbn [merge f_warnings]. rewrite in_app_iff. intros [H | H]; auto.
Qed.

Section CatalogVersion.
Import JsString.

Variable env : node_env.
Variables (text : string) (doc : Js.jsval) (s : string).

Hypothesis Hexists : existsSync env "meta.yaml" = true.
Hypothesis Hread : readFileSync env "meta.yaml" = Ok text.
Hypothesis Hload : yaml_load env text = Ok doc.
Hypothesis Hversion : prop doc "version" = Js.VStr s.

Lemma version_warning_of_the_catalog :
  In ("Version format should be X.Y (e.g., " +++ dquote +++ "3.0" +++ dquote +++
      "), found: " +++ s)
     (f_warnings (snd (meta_outcome env))) <->
  bad_format re_meta_version (Js.VStr s) = true.
Proof.
  assert (Hdoc : nullish doc = false) by (destruct doc; try discriminate; reflexivity).
  assert (Hfound : In ("Version format should be X.Y (e.g., " +++ dquote +++ "3.0" +++
                       dquote +++ "), found: " +++ s) (meta_version_findings doc) <->
                   bad_format re_meta_version (Js.VStr s) = true).
  { unfold meta_version_findings. rewrite Hversion. apply in_if_singleton. }
  assert (Hpackages : forall items index,
             ~ In ("Version format should be X.Y (e.g., " +++ dquote +++ "3.0" +++
                   dquote +++ "), found: " +++ s)
                  (f_warnings (snd (packages_outcome env items index)))).
  { intros items index H. apply packages_warnings_labelled in H.
    destruct H as [tail H]. discriminate H. }
  unfold meta_outcome, meta_body_outcome.
  rewrite Hexists, Hread, Hload, (get_prop _ _ Hdoc), Hversion. cbn [negb].
  assert (Hmatch : exists bad,
             not_match_result "meta.version" (Js.VStr s) re_meta_version = Ok bad).
  { unfold not_match_result. cbn [Js.call_match].
    destruct (Js.truthy (Js.VStr s)); eauto. }
  destruct Hmatch as [bad ->].
  destruct (prop doc "packages") as [| | b | z | name | items | fields];
    try (cbn [fst snd merge an_error f_warnings app]; rewrite ?app_nil_r; exact Hfound).
  destruct items as [| pkg rest];
    [cbn [fst snd merge an_error f_warnings app]; rewrite ?app_nil_r; exact Hfound |].
  specialize (Hpackages (pkg :: rest) 0).
  destruct (packages_outcome env (pkg :: rest) 0) as [[[] | e] f];
    cbn [fst snd merge an_error f_warnings app] in *;
    rewrite ?app_nil_r, ?in_app_iff; tauto.
Qed.

End CatalogVersion.

(** X17.  For a package whose name is a string, the package checker logs
    the name-format error exactly when the name is not empty (an empty
    name is a missing field) and is not made of two non-empty runs of
    lower-case letters, digits and hyphens with exactly one slash between
    them; nothing may come before or after.  This holds whatever the
    other fields are, also when the checker throws later on. *)
Theorem name_format_is_org_slash_package
  (env : node_env) (pkg : Js.jsval) (index : nat) (s : string) (v : state) :
  prop pkg "name" = Js.VStr s ->
  let message :=
    "Package " +++ JsString.of_nat (index + 1) +++
    ": Invalid name format. Should be 'org/package-name', found: " +++ s in
  ~ In message (errors v) ->
  In message (errors (snd (validatePackageDefinition env pkg index v))) <->
  s <> "" /\ ~ org_slash_package s.
Proof.
  intros Hname message Hfresh.
  destruct (run_emits_lists _ _ _ _ (emits_package_outcome env pkg index v))
    as (Herrors & _).
  rewrite Herrors, (in_after _ _ _ Hfresh).
  change message with
    (package_label index +++
     ": Invalid name format. Should be 'org/package-name', found: " +++ s).
  rewrite (name_error_logged env pkg index s Hname), bad_format_string,
    <- package_name_language.
  destruct (RegExp.test re_package_name s); intuition congruence.
Qed.

Lemma name_format_is_org_slash_package_witness :
  In "Package 1: Invalid name format. Should be 'org/package-name', found: acme/settings"
     (errors (snd (validatePackageDefinition Fixture.secret_env Fixture.secret_package 0
                     new_PackageValidator))) <->
  "acme/settings" <> "" /\ ~ org_slash_package "acme/settings".
Proof.
  apply (name_format_is_org_slash_package Fixture.secret_env Fixture.secret_package 0
           "acme/settings" new_PackageValidator eq_refl).
  intros [].
Defined.

(** X18.  For a package whose version is a string, the package checker
    logs the versioning warning exactly when it gets as far as the
    version check (the name is absent, falsy or a string, and the type can
    be printed) and the version is not empty and does not start with
    three non-empty runs of digits separated by dots, possibly after one
    [v]: the pattern has no end anchor, so whatever follows the third
    number is accepted. *)
Theorem version_format_is_a_semver_prefix
  (env : node_env) (pkg : Js.jsval) (index : nat) (s : string) (v : state) :
  prop pkg "version" = Js.VStr s ->
  let message :=
    "Package " +++ JsString.of_nat (index + 1) +++
    ": Version should follow semantic versioning (e.g., 'v1.0.0'), found: " +++ s in
  ~ In message (warnings v) ->
  In message (warnings (snd (validatePackageDefinition env pkg index v))) <->
  matchable (prop pkg "name") = true /\
  printable (prop pkg "type") = true /\
  s <> "" /\ ~ starts_with_semver s.
Proof.
  intros Hversion message Hfresh.
  destruct (run_emits_lists _ _ _ _ (emits_package_outcome env pkg index v))
    as (_ & Hwarnings & _).
  rewrite Hwarnings, (in_after _ _ _ Hfresh).
  change message with
    (package_label index +++
     ": Version should follow semantic versioning (e.g., 'v1.0.0'), found: " +++ s).
  rewrite (version_warning_logged env pkg index s Hversion), bad_format_string,
    <- package_version_language.
  destruct (RegExp.test re_package_version s); intuition congruence.
Qed.

Lemma version_format_is_a_semver_prefix_witness :
  In "Package 1: Version should follow semantic versioning (e.g., 'v1.0.0'), found: 1.2.3, more or less"
     (warnings (snd (validatePackageDefinition Fixture.secret_env
                       (Fixture.package "acme/settings" "utility" "t" "1.2.3, more or less")
                       0 new_PackageValidator))) <->
  matchable (Js.VStr "acme/settings") = true /\
  printable (Js.VStr "utility") = true /\
  "1.2.3, more or less" <> "" /\ ~ starts_with_semver "1.2.3, more or less".
Proof.
  apply (version_format_is_a_semver_prefix Fixture.secret_env
           (Fixture.package "acme/settings" "utility" "t" "1.2.3, more or less") 0
           "1.2.3, more or less" new_PackageValidator eq_refl).
  intros [].
Defined.

(** X19.  When the catalog can be read and parsed and its top-level
    version is a string, [validateMetaYaml] logs the version-format
    warning exactly when the version is not empty and is not exactly two
    non-empty runs of digits with one dot between them and nothing
    around them, whatever the rest of the catalog is. *)
Theorem catalog_version_is_major_dot_minor
  (env : node_env) (text : string) (doc : Js.jsval) (s : string) (v : state) :
  existsSync env "meta.yaml" = true ->
  readFileSync env "meta.yaml" = Ok text ->
  yaml_load env text = Ok doc ->
  prop doc "version" = Js.VStr s ->
  let message :=
    "Version format should be X.Y (e.g., " +++ JsString.dquote +++ "3.0" +++
    JsString.dquote +++ "), found: " +++ s in
  ~ In message (warnings v) ->
  In message (warnings (snd (validateMetaYaml env v))) <->
  s <> "" /\ ~ major_dot_minor s.
Proof.
  intros Hexists Hread Hload Hversion message Hfresh.
  destruct (run_emits_lists _ _ _ _ (emits_meta_outcome env v)) as (_ & Hwarnings & _).
  rewrite Hwarnings, (in_after _ _ _ Hfresh). unfold message.
  rewrite (version_warning_of_the_catalog env text doc s Hexists Hread Hload Hversion),
    bad_format_string, <- meta_version_language.
  destruct (RegExp.test re_meta_version s); intuition congruence.
Qed.

Lemma catalog_version_is_major_dot_minor_witness :
  In ("Version format should be X.Y (e.g., " +++ JsString.dquote +++ "3.0" +++
      JsString.dquote +++ "), found: 3.0")
     (warnings (snd (validateMetaYaml Fixture.secret_env new_PackageValidator))) <->
  "3.0" <> "" /\ ~ major_dot_minor "3.0".
Proof.
  apply (catalog_version_is_major_dot_minor Fixture.secret_env "packages: ..."
           (Fixture.catalog (Js.VArr [Fixture.secret_package])) "3.0"
           new_PackageValidator eq_refl eq_refl eq_refl eq_refl).
  intros [].
Defined.

(** X20.  [validateGoTemplate] accepts a content exactly when one of its
    lines starts with the word [package], then white space, then a word
    character; a declaration that is indented or follows something else
    on its line does not count.  Without it the file gets the one error
    about the missing declaration and no warning. *)
Theorem go_template_needs_a_package_line
  (env : node_env) (filePath content : string) (pkg : Js.jsval) (v : state) :
  nullish pkg = false ->
  let after := validateGoTemplate env filePath content pkg v in
  (fst after = Ok true <-> declares_package content) /\
  (~ declares_package content ->
   fst after = Ok false /\
   errors (snd after) = errors v ++ [filePath +++ ": Missing package declaration"] /\
   warnings (snd after) = warnings v).
Proof.
  intros Hpkg after.
  destruct (emits_validateGoTemplate env filePath content pkg Hpkg v)
    as [Hreturn Hfindings].
  destruct (run_emits_lists _ _ _ _ (conj Hreturn Hfindings))
    as (Herrors & Hwarnings & _).
  fold after in Hreturn, Herrors, Hwarnings.
  rewrite Hreturn, Herrors, Hwarnings. cbn [f_errors f_warnings].
  rewrite <- package_declaration_language. unfold declaration_findings.
  fold (has_package_declaration content).
  destruct (has_package_declaration content); cbn [negb].
  - split; [now split | intros H; now destruct H].
  - split; [split; [intros [=] | discriminate] |].
    intros _. now rewrite app_nil_r.
Qed.

Lemma go_template_needs_a_package_line_witness :
  fst (validateGoTemplate Fixture.headless_env "t/cache.go.tmpl" Fixture.headless_content
         Fixture.fx_package new_PackageValidator) = Ok true <->
  declares_package Fixture.headless_content.
Proof.
  exact (proj1 (go_template_needs_a_package_line Fixture.headless_env "t/cache.go.tmpl"
                  Fixture.headless_content Fixture.fx_package new_PackageValidator
                  eq_refl)).
Defined.

(** X21.  Only a Go template can fail on its content: a template that
    can be read and whose path does not end in [.go.tmpl] is valid and
    adds no error, whatever it holds and whatever the package is. *)
Theorem only_go_templates_fail_on_content
  (env : node_env) (filePath content : string) (pkg : Js.jsval) (v : state) :
  readFileSync env filePath = Ok content ->
  JsString.endsWith filePath ".go.tmpl" = false ->
  let after := validateTemplateFile env filePath pkg v in
  fst after = Ok true /\ errors (snd after) = errors v.
Proof.
  intros Hread Hgo after.
  assert (Hpkg : is_go_template filePath = true -> nullish pkg = false).
  { unfold is_go_template. now rewrite Hgo. }
  destruct (emits_validateTemplateFile env filePath pkg content Hpkg Hread v)
    as [Hreturn Hfindings].
  destruct (run_emits_lists _ _ _ _ (conj Hreturn Hfindings)) as (Herrors & _).
  fold after in Hreturn, Herrors. rewrite Hreturn, Herrors.
  unfold template_verdict, template_errors, is_go_template. rewrite Hgo.
  cbn [f_errors]. now rewrite app_nil_r.
Qed.

Lemma only_go_templates_fail_on_content_witness :
  fst (validateTemplateFile Fixture.secret_env "t/config.yaml.tmpl" Js.VNull
         new_PackageValidator) = Ok true.
Proof.
  exact (proj1 (only_go_templates_fail_on_content Fixture.secret_env "t/config.yaml.tmpl"
                  Fixture.secret_content Js.VNull new_PackageValidator
                  eq_refl eq_refl)).
Defined.

Lemma numbered_from_nth (entries : list string) :
  forall start i entry,
    nth_error entries i = Some entry ->
    In ("  " +++ JsString.of_nat (start + i + 1) +++ ". " +++ entry)
       (numbered_from start entries).
Proof.
  induction entries as [| first rest IH]; intros start i entry; [now destruct i |].
  destruct i as [| i]; cbn [nth_error numbered_from].
  - intros [= ->]. left. now rewrite Nat.add_0_r.
  - intros H. right. replace (start + S i + 1) with (S start + i + 1) by lia.
    now apply IH.
Qed.

(** X22.  The report leaves out nothing that was found: every error and
    every warning of the validator is printed by [generateReport] on a
    line of its own, after its 1-based position in its collection. *)
Theorem report_lists_every_finding (v : state) (i : nat) (message : string) :
  nth_error (errors v) i = Some message \/ nth_error (warnings v) i = Some message ->
  In ("  " +++ JsString.of_nat (i + 1) +++ ". " +++ message)
     (console (snd (generateReport v))).
Proof.
  intros H. rewrite generateReport_eq. cbn [snd printed console].
  apply in_or_app. right. unfold report_lines.
  rewrite !in_app_iff. right.
  destruct H as [H | H].
  - right. left.
    destruct (errors v) as [| first rest] eqn:Herrors; [now destruct i |].
    cbn [length Nat.ltb Nat.leb]. right. now apply (numbered_from_nth _ 0).
  - left.
    destruct (warnings v) as [| first rest] eqn:Hwarnings; [now destruct i |].
    cbn [length Nat.ltb Nat.leb]. right. now apply (numbered_from_nth _ 0).
Qed.

Lemma report_lists_every_finding_witness :
  In "  2. second"
     (console (snd (generateReport (State ["first"; "second"] [] [] [] 0)))).
Proof.
  apply (report_lists_every_finding (State ["first"; "second"] [] [] [] 0) 1 "second").
  left. reflexivity.
Defined.

(* ================================================================== *)
(** * The report and the exit status *)
(* ================================================================== *)

Lemma run_info_starts (env : node_env) :
  exists rest, f_info (run_findings env) = "Validating meta.yaml..." :: rest.
Proof.
  unfold run_findings.
  assert (Hmeta : exists rest,
             f_info (snd (meta_outcome env)) = "Validating meta.yaml..." :: rest).
  { unfold meta_outcome. destruct (negb (existsSync env "meta.yaml")); [now eexists |].
    destruct (meta_body_outcome env) as [[valid | e] f]; now eexists. }
  destruct (meta_outcome env) as [metaValid f]. cbn [snd] in Hmeta.
  destruct Hmeta as [rest Hrest].
  destruct metaValid; [| eauto]. cbn [merge f_info]. rewrite Hrest. now eexists.
Qed.

(** X23.  The figure the report gives after [Checks passed] is the number
    of info entries, the announcements of what is being validated, not a
    number of checks that succeeded: every run prints it, and it is at
    least one in every run, even when there is no [meta.yaml]. *)
Theorem checks_passed_counts_announcements (env : node_env) :
  let final := snd (validate env new_PackageValidator) in
  In (JsString.lf +++ colors.green +++ "✓ Checks passed: " +++
      JsString.of_nat (length (info final)) +++ colors.reset)
     (console final) /\
  1 <= length (info final).
Proof.
  destruct (validate_run_findings env) as (_ & _ & _ & Hinfo).
  cbv zeta in *. split.
  - rewrite validate_eq. cbv zeta. cbn [snd printed console info].
    apply in_or_app. right. unfold report_lines, checks_passed_line.
    cbn [app]. right. right. right. now left.
  - rewrite Hinfo. destruct (run_info_starts env) as [rest ->]. cbn [length]. lia.
Qed.

(** X24.  The exit status of the program is 0 when the catalog and its
    templates are in order (as the run requires them to pass) and 1
    otherwise; warnings never change it. *)
Theorem exit_status_tells_the_verdict (env : node_env) :
  (main env = 0%Z <-> catalog_ok env) /\ (main env = 0%Z \/ main env = 1%Z).
Proof.
  unfold main. destruct (validate_run_findings env) as [-> _].
  rewrite <- run_clean_iff.
  destruct (f_errors (run_findings env)) as [| first rest]; cbn [length Nat.eqb].
  - split; [split; reflexivity | now left].
  - split; [split; discriminate | now right].
Qed.
